(** * cdfetch: the grants fetcher of [app.py], embedded and verified

    The development follows [src/app.py]:
    - a small universe of Python values with the built-in operations the
      program relies on (equality, iteration, subscripting, [range], [str],
      [",".join]);
    - [GrantFetcher._build_query_params], the query-parameter builder, as a
      function of values and once more over a store of objects;
    - a state-and-exception monad over a world made of a file system, a
      remote service and a trace of observable events, in which
      [get_grants_transactions], [fetch_grants], [save_grants_to_file],
      [save_search_config], [load_search_config] and the fetch branch of
      [main] are written;
    - the [json] text format, as far as [json.dump(..., indent=2)] and
      [json.load] are used by the program;
    - [int] on a string, [validate_input] and the range prompts of menu
      choice 1, as functions of what was typed;
    - [get_saved_searches], with [os.listdir] read off the file system of
      the world. *)

From Stdlib Require Import ZArith QArith String Ascii List Lia Sorted.
From stdpp Require Import gmap strings list pretty.

Local Open Scope Z_scope.
Local Open Scope string_scope.
Set Warnings "-register-all".

(** ** Python values *)

(** The values that flow through the program: what [json.load] and
    [response.json()] can return, plus tuples, which [main] builds for the
    year and dollar ranges.  Numbers are integers: the program never computes
    with a fractional number, it only passes grant records through.  A
    dictionary keeps its keys in insertion order, as Python's does. *)
Inductive pyval : Type :=
| PyNone
| PyBool (b : bool)
| PyInt (n : Z)
| PyStr (s : string)
| PyList (items : list pyval)
| PyTuple (items : list pyval)
| PyDict (entries : list (string * pyval)).

(** The exception classes the program can meet.  [ConnectionError],
    [HTTPError] and [JSONDecodeError] are the ones of [requests], all
    subclasses of [requests.exceptions.RequestException]. *)
Inductive exn : Type :=
| TypeError
| ValueError
| KeyError
| OSError
| ConnectionError
| HTTPError (status : Z)
| JSONDecodeError.

Definition is_RequestException (e : exn) : bool :=
  match e with
  | ConnectionError | HTTPError _ | JSONDecodeError => true
  | _ => false
  end.

(** The outcome of an expression or call: a value, or a raised exception. *)
Inductive res (A : Type) : Type :=
| Ok (a : A)
| Raise (e : exn).
Arguments Ok {A} a.
Arguments Raise {A} e.

Definition res_bind {A B} (r : res A) (k : A -> res B) : res B :=
  match r with
  | Ok a => k a
  | Raise e => Raise e
  end.

(** ** Dictionaries: insertion-ordered association lists with unique keys *)

Section Dict.
Context {V : Type}.

Fixpoint dict_get (k : string) (d : list (string * V)) : option V :=
  match d with
  | [] => None
  | (k', v) :: d' => if String.eqb k k' then Some v else dict_get k d'
  end.

(** [d[k] = v]: an existing key keeps its position, a new key goes last. *)
Fixpoint dict_set (k : string) (v : V) (d : list (string * V)) : list (string * V) :=
  match d with
  | [] => [(k, v)]
  | (k', v') :: d' =>
      if String.eqb k k' then (k', v) :: d' else (k', v') :: dict_set k v d'
  end.

Definition dict_has (k : string) (d : list (string * V)) : bool :=
  match dict_get k d with Some _ => true | None => false end.

Definition dict_keys (d : list (string * V)) : list string := map fst d.
End Dict.

(** ** Built-in operations *)

(** [a == b].  A list never equals a tuple; [True == 1]; dictionaries are
    compared as mappings, whatever the order of their keys. *)
Fixpoint py_eqb (a b : pyval) {struct a} : bool :=
  match a, b with
  | PyNone, PyNone => true
  | PyBool x, PyBool y => Bool.eqb x y
  | PyBool x, PyInt y => Z.eqb (Z.b2z x) y
  | PyInt x, PyBool y => Z.eqb x (Z.b2z y)
  | PyInt x, PyInt y => Z.eqb x y
  | PyStr x, PyStr y => String.eqb x y
  | PyList xs, PyList ys | PyTuple xs, PyTuple ys =>
      (fix seq_eqb (xs ys : list pyval) {struct xs} : bool :=
         match xs, ys with
         | [], [] => true
         | x :: xs', y :: ys' => py_eqb x y && seq_eqb xs' ys'
         | _, _ => false
         end) xs ys
  | PyDict d1, PyDict d2 =>
      Nat.eqb (length d1) (length d2) &&
      (fix sub_eqb (d : list (string * pyval)) {struct d} : bool :=
         match d with
         | [] => true
         | (k, v) :: d' =>
             match dict_get k d2 with
             | Some w => py_eqb v w
             | None => false
             end && sub_eqb d'
         end) d1
  | _, _ => false
  end.

(** The characters of a string, each as a one-character string. *)
Fixpoint str_chars (s : string) : list string :=
  match s with
  | EmptyString => []
  | String c s' => String c EmptyString :: str_chars s'
  end.

(** [iter(v)] run to the end: the elements of a list or tuple, the keys of a
    dictionary, the characters of a string; anything else is not iterable. *)
Definition py_iter (v : pyval) : res (list pyval) :=
  match v with
  | PyList l | PyTuple l => Ok l
  | PyDict d => Ok (map PyStr (dict_keys d))
  | PyStr s => Ok (map PyStr (str_chars s))
  | PyNone | PyBool _ | PyInt _ => Raise TypeError
  end.

(** [a, b = v]. *)
Definition py_unpack2 (v : pyval) : res (pyval * pyval) :=
  res_bind (py_iter v) (fun l =>
    match l with
    | [a; b] => Ok (a, b)
    | _ => Raise ValueError
    end).

(** [v[k]] for a string [k]. *)
Definition py_getitem (v : pyval) (k : string) : res pyval :=
  match v with
  | PyDict d =>
      match dict_get k d with
      | Some x => Ok x
      | None => Raise KeyError
      end
  | _ => Raise TypeError
  end.

Definition is_substring (k s : string) : bool :=
  match String.index 0 k s with Some _ => true | None => false end.

(** [k in v] for a string [k]. *)
Definition py_contains (k : string) (v : pyval) : res bool :=
  match v with
  | PyDict d => Ok (dict_has k d)
  | PyList l | PyTuple l => Ok (existsb (py_eqb (PyStr k)) l)
  | PyStr s => Ok (is_substring k s)
  | PyNone | PyBool _ | PyInt _ => Raise TypeError
  end.

(** [operator.index(v)]: what [range] accepts as a bound. *)
Definition py_index (v : pyval) : res Z :=
  match v with
  | PyInt n => Ok n
  | PyBool b => Ok (Z.b2z b)
  | _ => Raise TypeError
  end.

(** [v + n] for an integer literal [n]. *)
Definition py_add_int (v : pyval) (n : Z) : res pyval :=
  match v with
  | PyInt m => Ok (PyInt (m + n))
  | PyBool b => Ok (PyInt (Z.b2z b + n))
  | _ => Raise TypeError
  end.

(** [list(range(a, b))] on integers. *)
Definition int_range (a b : Z) : list Z :=
  map (fun i : nat => a + Z.of_nat i) (seq 0 (Z.to_nat (b - a))).

(** [range(a, b)] on values. *)
Definition py_range (a b : pyval) : res (list Z) :=
  res_bind (py_index a) (fun x =>
  res_bind (py_index b) (fun y => Ok (int_range x y))).

(** [str(n)] for an integer. *)
Definition py_str (n : Z) : string := pretty n.

(** [bool(v)], the test of [if v:]. *)
Definition py_truthy (v : pyval) : bool :=
  match v with
  | PyNone => false
  | PyBool b => b
  | PyInt n => negb (Z.eqb n 0)
  | PyStr s => negb (String.eqb s "")
  | PyList l | PyTuple l => match l with [] => false | _ :: _ => true end
  | PyDict d => match d with [] => false | _ :: _ => true end
  end.

(** [v is not None]. *)
Definition is_not_None (v : pyval) : bool :=
  match v with PyNone => false | _ => true end.

(** The strings of a list of values; [str.join] refuses anything else. *)
Fixpoint as_strs (l : list pyval) : res (list string) :=
  match l with
  | [] => Ok []
  | PyStr s :: l' => res_bind (as_strs l') (fun ss => Ok (s :: ss))
  | _ :: _ => Raise TypeError
  end.

(** [sep.join(v)]. *)
Definition py_join (sep : string) (v : pyval) : res string :=
  res_bind (py_iter v) (fun l =>
  res_bind (as_strs l) (fun ss => Ok (String.concat sep ss))).

(** The list of strings [l] as a value. *)
Definition str_list (l : list string) : pyval := PyList (map PyStr l).

(** An optional integer as a value, and a pair of them as a tuple. *)
Definition opt_int (o : option Z) : pyval :=
  match o with Some n => PyInt n | None => PyNone end.

Definition int_pair (a b : option Z) : pyval := PyTuple [opt_int a; opt_int b].

#[export] Instance res_mret : MRet res := @Ok.
#[export] Instance res_mbind : MBind res := fun A B k r => res_bind r k.

(** ** The world, and computations in it *)

(** An HTTP GET: the endpoint, the query (kept as the mapping that
    [urlencode] is given) and the headers. *)
Record request : Type := Request {
  req_url : string;
  req_query : list (string * pyval);
  req_headers : list (string * string)
}.

(** What the other end does with a request: no answer at all, or an answer
    with a status code whose body is JSON ([Some]) or is not ([None]). *)
Inductive http_outcome : Type :=
| NoConnection
| Response (status : Z) (body : option pyval).

Inductive log_record : Type :=
| GetFailed (e : exn)                      (* logging.error, line 63 *)
| NoRowsOnPage (page_number : Z)           (* logging.info, line 121 *)
| FetchFailed (page_number : Z) (e : exn). (* logging.error, line 126 *)

Inductive log_level : Type := INFO | ERROR.

(** What an observer of a run sees, in order. *)
Inductive event : Type :=
| HttpGet (r : request)
| Log (level : log_level) (r : log_record)
| Sleep (seconds : Q)
| ConsolePrint (text : string).

Record world : Type := World {
  files : gmap string string;       (* regular files: path to text *)
  dirs : gset string;               (* directories that exist *)
  remote : request -> http_outcome; (* the service: it answers a request by its content *)
  trace : list event                (* events so far, oldest first *)
}.

(** A computation over a state [S] that returns or raises. *)
Definition ME (S A : Type) : Type := S -> res A * S.

#[export] Instance ME_mret {S} : MRet (ME S) := fun A a s => (Ok a, s).
#[export] Instance ME_mbind {S} : MBind (ME S) := fun A B k m s =>
  match m s with
  | (Ok a, s') => k a s'
  | (Raise e, s') => (Raise e, s')
  end.

Definition raise {S A} (e : exn) : ME S A := fun s => (Raise e, s).

Definition lift_res {S A} (r : res A) : ME S A := fun s => (r, s).

(** [try: m except Exception as e: ...], with the outcome handed to the
    continuation. *)
Definition try_except {S A} (m : ME S A) : ME S (res A) :=
  fun s => let '(r, s') := m s in (Ok r, s').

(** A computation on the world, run where there is a local variable too. *)
Definition in_world {L A} (m : ME world A) : ME (L * world) A :=
  fun '(l, w) => let '(r, w') := m w in (r, (l, w')).

Definition get_local {L} : ME (L * world) L := fun '(l, w) => (Ok l, (l, w)).

Definition set_local {L} (l : L) : ME (L * world) unit := fun '(_, w) => (Ok tt, (l, w)).

(** Run [m] with a local variable initialised to [l0]. *)
Definition with_local {L A} (l0 : L) (m : ME (L * world) A) : ME world A :=
  fun w => let '(r, (_, w')) := m (l0, w) in (r, w').

Definition emit (ev : event) : ME world unit :=
  fun w => (Ok tt, World (files w) (dirs w) (remote w) (trace w ++ [ev])).

Definition console_print (text : string) : ME world unit := emit (ConsolePrint text).

(** [time.sleep(seconds)]. *)
Definition time_sleep (seconds : Q) : ME world unit :=
  if Qle_bool 0 seconds then emit (Sleep seconds) else raise ValueError.

(** *** Files *)

Fixpoint has_slash (p : string) : bool :=
  match p with
  | EmptyString => false
  | String c p' => Ascii.eqb c "/" || has_slash p'
  end.

(** The part of a path before its last slash: the directory the file is
    created in.  The empty string is the current directory. *)
Fixpoint parent_dir (p : string) : string :=
  match p with
  | EmptyString => EmptyString
  | String c p' => if has_slash p' then String c (parent_dir p') else EmptyString
  end.

(** [open(path, "w")] succeeds when the directory exists and the path names
    no directory.  A file is known by the text of its path and a directory
    by the text of its own, the current directory being the empty prefix: a
    world holds one path for each file. *)
Definition can_open_write (w : world) (path : string) : bool :=
  negb (String.eqb path "") &&
  negb (bool_decide (path ∈ dirs w)) &&
  (String.eqb (parent_dir path) "" || bool_decide (parent_dir path ∈ dirs w)).

(** [with open(path, "w") as f: f.write(text)]. *)
Definition write_file (path text : string) : ME world unit :=
  fun w =>
    if can_open_write w path
    then (Ok tt, World (<[path := text]> (files w)) (dirs w) (remote w) (trace w))
    else (Raise OSError, w).

(** [with open(path, "r") as f: f.read()]. *)
Definition read_file (path : string) : ME world string :=
  fun w =>
    match files w !! path with
    | Some text => (Ok text, w)
    | None => (Raise OSError, w)
    end.

(** [os.makedirs(d, exist_ok=True)] for a directory of the current one. *)
Definition os_makedirs (d : string) : ME world unit :=
  fun w =>
    match files w !! d with
    | Some _ => (Raise OSError, w)
    | None => (Ok tt, World (files w) ({[d]} ∪ dirs w) (remote w) (trace w))
    end.

Definition ends_with_slash (p : string) : bool :=
  match String.get (String.length p - 1) p with
  | Some c => Ascii.eqb c "/"
  | None => false
  end.

(** [os.path.join(a, b)]. *)
Definition os_path_join (a b : string) : string :=
  match b with
  | String "/" _ => b
  | _ => if String.eqb a "" || ends_with_slash a then a +:+ b else a +:+ "/" +:+ b
  end.

(** ** The [json] module, as the program uses it *)

Module json.

Definition hex_digit (n : N) : ascii :=
  match n with
  | 0 => "0" | 1 => "1" | 2 => "2" | 3 => "3" | 4 => "4" | 5 => "5" | 6 => "6"
  | 7 => "7" | 8 => "8" | 9 => "9" | 10 => "a" | 11 => "b" | 12 => "c"
  | 13 => "d" | 14 => "e" | _ => "f"
  end%N%char.

Definition quote : string := String (ascii_of_N 34) EmptyString.

Definition newline : string := String (ascii_of_N 10) EmptyString.

(** One character of a string literal, [ensure_ascii] being on: printable
    ASCII stays, the rest is escaped. *)
Definition escape_char (c : ascii) : string :=
  let n := N_of_ascii c in
  if (n =? 34)%N then "\" +:+ quote
  else if (n =? 92)%N then "\\"
  else if (n =? 10)%N then "\n"
  else if (n =? 13)%N then "\r"
  else if (n =? 9)%N then "\t"
  else if (n =? 8)%N then "\b"
  else if (n =? 12)%N then "\f"
  else if ((32 <=? n) && (n <=? 126))%N then String c EmptyString
  else "\u00" +:+ String (hex_digit (n / 16)) (String (hex_digit (n mod 16)) EmptyString).

Fixpoint escape (s : string) : string :=
  match s with
  | EmptyString => EmptyString
  | String c s' => escape_char c +:+ escape s'
  end.

Definition encode_str (s : string) : string := quote +:+ escape s +:+ quote.

Fixpoint spaces (n : nat) : string :=
  match n with
  | O => EmptyString
  | S n' => String " " (spaces n')
  end.

(** The line break that opens a line at nesting depth [level]. *)
Definition newline_indent (indent level : nat) : string :=
  newline +:+ spaces (indent * level).

(** [json.dumps(v, indent=indent)] from nesting depth [level]. *)
Fixpoint encode (indent level : nat) (v : pyval) {struct v} : string :=
  match v with
  | PyNone => "null"
  | PyBool true => "true"
  | PyBool false => "false"
  | PyInt n => py_str n
  | PyStr s => encode_str s
  | PyList l | PyTuple l =>
      match l with
      | [] => "[]"
      | _ :: _ =>
          "[" +:+ newline_indent indent (S level)
          +:+ String.concat ("," +:+ newline_indent indent (S level))
                (map (encode indent (S level)) l)
          +:+ newline_indent indent level +:+ "]"
      end
  | PyDict d =>
      match d with
      | [] => "{}"
      | _ :: _ =>
          "{" +:+ newline_indent indent (S level)
          +:+ String.concat ("," +:+ newline_indent indent (S level))
                (map (fun kv => encode_str (fst kv) +:+ ": "
                                +:+ encode indent (S level) (snd kv)) d)
          +:+ newline_indent indent level +:+ "}"
      end
  end.

Definition dumps (v : pyval) (indent : nat) : string := encode indent 0 v.

(** *** Reading *)

Definition is_ws (c : ascii) : bool :=
  let n := N_of_ascii c in ((n =? 32) || (n =? 9) || (n =? 10) || (n =? 13))%N.

Fixpoint skip_ws (s : string) : string :=
  match s with
  | String c s' => if is_ws c then skip_ws s' else s
  | EmptyString => s
  end.

Definition digit_value (c : ascii) : option Z :=
  let n := N_of_ascii c in
  if ((48 <=? n) && (n <=? 57))%N then Some (Z.of_N (n - 48)) else None.

Definition hex_value (c : ascii) : option N :=
  let n := N_of_ascii c in
  if ((48 <=? n) && (n <=? 57))%N then Some (n - 48)%N
  else if ((97 <=? n) && (n <=? 102))%N then Some (n - 87)%N
  else if ((65 <=? n) && (n <=? 70))%N then Some (n - 55)%N
  else None.

(** The digits at the head of [s], read in base ten onto [acc]. *)
Fixpoint scan_digits (acc : Z) (s : string) : Z * string :=
  match s with
  | String c s' =>
      match digit_value c with
      | Some d => scan_digits (10 * acc + d) s'
      | None => (acc, s)
      end
  | EmptyString => (acc, s)
  end.

(** A number is read when it is an integer: an optional minus sign, then
    [0] or digits that do not start with [0], and no fraction or exponent
    after them. *)
Definition scan_int (s : string) : option (Z * string) :=
  let '(neg, s1) :=
    match s with
    | String "-" s' => (true, s')
    | _ => (false, s)
    end in
  match s1 with
  | String c s2 =>
      match digit_value c with
      | Some d =>
          let '(n, s3) := if (d =? 0)%Z then (0, s2) else scan_digits d s2 in
          match s3 with
          | String "." _ | String "e" _ | String "E" _ => None
          | _ => Some (if neg then - n else n, s3)
          end
      | None => None
      end
  | EmptyString => None
  end.

(** The rest of a string literal after its opening quote, up to and past
    the closing one.  A character is a code point below 256. *)
Fixpoint scan_string (s : string) : option (string * string) :=
  match s with
  | EmptyString => None
  | String c s' =>
      let n := N_of_ascii c in
      if (n =? 34)%N then Some (EmptyString, s')
      else if (n <? 32)%N then None
      else if (n =? 92)%N then
        match s' with
        | String e s2 =>
            let simple (c' : N) :=
              match scan_string s2 with
              | Some (t, r) => Some (String (ascii_of_N c') t, r)
              | None => None
              end in
            match e with
            | "b"%char => simple 8%N
            | "f"%char => simple 12%N
            | "n"%char => simple 10%N
            | "r"%char => simple 13%N
            | "t"%char => simple 9%N
            | "/"%char => simple 47%N
            | "\"%char => simple 92%N
            | "u"%char =>
                match s2 with
                | String h1 (String h2 (String h3 (String h4 s3))) =>
                    match hex_value h1, hex_value h2, hex_value h3, hex_value h4 with
                    | Some 0%N, Some 0%N, Some a, Some b =>
                        match scan_string s3 with
                        | Some (t, r) => Some (String (ascii_of_N (16 * a + b)) t, r)
                        | None => None
                        end
                    | _, _, _, _ => None
                    end
                | _ => None
                end
            | _ => if (N_of_ascii e =? 34)%N then simple 34%N else None
            end
        | EmptyString => None
        end
      else
        match scan_string s' with
        | Some (t, r) => Some (String c t, r)
        | None => None
        end
  end.

Definition starts_with (pre s : string) : option string :=
  if String.prefix pre s
  then Some (String.substring (String.length pre) (String.length s - String.length pre) s)
  else None.

(** The elements of an array after the first bracket and white space,
    [value] reading one value. *)
Fixpoint scan_items (value : string -> option (pyval * string)) (fuel : nat)
    (acc : list pyval) (s : string) : option (list pyval * string) :=
  match fuel with
  | O => None
  | S fuel' =>
      match value s with
      | Some (v, s1) =>
          match skip_ws s1 with
          | String "," s2 => scan_items value fuel' (acc ++ [v])%list (skip_ws s2)
          | String "]" s2 => Some ((acc ++ [v])%list, s2)
          | _ => None
          end
      | None => None
      end
  end.

(** The members of an object; a key met again takes the later value. *)
Fixpoint scan_members (value : string -> option (pyval * string)) (fuel : nat)
    (acc : list (string * pyval)) (s : string) : option (list (string * pyval) * string) :=
  match fuel with
  | O => None
  | S fuel' =>
      match s with
      | String q s0 =>
          if (N_of_ascii q =? 34)%N then
            match scan_string s0 with
            | Some (k, s1) =>
                match skip_ws s1 with
                | String ":" s2 =>
                    match value (skip_ws s2) with
                    | Some (v, s3) =>
                        match skip_ws s3 with
                        | String "," s4 =>
                            scan_members value fuel' (dict_set k v acc) (skip_ws s4)
                        | String "}" s4 => Some (dict_set k v acc, s4)
                        | _ => None
                        end
                    | None => None
                    end
                | _ => None
                end
            | None => None
            end
          else None
      | EmptyString => None
      end
  end.

(** One value at the head of [s]. *)
Fixpoint scan_value (fuel : nat) (s : string) : option (pyval * string) :=
  match fuel with
  | O => None
  | S fuel' =>
      match s with
      | String c s' =>
          if (N_of_ascii c =? 34)%N then
            match scan_string s' with
            | Some (t, r) => Some (PyStr t, r)
            | None => None
            end
          else if Ascii.eqb c "[" then
            match skip_ws s' with
            | String "]" r => Some (PyList [], r)
            | s1 =>
                match scan_items (scan_value fuel') fuel' [] s1 with
                | Some (l, r) => Some (PyList l, r)
                | None => None
                end
            end
          else if Ascii.eqb c "{" then
            match skip_ws s' with
            | String "}" r => Some (PyDict [], r)
            | s1 =>
                match scan_members (scan_value fuel') fuel' [] s1 with
                | Some (d, r) => Some (PyDict d, r)
                | None => None
                end
            end
          else
            match starts_with "null" s, starts_with "true" s, starts_with "false" s with
            | Some r, _, _ => Some (PyNone, r)
            | _, Some r, _ => Some (PyBool true, r)
            | _, _, Some r => Some (PyBool false, r)
            | _, _, _ =>
                match scan_int s with
                | Some (n, r) => Some (PyInt n, r)
                | None => None
                end
            end
      | EmptyString => None
      end
  end.

(** [json.loads(text)]: one value, white space around it and nothing
    else.  Arrays come back as lists. *)
Definition loads (text : string) : option pyval :=
  match scan_value (S (String.length text)) (skip_ws text) with
  | Some (v, r) =>
      match skip_ws r with
      | EmptyString => Some v
      | String _ _ => None
      end
  | None => None
  end.

End json.

(** ** The [requests] calls of the program *)

(** [requests.get(url, headers=headers)]: the request goes out, and either
    an answer comes back or the transport fails. *)
Definition answer (r : request) : ME world (Z * option pyval) :=
  fun w =>
    match remote w r with
    | NoConnection => (Raise ConnectionError, w)
    | Response status body => (Ok (status, body), w)
    end.

Definition requests_get (r : request) : ME world (Z * option pyval) :=
  emit (HttpGet r);; answer r.

(** [response.raise_for_status()]: statuses 400 to 599 raise. *)
Definition raise_for_status (response : Z * option pyval) : ME world unit :=
  let status := fst response in
  if ((400 <=? status) && (status <? 600))%Z then raise (HTTPError status) else mret tt.

(** [response.json()]. *)
Definition response_json (response : Z * option pyval) : ME world pyval :=
  match snd response with
  | Some v => mret v
  | None => raise JSONDecodeError
  end.

(** ** class GrantFetcher *)

Module GrantFetcher.

Record t : Type := Build {
  api_key : string;
  delay : Q;
  base_url : string
}.

(** [delay: float = 60 / 9] *)
Definition default_delay : Q := 60 # 9.

Definition __init__ (api_key : string) (delay : Q) : t :=
  Build api_key delay "https://api.candid.org/grants/v1/transactions".

(** [_build_query_params] (lines 66-105).  The arguments are the values
    that reach the method at run time: the ranges are tuples when they come
    from the prompts of [main] and lists when they come from
    [load_search_config], and line 87 compares [year_range] with a tuple. *)
Definition _build_query_params (page_number : Z)
    (year_range dollar_range subjects populations locations support_strategies : pyval)
  : res (list (string * pyval)) :=
  '(start_year, end_year) ← py_unpack2 year_range;
  '(min_amt, max_amt) ← py_unpack2 dollar_range;
  let params :=
    [ ("page", PyInt page_number);
      ("include_gov", PyStr "yes");
      ("sort_by", PyStr "year_issued");
      ("sort_order", PyStr "desc");
      ("format", PyStr "json") ] in
  params ←
    (if py_truthy locations then
       joined ← py_join "," locations;
       Ok (dict_set "location_type" (PyStr "area_served")
             (dict_set "geo_id_type" (PyStr "geonameid")
                (dict_set "location" (PyStr joined) params)))
     else Ok params);
  params ←
    (if negb (py_eqb year_range (PyTuple [PyNone; PyNone])) then
       stop ← py_add_int end_year 1;
       years ← py_range start_year stop;
       Ok (dict_set "year" (PyStr (String.concat "," (map py_str years))) params)
     else Ok params);
  params ←
    (if py_truthy subjects then
       joined ← py_join "," subjects;
       Ok (dict_set "subject" (PyStr joined) params)
     else Ok params);
  params ←
    (if py_truthy populations then
       joined ← py_join "," populations;
       Ok (dict_set "population" (PyStr joined) params)
     else Ok params);
  params ←
    (if py_truthy support_strategies then
       joined ← py_join "," support_strategies;
       Ok (dict_set "support" (PyStr joined) params)
     else Ok params);
  let params :=
    if is_not_None min_amt then dict_set "min_amt" min_amt params else params in
  let params :=
    if is_not_None max_amt then dict_set "max_amt" max_amt params else params in
  Ok params.

(** [get_grants_transactions] (lines 46-64). *)
Definition get_grants_transactions (self : t) (page_number : Z)
    (year_range dollar_range subjects populations locations support_strategies : pyval)
  : ME world pyval :=
  params ← lift_res (_build_query_params page_number year_range dollar_range
                       subjects populations locations support_strategies);
  let headers :=
    [ ("accept", "application/json"); ("Subscription-Key", api_key self) ] in
  r ← try_except
        (response ← requests_get (Request (base_url self) params headers);
         raise_for_status response;;
         response_json response);
  match r with
  | Ok v => mret v
  | Raise e =>
      if is_RequestException e
      then emit (Log ERROR (GetFailed e));; raise e
      else raise e
  end.

(** The body of the [try] of [fetch_grants] (lines 115-123); the local
    state is [all_grants]. *)
Definition fetch_page (self : t) (page_number : Z)
    (year_range dollar_range subjects populations locations support_strategies : pyval)
  : ME (list pyval * world) unit :=
  grants_data ← in_world (get_grants_transactions self page_number year_range dollar_range
                            subjects populations locations support_strategies);
  data ← lift_res (py_getitem grants_data "data");
  has_rows ← lift_res (py_contains "rows" data);
  (if has_rows : bool then
     data ← lift_res (py_getitem grants_data "data");
     rows ← lift_res (py_getitem data "rows");
     items ← lift_res (py_iter rows);
     all_grants ← get_local;
     set_local (all_grants ++ items)%list
   else in_world (emit (Log INFO (NoRowsOnPage page_number))));;
  in_world (time_sleep (delay self)).

(** The [for] loop of [fetch_grants] over the pages still to come (lines
    113-127): an exception in the body is logged and ends the loop. *)
Fixpoint fetch_loop (self : t) (pages : list Z)
    (year_range dollar_range subjects populations locations support_strategies : pyval)
  : ME (list pyval * world) unit :=
  match pages with
  | [] => mret tt
  | page_number :: pages' =>
      r ← try_except (fetch_page self page_number year_range dollar_range
                        subjects populations locations support_strategies);
      match r with
      | Ok _ => fetch_loop self pages' year_range dollar_range
                  subjects populations locations support_strategies
      | Raise e => in_world (emit (Log ERROR (FetchFailed page_number e)))
      end
  end.

(** [fetch_grants] (lines 107-129), handed a number for [num_pages]. *)
Definition fetch_grants (self : t) (num_pages : Z)
    (year_range dollar_range subjects populations locations support_strategies : pyval)
  : ME world (list pyval) :=
  with_local []
    (fetch_loop self (int_range 1 (num_pages + 1)) year_range dollar_range
       subjects populations locations support_strategies;;
     get_local).


(** [save_grants_to_file] (lines 131-136). *)
Definition save_grants_to_file (grants : list pyval) (output_prefix : string)
    (page_start page_end : Z) : ME world unit :=
  let output_file :=
    output_prefix +:+ "_pages_" +:+ py_str page_start +:+ "-" +:+ py_str page_end
    +:+ ".json" in
  write_file output_file (json.dumps (PyDict [("grants", PyList grants)]) 2);;
  console_print ("[bold green]Grants data saved to " +:+ output_file +:+ "[/bold green]").

End GrantFetcher.

(** ** The builder on a store of objects *)

(** Python hands references to a function.  Whether [_build_query_params]
    changes what it is handed cannot be read off a function of values, so
    the method is written once more over a store: an argument is the address
    of an object, an object is read where its address is used, the
    dictionary literal of line 74 makes a new object, and [params[k] = v]
    changes the object at the address of [params].  Addresses are positive
    numbers, and a store is a finite map from addresses to the contents of
    the objects; numbers, strings and [None] cannot be changed and are kept
    as values. *)







(** ** Saved searches *)

Definition SAVED_SEARCHES_DIR : string := "saved_searches".

(** [save_search_config] (lines 172-177). *)
Definition save_search_config (config : pyval) (search_name : string) : ME world unit :=
  os_makedirs SAVED_SEARCHES_DIR;;
  let config_file := os_path_join SAVED_SEARCHES_DIR (search_name +:+ ".json") in
  write_file config_file (json.dumps config 2);;
  console_print ("[bold green]Search configuration saved to " +:+ config_file
                 +:+ "[/bold green]").

(** [load_search_config] (lines 180-185). *)
Definition load_search_config (search_name : string) : ME world pyval :=
  let config_file := os_path_join SAVED_SEARCHES_DIR (search_name +:+ ".json") in
  text ← read_file config_file;
  config ← match json.loads text with
           | Some v => mret v
           | None => raise ValueError
           end;
  console_print ("[bold green]Search configuration loaded from " +:+ config_file
                 +:+ "[/bold green]");;
  mret config.

(** ** The menu of [main] *)

(** The dictionary that menu choice 4 saves (lines 317-325). *)
Definition search_config
    (year_range dollar_range subjects populations locations support_strategies : pyval)
    (output_prefix : string) : pyval :=
  PyDict
    [ ("year_range", year_range);
      ("dollar_range", dollar_range);
      ("subjects", subjects);
      ("populations", populations);
      ("locations", locations);
      ("support_strategies", support_strategies);
      ("output_prefix", PyStr output_prefix) ].

(** Menu choice 3 from the first batch on (lines 293-309), the prompts
    having delivered [num_pages], [continue_choice] and [additional_pages];
    [total_pages] is what the service announced.  Console output other than
    that of [save_grants_to_file] is left out. *)
Definition main_fetch (grant_fetcher : GrantFetcher.t)
    (year_range dollar_range subjects populations locations support_strategies : pyval)
    (output_prefix : string) (total_pages num_pages : Z) (continue_choice : string)
    (additional_pages : Z) : ME world (list pyval) :=
  grants ← GrantFetcher.fetch_grants grant_fetcher num_pages year_range dollar_range
             subjects populations locations support_strategies;
  GrantFetcher.save_grants_to_file grants output_prefix 1 num_pages;;
  if String.eqb continue_choice "Y" || String.eqb continue_choice "y" then
    let remaining_pages := total_pages - num_pages in
    if (0 <? remaining_pages)%Z then
      additional_grants ← GrantFetcher.fetch_grants grant_fetcher additional_pages
                            year_range dollar_range
                            subjects populations locations support_strategies;
      let grants := (grants ++ additional_grants)%list in
      GrantFetcher.save_grants_to_file grants output_prefix
        (num_pages + 1) (num_pages + additional_pages);;
      mret grants
    else mret grants
  else mret grants.

(** ** [int(value)] on a string, [validate_input] and the prompts of [main] *)

(** White space as [int] sees it, among the code points below 256: the
    characters from tab to carriage return, the space, and the code points
    133 and 160. *)
Definition py_isspace (c : ascii) : bool :=
  let n := N_of_ascii c in
  (((9 <=? n) && (n <=? 13)) || (n =? 32) || (n =? 133) || (n =? 160))%N.

Fixpoint lstrip_space (s : string) : string :=
  match s with
  | String c s' => if py_isspace c then lstrip_space s' else s
  | EmptyString => s
  end.

(** The digits at the head of [s], read in base ten onto [acc] and counted
    onto [digits]; an underscore may stand between two digits. *)
Fixpoint py_int_digits (acc : Z) (digits : nat) (s : string) : option (Z * nat * string) :=
  match s with
  | String c s' =>
      match json.digit_value c with
      | Some d => py_int_digits (10 * acc + d) (S digits) s'
      | None =>
          if Ascii.eqb c "_" then
            match s' with
            | String c' _ =>
                match json.digit_value c' with
                | Some _ => py_int_digits acc digits s'
                | None => None
                end
            | EmptyString => None
            end
          else Some (acc, digits, s)
      end
  | EmptyString => Some (acc, digits, s)
  end.

(** [sys.int_info.default_max_str_digits]: a longer numeral is refused. *)
Definition int_max_str_digits : nat := 4300.

(** The test of a bound of [validate_input]: lines 146 and 148. *)
Definition below (bound : option Z) (n : Z) : bool :=
  match bound with Some m => (n <? m)%Z | None => false end.

Definition above (bound : option Z) (n : Z) : bool :=
  match bound with Some m => (m <? n)%Z | None => false end.

(** [int(value)] for a string: white space around, an optional sign, then
    digits; anything else is a [ValueError]. *)
Definition split_sign (s : string) : bool * string :=
  match s with
  | String "-" s' => (true, s')
  | String "+" s' => (false, s')
  | _ => (false, s)
  end.

Definition py_int (value : string) : res Z :=
  let '(neg, s1) := split_sign (lstrip_space value) in
  match s1 with
  | String c _ =>
      match json.digit_value c with
      | Some _ =>
          match py_int_digits 0 0 s1 with
          | Some (n, digits, rest) =>
              if (int_max_str_digits <? digits)%nat then Raise ValueError
              else
                match lstrip_space rest with
                | EmptyString => Ok (if neg : bool then - n else n)
                | String _ _ => Raise ValueError
                end
          | None => Raise ValueError
          end
      | None => Raise ValueError
      end
  | EmptyString => Raise ValueError
  end.

(** [validate_input] (lines 139-152); [value_type] is [int] at each of its
    calls. *)
Definition validate_input (value : string) (min_value max_value : option Z)
  : res (option Z) :=
  if negb (py_truthy (PyStr value)) then Ok None
  else
    match
      (parsed_value ← py_int value;
       if below min_value parsed_value then Raise ValueError
       else if above max_value parsed_value then Raise ValueError
       else Ok (Some parsed_value))
    with
    | Ok r => Ok r
    | Raise ValueError => Raise ValueError
    | Raise e => Raise e
    end.

(** Menu choice 1, the years (lines 243-247): [start_answer] and
    [end_answer] are what the two calls of [Prompt.ask] returned, the second
    call being made only for a start year that is truthy. *)
Definition enter_year_range (start_answer end_answer : string) : res pyval :=
  start_year ← validate_input start_answer (Some 1900) (Some 2100);
  end_year ← (if py_truthy (opt_int start_year)
              then validate_input end_answer start_year (Some 2100)
              else Ok None);
  Ok (PyTuple [opt_int start_year; opt_int end_year]).

(** Menu choice 1, the dollar amounts (lines 249-253). *)
Definition enter_dollar_range (min_answer max_answer : string) : res pyval :=
  min_amt ← validate_input min_answer (Some 0) None;
  max_amt ← (if py_truthy (opt_int min_amt)
             then validate_input max_answer min_amt None
             else Ok None);
  Ok (PyTuple [opt_int min_amt; opt_int max_amt]).

(** ** The list of the saved searches *)

(** [s.endswith(suffix)]. *)
Definition str_endswith (suffix s : string) : bool :=
  (String.length suffix <=? String.length s)%nat &&
  String.eqb
    (String.substring (String.length s - String.length suffix) (String.length suffix) s)
    suffix.

(** [s.rfind(c)] for a character [c]: its last index in [s], or [-1]. *)
Fixpoint rfind_from (c : ascii) (s : string) (i last : Z) : Z :=
  match s with
  | EmptyString => last
  | String x s' => rfind_from c s' (i + 1) (if Ascii.eqb x c then i else last)
  end.

Definition str_rfind (c : ascii) (s : string) : Z := rfind_from c s 0 (-1).

Fixpoint all_dots (s : string) : bool :=
  match s with
  | EmptyString => true
  | String c s' => Ascii.eqb c "." && all_dots s'
  end.

(** [os.path.splitext(p)]: the extension starts at the last dot of the last
    component, unless that component has nothing but dots before it. *)
Definition os_path_splitext (p : string) : string * string :=
  let sepIndex := str_rfind "/" p in
  let dotIndex := str_rfind "." p in
  if (sepIndex <? dotIndex)%Z then
    let filenameIndex := Z.to_nat (sepIndex + 1) in
    if all_dots (String.substring filenameIndex (Z.to_nat dotIndex - filenameIndex) p)
    then (p, EmptyString)
    else (String.substring 0 (Z.to_nat dotIndex) p,
          String.substring (Z.to_nat dotIndex) (String.length p - Z.to_nat dotIndex) p)
  else (p, EmptyString).

(** The name under which the path [p] is an entry of the directory [d]. *)
Definition dir_entry (d p : string) : option string :=
  match json.starts_with (d +:+ "/") p with
  | Some n => if negb (String.eqb n "") && negb (has_slash n) then Some n else None
  | None => None
  end.

(** [os.listdir(d)]: the names of the files and directories in [d].  The
    order is the system's; the statements below depend on membership only. *)
Definition os_listdir (d : string) : ME world (list string) :=
  fun w =>
    if bool_decide (d ∈ dirs w)
    then (Ok (omap (dir_entry d) (elements (dom (files w) ∪ dirs w))), w)
    else (Raise OSError, w).

(** [get_saved_searches] (lines 202-204). *)
Definition get_saved_searches : ME world (list string) :=
  entries ← os_listdir SAVED_SEARCHES_DIR;
  let search_files := List.filter (str_endswith ".json") entries in
  mret (map (fun f => fst (os_path_splitext f)) search_files).

(** ** Reading a trace *)

(** The pages asked of the service, in order. *)
Definition requested_pages (evs : list event) : list Z :=
  flat_map (fun ev =>
    match ev with
    | HttpGet r =>
        match dict_get "page" (req_query r) with
        | Some (PyInt n) => [n]
        | _ => []
        end
    | _ => []
    end) evs.

(** The failures logged by [fetch_grants], in order. *)
Definition fetch_failures (evs : list event) : list (Z * exn) :=
  flat_map (fun ev =>
    match ev with
    | Log ERROR (FetchFailed p e) => [(p, e)]
    | _ => []
    end) evs.

(** The pages for which the information note of line 121 was logged. *)
Definition no_rows_notes (evs : list event) : list Z :=
  flat_map (fun ev =>
    match ev with
    | Log INFO (NoRowsOnPage p) => [p]
    | _ => []
    end) evs.

(** The pauses made, in order. *)
Definition pauses (evs : list event) : list Q :=
  flat_map (fun ev =>
    match ev with
    | Sleep seconds => [seconds]
    | _ => []
    end) evs.

(** What [json.load] gives back for what [json.dump] wrote of [v]: the
    tuples have become lists. *)
Fixpoint listify (v : pyval) : pyval :=
  match v with
  | PyList l | PyTuple l => PyList (map listify l)
  | PyDict d => PyDict (map (fun kv => (fst kv, listify (snd kv))) d)
  | PyNone | PyBool _ | PyInt _ | PyStr _ => v
  end.

(** No key occurs twice, as in every dictionary of Python. *)
Fixpoint keys_distinct {V} (d : list (string * V)) : bool :=
  match d with
  | [] => true
  | kv :: d' => negb (dict_has (fst kv) d') && keys_distinct d'
  end.

(** The same for the dictionaries inside a value. *)
Fixpoint well_keyed (v : pyval) : bool :=
  match v with
  | PyList l | PyTuple l => forallb well_keyed l
  | PyDict d => keys_distinct d && forallb (fun kv => well_keyed (snd kv)) d
  | PyNone | PyBool _ | PyInt _ | PyStr _ => true
  end.

(** Fuel that [json.scan_value] needs for the text of [v]. *)
Fixpoint scan_fuel (v : pyval) : nat :=
  match v with
  | PyList l | PyTuple l => S (Nat.max (length l) (list_max (map scan_fuel l)))
  | PyDict d => S (Nat.max (length d) (list_max (map (fun kv => scan_fuel (snd kv)) d)))
  | PyNone | PyBool _ | PyInt _ | PyStr _ => 1
  end.

(** Values without tuples: what [json.load] and [response.json()] return. *)
Fixpoint no_tuple (v : pyval) : bool :=
  match v with
  | PyTuple _ => false
  | PyList l => forallb no_tuple l
  | PyDict d => forallb (fun kv => no_tuple (snd kv)) d
  | PyNone | PyBool _ | PyInt _ | PyStr _ => true
  end.

(** What may follow a value in the text of [json.dumps]: nothing, a comma
    or a line break. *)
Definition after_value (rest : string) : Prop :=
  match rest with
  | EmptyString => True
  | String c _ => c = ","%char \/ c = ascii_of_N 10
  end.

(** The characters a JSON value can start with. *)
Definition value_head (c : ascii) : bool :=
  match json.digit_value c with
  | Some _ => true
  | None =>
      existsb (Ascii.eqb c) ["-"; ascii_of_N 34; "["; "{"; "n"; "t"; "f"]%char
  end.

(** The text of [v], at any depth and before any text that can follow a
    value, is read as [v] with lists for tuples. *)
Definition reads_back (indent : nat) (v : pyval) : Prop :=
  well_keyed v = true ->
  forall (level fuel : nat) (rest : string),
    (scan_fuel v <= fuel)%nat -> after_value rest ->
    json.scan_value fuel (json.encode indent level v +:+ rest) = Some (listify v, rest).

(** The separator of the items of an array or object, and the text of one
    member of an object, as [json.encode] lays them out. *)
Definition separator (indent level : nat) : string :=
  "," +:+ json.newline_indent indent level.

Definition member_text (indent level : nat) (kv : string * pyval) : string :=
  json.encode_str (fst kv) +:+ ": " +:+ json.encode indent level (snd kv).

(** ** Names for the statements *)

(** The world after some more events. *)
Definition add_events (evs : list event) (w : world) : world :=
  World (files w) (dirs w) (remote w) (trace w ++ evs).

(** What lines 118-121 make of a decoded page: the rows to append when the
    page has some, [None] when it has no [rows] entry. *)
Definition page_rows (grants_data : pyval) : res (option (list pyval)) :=
  data ← py_getitem grants_data "data";
  has_rows ← py_contains "rows" data;
  if has_rows : bool then
    rows ← py_getitem data "rows";
    items ← py_iter rows;
    Ok (Some items)
  else Ok None.

Definition rows_of (o : option (list pyval)) : list pyval :=
  match o with Some items => items | None => [] end.

(** The events of a page that was fetched and decoded. *)
Definition page_events (page_number : Z) (o : option (list pyval)) (seconds : Q)
  : list event :=
  match o with
  | Some _ => [Sleep seconds]
  | None => [Log INFO (NoRowsOnPage page_number); Sleep seconds]
  end.

(** The dictionary literal of lines 74-80. *)
Definition base_params (page_number : Z) : list (string * pyval) :=
  [ ("page", PyInt page_number);
    ("include_gov", PyStr "yes");
    ("sort_by", PyStr "year_issued");
    ("sort_order", PyStr "desc");
    ("format", PyStr "json") ].

(** The keys that depend on the filter. *)
Definition filter_keys : list string :=
  [ "location"; "geo_id_type"; "location_type"; "year"; "subject"; "population";
    "support"; "min_amt"; "max_amt" ].

(** The year range of a well-typed filter that the builder accepts: no bound
    at all, or both. *)
Definition year_range_safe (start_year end_year : option Z) : bool :=
  match start_year, end_year with
  | None, None | Some _, Some _ => true
  | _, _ => false
  end.

(** ** Fixtures for the examples *)

(** A service that answers by the page number of the query. *)
Definition paged_remote (answer_page : Z -> http_outcome) : request -> http_outcome :=
  fun r =>
    match dict_get "page" (req_query r) with
    | Some (PyInt n) => answer_page n
    | _ => NoConnection
    end.

(** The envelope of a page: [{"data": {"rows": ..., "total_hits": ...,
    "num_pages": ...}}], the [rows] entry being optional. *)
Definition envelope (rows : option (list pyval)) (total_hits num_pages : Z) : pyval :=
  PyDict
    [ ("data",
       PyDict
         (match rows with Some l => [("rows", PyList l)] | None => [] end
          ++ [("total_hits", PyInt total_hits); ("num_pages", PyInt num_pages)])%list) ].

(** A world with no file, no directory and no event yet. *)
Definition fresh_world (srv : request -> http_outcome) : world := World ∅ ∅ srv [].

(** Pages 1 and 3 hold the rows [A] and [B]; page 2 is answered with
    status 500. *)
Definition failing_on_page_2 : request -> http_outcome :=
  paged_remote (fun n =>
    if (n =? 2)%Z then Response 500 None
    else Response 200 (Some (envelope (Some [PyStr "A"; PyStr "B"]) 6 3))).

(** Page 2 has no [rows] entry; the other pages hold the row [A]. *)
Definition no_rows_on_page_2 : request -> http_outcome :=
  paged_remote (fun n =>
    if (n =? 2)%Z then Response 200 (Some (envelope None 0 3))
    else Response 200 (Some (envelope (Some [PyStr "A"]) 2 3))).

(** Every page holds one row, its own number. *)
Definition numbered_pages : request -> http_outcome :=
  paged_remote (fun n => Response 200 (Some (envelope (Some [PyInt n]) 10 10))).

(** The fetcher that [main] builds (line 218). *)
Definition the_fetcher : GrantFetcher.t :=
  GrantFetcher.__init__ "key" GrantFetcher.default_delay.


(** * Properties *)

(** ** Dictionaries *)

Section DictFacts.
Context {V : Type}.
Implicit Types (d : list (string * V)) (k : string) (v : V).

Lemma dict_get_set_eq k v d : dict_get k (dict_set k v d) = Some v.
Proof.
  induction d as [|[k' v'] d IH]; simpl.
  - now rewrite String.eqb_refl.
  - destruct (String.eqb k k') eqn:E; simpl; rewrite E; auto.
Qed.

Lemma dict_get_set_ne k k' v d :
  String.eqb k k' = false -> dict_get k (dict_set k' v d) = dict_get k d.
Proof.
  intros Hne. induction d as [|[k0 v0] d IH]; simpl.
  - now rewrite Hne.
  - destruct (String.eqb k' k0) eqn:E; simpl.
    + apply String.eqb_eq in E. subst k0. now rewrite Hne.
    + now rewrite IH.
Qed.

End DictFacts.

(** ** Typed arguments of the builder *)

Lemma as_strs_map_PyStr (l : list string) : as_strs (map PyStr l) = Ok l.
Proof. induction l as [|s l IH]; simpl; [reflexivity | now rewrite IH]. Qed.

Lemma py_join_str_list (sep : string) (l : list string) :
  py_join sep (str_list l) = Ok (String.concat sep l).
Proof. unfold py_join, str_list; simpl. now rewrite as_strs_map_PyStr. Qed.

Lemma py_unpack2_int_pair (a b : option Z) :
  py_unpack2 (int_pair a b) = Ok (opt_int a, opt_int b).
Proof. reflexivity. Qed.

(** Line 87 on a typed range: the test fails exactly on [(None, None)]. *)
Lemma year_test_int_pair (a b : option Z) :
  py_eqb (int_pair a b) (PyTuple [PyNone; PyNone]) =
  match a, b with None, None => true | _, _ => false end.
Proof. destruct a, b; simpl; try reflexivity. Qed.

(** ** [range] *)


Lemma int_range_nth (a b : Z) (i : nat) :
  (i < Z.to_nat (b - a))%nat -> nth i (int_range a b) 0 = a + Z.of_nat i.
Proof.
  intros Hi. unfold int_range.
  rewrite (nth_indep _ 0 ((fun j : nat => a + Z.of_nat j) O))
    by now rewrite length_map, length_seq.
  rewrite (map_nth (fun j : nat => a + Z.of_nat j)), seq_nth by assumption.
  reflexivity.
Qed.

Lemma int_range_In (a b y : Z) : In y (int_range a b) <-> a <= y < b.
Proof.
  unfold int_range. rewrite in_map_iff. split.
  - intros (i & <- & Hi). apply in_seq in Hi. lia.
  - intros Hy. exists (Z.to_nat (y - a)). split; [lia|]. apply in_seq. lia.
Qed.

Lemma int_range_cons (a b : Z) : a < b -> int_range a b = a :: int_range (a + 1) b.
Proof.
  intros Hab. unfold int_range.
  replace (Z.to_nat (b - a)) with (S (Z.to_nat (b - (a + 1)))) by lia.
  simpl. f_equal; [lia|].
  rewrite <- seq_shift, map_map. apply map_ext. intros i. lia.
Qed.

Lemma int_range_nil (a b : Z) : b <= a -> int_range a b = [].
Proof. intros H. unfold int_range. now replace (Z.to_nat (b - a)) with O by lia. Qed.

Lemma int_range_snoc (a b : Z) : a <= b -> int_range a (b + 1) = (int_range a b ++ [b])%list.
Proof.
  intros Hab. unfold int_range.
  replace (Z.to_nat (b + 1 - a)) with (S (Z.to_nat (b - a))) by lia.
  rewrite seq_S, map_app. simpl. do 2 f_equal. lia.
Qed.

Lemma int_range_sorted (a b : Z) : StronglySorted Z.lt (int_range a b).
Proof.
  remember (Z.to_nat (b - a)) as n eqn:Hn. revert a Hn.
  induction n as [|n IH]; intros a Hn.
  - rewrite int_range_nil by lia. constructor.
  - rewrite int_range_cons by lia. constructor.
    + apply IH. lia.
    + apply Forall_forall. intros y Hy. apply list_elem_of_In, int_range_In in Hy. lia.
Qed.

(** ** The builder, step by step *)

Lemma res_bind_Ok {A B} (r : res A) (k : A -> res B) (b : B) :
  res_bind r k = Ok b -> exists a, r = Ok a /\ k a = Ok b.
Proof. destruct r as [a|e]; simpl; [eauto | discriminate]. Qed.

(** A conditional assignment of a joined list leaves the other keys alone. *)
Lemma joined_step_keeps (c : bool) (r : res string) (key : string)
    (p p' : list (string * pyval)) (k : string) :
  (if c then res_bind r (fun j => Ok (dict_set key (PyStr j) p)) else Ok p) = Ok p' ->
  String.eqb k key = false ->
  dict_get k p' = dict_get k p.
Proof.
  intros H Hk. destruct c.
  - apply res_bind_Ok in H as (j & _ & H). injection H as <-.
    now rewrite dict_get_set_ne.
  - now injection H as <-.
Qed.

Lemma build_inv page yr dr subj pop loc sup params :
  GrantFetcher._build_query_params page yr dr subj pop loc sup = Ok params ->
  exists sy ey mn mx p1 p2 p3 p4 p5,
    py_unpack2 yr = Ok (sy, ey) /\ py_unpack2 dr = Ok (mn, mx) /\
    (if py_truthy loc then
       res_bind (py_join "," loc) (fun joined =>
         Ok (dict_set "location_type" (PyStr "area_served")
               (dict_set "geo_id_type" (PyStr "geonameid")
                  (dict_set "location" (PyStr joined) (base_params page)))))
     else Ok (base_params page)) = Ok p1 /\
    (if negb (py_eqb yr (PyTuple [PyNone; PyNone])) then
       res_bind (py_add_int ey 1) (fun stop =>
       res_bind (py_range sy stop) (fun years =>
         Ok (dict_set "year" (PyStr (String.concat "," (map py_str years))) p1)))
     else Ok p1) = Ok p2 /\
    (if py_truthy subj
     then res_bind (py_join "," subj) (fun j => Ok (dict_set "subject" (PyStr j) p2))
     else Ok p2) = Ok p3 /\
    (if py_truthy pop
     then res_bind (py_join "," pop) (fun j => Ok (dict_set "population" (PyStr j) p3))
     else Ok p3) = Ok p4 /\
    (if py_truthy sup
     then res_bind (py_join "," sup) (fun j => Ok (dict_set "support" (PyStr j) p4))
     else Ok p4) = Ok p5 /\
    params =
      (let q := if is_not_None mn then dict_set "min_amt" mn p5 else p5 in
       if is_not_None mx then dict_set "max_amt" mx q else q).
Proof.
  unfold GrantFetcher._build_query_params, mbind, res_mbind. intros H.
  apply res_bind_Ok in H as ([sy ey] & Hyr & H).
  apply res_bind_Ok in H as ([mn mx] & Hdr & H).
  apply res_bind_Ok in H as (p1 & H1 & H).
  apply res_bind_Ok in H as (p2 & H2 & H).
  apply res_bind_Ok in H as (p3 & H3 & H).
  apply res_bind_Ok in H as (p4 & H4 & H).
  apply res_bind_Ok in H as (p5 & H5 & H).
  injection H as <-.
  exists sy, ey, mn, mx, p1, p2, p3, p4, p5. repeat split; assumption.
Qed.

Lemma build_intro page yr dr subj pop loc sup sy ey mn mx p1 p2 p3 p4 p5 :
  py_unpack2 yr = Ok (sy, ey) -> py_unpack2 dr = Ok (mn, mx) ->
  (if py_truthy loc then
     res_bind (py_join "," loc) (fun joined =>
       Ok (dict_set "location_type" (PyStr "area_served")
             (dict_set "geo_id_type" (PyStr "geonameid")
                (dict_set "location" (PyStr joined) (base_params page)))))
   else Ok (base_params page)) = Ok p1 ->
  (if negb (py_eqb yr (PyTuple [PyNone; PyNone])) then
     res_bind (py_add_int ey 1) (fun stop =>
     res_bind (py_range sy stop) (fun years =>
       Ok (dict_set "year" (PyStr (String.concat "," (map py_str years))) p1)))
   else Ok p1) = Ok p2 ->
  (if py_truthy subj
   then res_bind (py_join "," subj) (fun j => Ok (dict_set "subject" (PyStr j) p2))
   else Ok p2) = Ok p3 ->
  (if py_truthy pop
   then res_bind (py_join "," pop) (fun j => Ok (dict_set "population" (PyStr j) p3))
   else Ok p3) = Ok p4 ->
  (if py_truthy sup
   then res_bind (py_join "," sup) (fun j => Ok (dict_set "support" (PyStr j) p4))
   else Ok p4) = Ok p5 ->
  GrantFetcher._build_query_params page yr dr subj pop loc sup =
  Ok (let q := if is_not_None mn then dict_set "min_amt" mn p5 else p5 in
      if is_not_None mx then dict_set "max_amt" mx q else q).
Proof.
  intros Hyr Hdr H1 H2 H3 H4 H5.
  unfold GrantFetcher._build_query_params, mbind, res_mbind.
  unfold base_params in H1.
  rewrite Hyr; cbn [res_bind]. rewrite Hdr; cbn [res_bind].
  rewrite H1; cbn [res_bind]. rewrite H2; cbn [res_bind].
  rewrite H3; cbn [res_bind]. rewrite H4; cbn [res_bind].
  rewrite H5; cbn [res_bind]. reflexivity.
Qed.

Lemma location_step_keeps (c : bool) (r : res string) (p p' : list (string * pyval))
    (k : string) :
  (if c then
     res_bind r (fun joined =>
       Ok (dict_set "location_type" (PyStr "area_served")
             (dict_set "geo_id_type" (PyStr "geonameid")
                (dict_set "location" (PyStr joined) p))))
   else Ok p) = Ok p' ->
  String.eqb k "location" = false -> String.eqb k "geo_id_type" = false ->
  String.eqb k "location_type" = false ->
  dict_get k p' = dict_get k p.
Proof.
  intros H K1 K2 K3. destruct c.
  - apply res_bind_Ok in H as (j & _ & H). injection H as <-.
    now rewrite !dict_get_set_ne.
  - now injection H as <-.
Qed.

Lemma amounts_keep (mn mx : pyval) (p : list (string * pyval)) (k : string) :
  String.eqb k "min_amt" = false -> String.eqb k "max_amt" = false ->
  dict_get k (let q := if is_not_None mn then dict_set "min_amt" mn p else p in
              if is_not_None mx then dict_set "max_amt" mx q else q) = dict_get k p.
Proof.
  intros K1 K2. cbv zeta.
  destruct (is_not_None mn), (is_not_None mx); now rewrite ?dict_get_set_ne.
Qed.

(** A key that does not depend on the filter is as in the initial literal. *)
Lemma build_keeps page yr dr subj pop loc sup params (k : string) :
  GrantFetcher._build_query_params page yr dr subj pop loc sup = Ok params ->
  existsb (String.eqb k) filter_keys = false ->
  dict_get k params = dict_get k (base_params page).
Proof.
  intros H K. apply build_inv in H
    as (sy & ey & mn & mx & p1 & p2 & p3 & p4 & p5 & _ & _ & H1 & H2 & H3 & H4 & H5 & ->).
  simpl in K. repeat (apply orb_false_elim in K as [? K]).
  rewrite amounts_keep by assumption.
  rewrite (joined_step_keeps _ _ _ _ _ _ H5) by assumption.
  rewrite (joined_step_keeps _ _ _ _ _ _ H4) by assumption.
  rewrite (joined_step_keeps _ _ _ _ _ _ H3) by assumption.
  assert (dict_get k p2 = dict_get k p1) as ->.
  { destruct (negb _).
    - apply res_bind_Ok in H2 as (stop & _ & H2).
      apply res_bind_Ok in H2 as (years & _ & H2). injection H2 as <-.
      now rewrite dict_get_set_ne.
    - now injection H2 as <-. }
  now apply (location_step_keeps _ _ _ _ _ H1).
Qed.

(** A list of strings passes a joined step. *)
Lemma joined_step_str_list (l : list string) (key : string) (p : list (string * pyval)) :
  (if py_truthy (str_list l)
   then res_bind (py_join "," (str_list l)) (fun j => Ok (dict_set key (PyStr j) p))
   else Ok p) =
  Ok (if py_truthy (str_list l) then dict_set key (PyStr (String.concat "," l)) p else p).
Proof. rewrite py_join_str_list. now destruct (py_truthy _). Qed.

Lemma location_step_str_list (l : list string) (p : list (string * pyval)) :
  (if py_truthy (str_list l) then
     res_bind (py_join "," (str_list l)) (fun joined =>
       Ok (dict_set "location_type" (PyStr "area_served")
             (dict_set "geo_id_type" (PyStr "geonameid")
                (dict_set "location" (PyStr joined) p))))
   else Ok p) =
  Ok (if py_truthy (str_list l) then
        dict_set "location_type" (PyStr "area_served")
          (dict_set "geo_id_type" (PyStr "geonameid")
             (dict_set "location" (PyStr (String.concat "," l)) p))
      else p).
Proof. rewrite py_join_str_list. now destruct (py_truthy _). Qed.

(** On a well-typed filter the year step returns exactly when the range is
    safe. *)
Lemma year_step_int_pair (ys ye : option Z) (p : list (string * pyval)) :
  (if negb (py_eqb (int_pair ys ye) (PyTuple [PyNone; PyNone])) then
     res_bind (py_add_int (opt_int ye) 1) (fun stop =>
     res_bind (py_range (opt_int ys) stop) (fun years =>
       Ok (dict_set "year" (PyStr (String.concat "," (map py_str years))) p)))
   else Ok p) =
  match ys, ye with
  | None, None => Ok p
  | Some s, Some e =>
      Ok (dict_set "year" (PyStr (String.concat "," (map py_str (int_range s (e + 1))))) p)
  | _, _ => Raise TypeError
  end.
Proof. rewrite year_test_int_pair. destruct ys, ye; reflexivity. Qed.

(** The builder returns on every well-typed filter whose year range is safe. *)
Lemma build_typed_returns page ys ye mn mx subj pop loc sup :
  year_range_safe ys ye = true ->
  exists params,
    GrantFetcher._build_query_params page (int_pair ys ye) (int_pair mn mx)
      (str_list subj) (str_list pop) (str_list loc) (str_list sup) = Ok params.
Proof.
  intros Hsafe.
  destruct ys as [s|], ye as [e|]; try discriminate Hsafe; eexists;
    (eapply build_intro;
     [ apply py_unpack2_int_pair | apply py_unpack2_int_pair
     | apply location_step_str_list
     | rewrite year_step_int_pair; reflexivity
     | apply joined_step_str_list | apply joined_step_str_list
     | apply joined_step_str_list ]).
Qed.

(** It raises [TypeError] on every well-typed filter whose year range has
    one bound only. *)
Lemma build_typed_raises page ys ye mn mx subj pop loc sup :
  year_range_safe ys ye = false ->
  GrantFetcher._build_query_params page (int_pair ys ye) (int_pair mn mx)
    (str_list subj) (str_list pop) (str_list loc) (str_list sup) = Raise TypeError.
Proof.
  intros Hsafe.
  unfold GrantFetcher._build_query_params, mbind, res_mbind.
  rewrite !py_unpack2_int_pair; cbn [res_bind].
  rewrite (location_step_str_list loc); cbn [res_bind].
  rewrite year_step_int_pair.
  destruct ys, ye; try discriminate Hsafe; reflexivity.
Qed.

(** What the builder leaves under [year]. *)
Lemma build_year page yr dr subj pop loc sup params :
  GrantFetcher._build_query_params page yr dr subj pop loc sup = Ok params ->
  exists sy ey,
    py_unpack2 yr = Ok (sy, ey) /\
    (if negb (py_eqb yr (PyTuple [PyNone; PyNone])) then
       exists stop years,
         py_add_int ey 1 = Ok stop /\ py_range sy stop = Ok years /\
         dict_get "year" params = Some (PyStr (String.concat "," (map py_str years)))
     else dict_get "year" params = None).
Proof.
  intros H. apply build_inv in H
    as (sy & ey & mn & mx & p1 & p2 & p3 & p4 & p5 & Hyr & _ & H1 & H2 & H3 & H4 & H5 & ->).
  exists sy, ey. split; [assumption|].
  assert (K : dict_get "year" (let q := if is_not_None mn then dict_set "min_amt" mn p5 else p5 in
              if is_not_None mx then dict_set "max_amt" mx q else q) = dict_get "year" p2).
  { rewrite amounts_keep by reflexivity.
    rewrite (joined_step_keeps _ _ _ _ _ _ H5) by reflexivity.
    rewrite (joined_step_keeps _ _ _ _ _ _ H4) by reflexivity.
    now rewrite (joined_step_keeps _ _ _ _ _ _ H3) by reflexivity. }
  rewrite K. destruct (negb _).
  - apply res_bind_Ok in H2 as (stop & Hstop & H2).
    apply res_bind_Ok in H2 as (years & Hyears & H2). injection H2 as <-.
    exists stop, years. now rewrite dict_get_set_eq.
  - injection H2 as <-.
    now rewrite (location_step_keeps _ _ _ _ _ H1) by reflexivity.
Qed.

(** What the builder leaves under [min_amt] and [max_amt]. *)
Lemma build_amounts page yr dr subj pop loc sup params :
  GrantFetcher._build_query_params page yr dr subj pop loc sup = Ok params ->
  exists mn mx,
    py_unpack2 dr = Ok (mn, mx) /\
    dict_get "min_amt" params = (if is_not_None mn then Some mn else None) /\
    dict_get "max_amt" params = (if is_not_None mx then Some mx else None).
Proof.
  intros H. apply build_inv in H
    as (sy & ey & mn & mx & p1 & p2 & p3 & p4 & p5 & _ & Hdr & H1 & H2 & H3 & H4 & H5 & ->).
  exists mn, mx. split; [assumption|].
  assert (K : forall k, existsb (String.eqb k) ["location"; "geo_id_type"; "location_type";
                 "year"; "subject"; "population"; "support"] = false ->
              dict_get k p5 = dict_get k (base_params page)).
  { intros k K. simpl in K. repeat (apply orb_false_elim in K as [? K]).
    rewrite (joined_step_keeps _ _ _ _ _ _ H5) by assumption.
    rewrite (joined_step_keeps _ _ _ _ _ _ H4) by assumption.
    rewrite (joined_step_keeps _ _ _ _ _ _ H3) by assumption.
    assert (dict_get k p2 = dict_get k p1) as ->.
    { destruct (negb _).
      - apply res_bind_Ok in H2 as (stop & _ & H2).
        apply res_bind_Ok in H2 as (years & _ & H2). injection H2 as <-.
        now rewrite dict_get_set_ne.
      - now injection H2 as <-. }
    now apply (location_step_keeps _ _ _ _ _ H1). }
  cbv zeta. split.
  - destruct (is_not_None mn), (is_not_None mx);
      rewrite ?(dict_get_set_ne "min_amt" "max_amt") by reflexivity;
      rewrite ?dict_get_set_eq; try reflexivity; now rewrite K.
  - destruct (is_not_None mn), (is_not_None mx);
      rewrite ?dict_get_set_eq; try reflexivity;
      rewrite ?(dict_get_set_ne "max_amt" "min_amt") by reflexivity; now rewrite K.
Qed.

(** ** The claims about the builder *)

(** C7.  Whatever the page number and the filter, a mapping returned by the
    query-parameter builder holds [page] with the page number given and the
    four constants [include_gov = "yes"], [sort_by = "year_issued"],
    [sort_order = "desc"] and [format = "json"]: no filter field overwrites
    them. *)
Theorem build_query_params_fixed_keys page yr dr subj pop loc sup params :
  GrantFetcher._build_query_params page yr dr subj pop loc sup = Ok params ->
  dict_get "page" params = Some (PyInt page) /\
  dict_get "include_gov" params = Some (PyStr "yes") /\
  dict_get "sort_by" params = Some (PyStr "year_issued") /\
  dict_get "sort_order" params = Some (PyStr "desc") /\
  dict_get "format" params = Some (PyStr "json").
Proof.
  intros H. repeat split; now rewrite (build_keeps _ _ _ _ _ _ _ _ _ H).
Qed.

Lemma build_query_params_fixed_keys_witness :
  let params :=
    [ ("page", PyInt 3); ("include_gov", PyStr "yes"); ("sort_by", PyStr "year_issued");
      ("sort_order", PyStr "desc"); ("format", PyStr "json");
      ("location", PyStr "4671654,4736286"); ("geo_id_type", PyStr "geonameid");
      ("location_type", PyStr "area_served"); ("year", PyStr "2020,2021,2022");
      ("subject", PyStr "SJ02,SJ05"); ("min_amt", PyInt 25000) ] in
  GrantFetcher._build_query_params 3 (int_pair (Some 2020) (Some 2022))
    (int_pair (Some 25000) None) (str_list ["SJ02"; "SJ05"]) (str_list [])
    (str_list ["4671654"; "4736286"]) (str_list []) = Ok params /\
  dict_get "page" params = Some (PyInt 3) /\
  dict_get "include_gov" params = Some (PyStr "yes") /\
  dict_get "sort_by" params = Some (PyStr "year_issued") /\
  dict_get "sort_order" params = Some (PyStr "desc") /\
  dict_get "format" params = Some (PyStr "json").
Proof.
  intros params.
  assert (H : GrantFetcher._build_query_params 3 (int_pair (Some 2020) (Some 2022))
    (int_pair (Some 25000) None) (str_list ["SJ02"; "SJ05"]) (str_list [])
    (str_list ["4671654"; "4736286"]) (str_list []) = Ok params) by (vm_compute; reflexivity).
  split; [exact H | exact (build_query_params_fixed_keys _ _ _ _ _ _ _ _ H)].
Defined.

(** C2, as the code has it.  For every filter whose dollar range is
    [(None, m)], a mapping returned by the builder has no [min_amt] key and
    has [max_amt = m]: lines 99-103 test the two bounds independently. *)
Theorem build_query_params_max_without_min page yr subj pop loc sup (m : Z) params :
  GrantFetcher._build_query_params page yr (int_pair None (Some m)) subj pop loc sup
    = Ok params ->
  dict_get "min_amt" params = None /\ dict_get "max_amt" params = Some (PyInt m).
Proof.
  intros H. apply build_amounts in H as (mn & mx & Hdr & Hmin & Hmax).
  rewrite py_unpack2_int_pair in Hdr. injection Hdr as <- <-. auto.
Qed.

Lemma build_query_params_max_without_min_witness :
  GrantFetcher._build_query_params 1 (int_pair None None) (int_pair None (Some 100))
    (str_list []) (str_list []) (str_list []) (str_list []) =
  Ok [ ("page", PyInt 1); ("include_gov", PyStr "yes"); ("sort_by", PyStr "year_issued");
       ("sort_order", PyStr "desc"); ("format", PyStr "json"); ("max_amt", PyInt 100) ] /\
  dict_get "min_amt"
    [ ("page", PyInt 1); ("include_gov", PyStr "yes"); ("sort_by", PyStr "year_issued");
      ("sort_order", PyStr "desc"); ("format", PyStr "json"); ("max_amt", PyInt 100) ]
    = None /\
  dict_get "max_amt"
    [ ("page", PyInt 1); ("include_gov", PyStr "yes"); ("sort_by", PyStr "year_issued");
      ("sort_order", PyStr "desc"); ("format", PyStr "json"); ("max_amt", PyInt 100) ]
    = Some (PyInt 100).
Proof.
  split; [reflexivity|].
  apply (build_query_params_max_without_min 1 (int_pair None None)
           (str_list []) (str_list []) (str_list []) (str_list []) 100).
  reflexivity.
Defined.

(** C2, as stated, fails: with the dollar range [(None, 100)] the builder
    does emit [max_amt]. *)
Lemma max_amt_is_emitted_without_min_amt :
  ~ (forall params,
       GrantFetcher._build_query_params 1 (int_pair None None) (int_pair None (Some 100))
         (str_list []) (str_list []) (str_list []) (str_list []) = Ok params ->
       dict_get "min_amt" params = None /\ dict_get "max_amt" params = None).
Proof.
  intros H. destruct (H _ eq_refl) as [_ Hmax]. discriminate Hmax.
Qed.

(** C4.  For every filter whose year range has both bounds, [start <= end],
    the builder returns a mapping whose [year] is the comma-joined decimal
    codes of the years [start], [start + 1], ..., [end]: one code for each
    integer of the interval, in increasing order, and not a range string.
    With the year range [(None, None)] a returned mapping has no [year]
    key. *)
Theorem build_query_params_year page (s e : Z) mn mx subj pop loc sup :
  s <= e ->
  (exists params,
     GrantFetcher._build_query_params page (int_pair (Some s) (Some e)) (int_pair mn mx)
       (str_list subj) (str_list pop) (str_list loc) (str_list sup) = Ok params /\
     dict_get "year" params =
       Some (PyStr (String.concat "," (map py_str (int_range s (e + 1)))))) /\
  (forall y, In y (int_range s (e + 1)) <-> s <= y <= e) /\
  StronglySorted Z.lt (int_range s (e + 1)) /\
  (forall dr subj' pop' loc' sup' params,
     GrantFetcher._build_query_params page (int_pair None None) dr subj' pop' loc' sup'
       = Ok params ->
     dict_get "year" params = None).
Proof.
  intros Hse. split; [|split; [|split]].
  - destruct (build_typed_returns page (Some s) (Some e) mn mx subj pop loc sup eq_refl)
      as [params H].
    exists params. split; [assumption|].
    apply build_year in H as (sy & ey & Hyr & Hy).
    rewrite py_unpack2_int_pair in Hyr. injection Hyr as <- <-.
    rewrite year_test_int_pair in Hy. simpl in Hy.
    destruct Hy as (stop & years & Hstop & Hyears & Hy).
    injection Hstop as <-. injection Hyears as <-. exact Hy.
  - intros y. rewrite int_range_In. lia.
  - apply int_range_sorted.
  - intros dr subj' pop' loc' sup' params H.
    apply build_year in H as (sy & ey & _ & Hy). exact Hy.
Qed.

Lemma build_query_params_year_witness :
  2020 <= 2022 /\
  exists params,
    GrantFetcher._build_query_params 1 (int_pair (Some 2020) (Some 2022))
      (int_pair None None) (str_list []) (str_list []) (str_list []) (str_list [])
      = Ok params /\
    dict_get "year" params = Some (PyStr "2020,2021,2022").
Proof.
  assert (H : 2020 <= 2022) by lia.
  split; [exact H|].
  destruct (build_query_params_year 1 2020 2022 None None [] [] [] [] H)
    as [(params & Hb & Hy) _].
  exists params. split; [exact Hb | exact Hy].
Defined.

(** C10.  The builder is not total on optional year ranges.  With the year
    range [(y, None)] it raises, whatever the other arguments are, and on a
    well-typed filter the exception is a [TypeError]; it returns a mapping
    exactly when the year range is [(None, None)] or has both bounds. *)
Theorem build_query_params_half_open_year_range page :
  (forall (y : Z) dr subj pop loc sup,
     exists e,
       GrantFetcher._build_query_params page (int_pair (Some y) None) dr subj pop loc sup
         = Raise e) /\
  (forall (y : Z) mn mx subj pop loc sup,
     GrantFetcher._build_query_params page (int_pair (Some y) None) (int_pair mn mx)
       (str_list subj) (str_list pop) (str_list loc) (str_list sup) = Raise TypeError) /\
  (forall ys ye mn mx subj pop loc sup,
     (exists params,
        GrantFetcher._build_query_params page (int_pair ys ye) (int_pair mn mx)
          (str_list subj) (str_list pop) (str_list loc) (str_list sup) = Ok params)
     <-> (ys = None /\ ye = None) \/ (exists s e, ys = Some s /\ ye = Some e)).
Proof.
  split; [|split; [|split]].
  - intros y dr subj pop loc sup.
    destruct (GrantFetcher._build_query_params page (int_pair (Some y) None)
                dr subj pop loc sup) as [params|e] eqn:H; [|now exists e].
    apply build_year in H as (sy & ey & Hyr & Hy).
    rewrite py_unpack2_int_pair in Hyr. injection Hyr as <- <-.
    rewrite year_test_int_pair in Hy. simpl in Hy.
    destruct Hy as (stop & years & Hstop & _). discriminate Hstop.
  - intros y mn mx subj pop loc sup. now apply build_typed_raises.
  - intros [params H].
    destruct ys as [s|], ye as [e|]; eauto;
      now rewrite build_typed_raises in H.
  - intros [[-> ->]|(s & e & -> & ->)]; now apply build_typed_returns.
Qed.

(** ** The builder and the objects it is handed *)




(** The statements of the builder, run on a store [h] to which the
    dictionary of the parameters has been added at the address [r]: each
    reads its argument where it was, and changes the object at [r] alone. *)
Section OnStore.
Variables (h : gmap positive pyval) (w : world) (r : positive).
Hypothesis Hr : h !! r = None.








End OnStore.





(** ** Running the page fetcher *)

Lemma add_events_nil w : add_events [] w = w.
Proof. destruct w. unfold add_events. simpl. now rewrite app_nil_r. Qed.

Lemma add_events_app evs evs' w :
  add_events evs' (add_events evs w) = add_events (evs ++ evs')%list w.
Proof. unfold add_events. simpl. now rewrite app_assoc. Qed.

Lemma emit_run ev w : emit ev w = (Ok tt, add_events [ev] w).
Proof. reflexivity. Qed.

Lemma requested_pages_app evs evs' :
  requested_pages (evs ++ evs') = (requested_pages evs ++ requested_pages evs')%list.
Proof. apply flat_map_app. Qed.

Lemma fetch_failures_app evs evs' :
  fetch_failures (evs ++ evs') = (fetch_failures evs ++ fetch_failures evs')%list.
Proof. apply flat_map_app. Qed.


Ltac run_get :=
  cbv [mbind ME_mbind mret ME_mret lift_res try_except requests_get answer
       raise_for_status response_json emit raise fst snd is_RequestException];
  cbn [remote files dirs trace].

(** The outcome of [get_grants_transactions] and the events it adds depend
    on the remote service alone; a page that comes back was asked for with
    its own number, and a page that fails was asked for at most once. *)
Lemma get_grants_transactions_run self p yr dr subj pop loc sup w :
  exists r evs,
    (forall w', remote w' = remote w ->
       GrantFetcher.get_grants_transactions self p yr dr subj pop loc sup w'
       = (r, add_events evs w')) /\
    fetch_failures evs = [] /\ no_rows_notes evs = [] /\
    match r with
    | Ok _ => requested_pages evs = [p]
    | Raise _ => requested_pages evs = [] \/ requested_pages evs = [p]
    end.
Proof.
  unfold GrantFetcher.get_grants_transactions.
  destruct (GrantFetcher._build_query_params p yr dr subj pop loc sup) as [params|e] eqn:Hb.
  - pose proof (build_keeps _ _ _ _ _ _ _ _ "page" Hb eq_refl) as Hpage. simpl in Hpage.
    remember (Request (GrantFetcher.base_url self) params
                [("accept", "application/json");
                 ("Subscription-Key", GrantFetcher.api_key self)]) as rq eqn:Erq.
    assert (Hrq : requested_pages [HttpGet rq] = [p])
      by (subst rq; simpl; now rewrite Hpage).
    assert (Hrq2 : forall e, requested_pages [HttpGet rq; Log ERROR (GetFailed e)] = [p])
      by (intros e; subst rq; simpl; now rewrite Hpage).
    destruct (remote w rq) as [|status body] eqn:Hr;
      [|destruct ((400 <=? status) && (status <? 600))%Z eqn:Hs; [|destruct body as [v|]]].
    + exists (Raise ConnectionError), [HttpGet rq; Log ERROR (GetFailed ConnectionError)].
      split; [|split; [reflexivity | split; [reflexivity|right; apply Hrq2]]].
      intros w' Hw'. run_get. rewrite <- Erq, Hw', Hr. run_get.
      unfold add_events; simpl. now rewrite <- app_assoc, <- Hw'.
    + exists (Raise (HTTPError status)), [HttpGet rq; Log ERROR (GetFailed (HTTPError status))].
      split; [|split; [reflexivity | split; [reflexivity|right; apply Hrq2]]].
      intros w' Hw'. run_get. rewrite <- Erq, Hw', Hr. run_get. rewrite Hs. run_get.
      unfold add_events; simpl. now rewrite <- app_assoc, <- Hw'.
    + exists (Ok v), [HttpGet rq].
      split; [|split; [reflexivity | split; [reflexivity|exact Hrq]]].
      intros w' Hw'. run_get. rewrite <- Erq, Hw', Hr. run_get. rewrite Hs.
      unfold add_events; simpl. now rewrite <- Hw'.
    + exists (Raise JSONDecodeError), [HttpGet rq; Log ERROR (GetFailed JSONDecodeError)].
      split; [|split; [reflexivity | split; [reflexivity|right; apply Hrq2]]].
      intros w' Hw'. run_get. rewrite <- Erq, Hw', Hr. run_get. rewrite Hs. run_get.
      unfold add_events; simpl. now rewrite <- app_assoc, <- Hw'.
  - exists (Raise e), []. split; [|split; [reflexivity | split; [reflexivity|now left]]].
    intros w' _. run_get. now rewrite add_events_nil.
Qed.

Lemma time_sleep_run (seconds : Q) w :
  Qle_bool 0 seconds = true -> time_sleep seconds w = (Ok tt, add_events [Sleep seconds] w).
Proof. intros H. unfold time_sleep. now rewrite H. Qed.

(** ** One turn of the loop *)

Ltac run_page :=
  cbv [GrantFetcher.fetch_page mbind ME_mbind mret ME_mret lift_res in_world
       get_local set_local try_except].

(** A page that comes back and decodes: its rows are appended, or the note
    is logged, and the pause follows. *)
Lemma fetch_page_returns self p yr dr subj pop loc sup acc w env o w1 :
  GrantFetcher.get_grants_transactions self p yr dr subj pop loc sup w = (Ok env, w1) ->
  page_rows env = Ok o ->
  Qle_bool 0 (GrantFetcher.delay self) = true ->
  GrantFetcher.fetch_page self p yr dr subj pop loc sup (acc, w) =
  (Ok tt, ((acc ++ rows_of o)%list,
           add_events (page_events p o (GrantFetcher.delay self)) w1)).
Proof.
  intros Hget Hrows Hdelay. run_page. rewrite Hget.
  unfold page_rows, mbind, res_mbind in Hrows.
  apply res_bind_Ok in Hrows as (data & Hdata & Hrows).
  apply res_bind_Ok in Hrows as (has_rows & Hhas & Hrows).
  rewrite Hdata, Hhas. destruct has_rows.
  - apply res_bind_Ok in Hrows as (rows & Hr & Hrows).
    apply res_bind_Ok in Hrows as (items & Hi & Hrows). injection Hrows as <-.
    rewrite Hr, Hi, time_sleep_run by assumption. reflexivity.
  - injection Hrows as <-. rewrite emit_run, time_sleep_run by assumption.
    simpl. now rewrite app_nil_r, add_events_app.
Qed.

(** A page that the fetcher fails on: the body of the [try] raises as it
    did, and [all_grants] is as before. *)
Lemma fetch_page_get_raises self p yr dr subj pop loc sup acc w e w1 :
  GrantFetcher.get_grants_transactions self p yr dr subj pop loc sup w = (Raise e, w1) ->
  GrantFetcher.fetch_page self p yr dr subj pop loc sup (acc, w) = (Raise e, (acc, w1)).
Proof. intros Hget. run_page. now rewrite Hget. Qed.

(** ** The loop *)

Lemma remote_add_events evs w : remote (add_events evs w) = remote w.
Proof. reflexivity. Qed.

(** As long as the pages come back and decode, the loop goes from one to
    the next, asking for each once and in order. *)
Lemma fetch_loop_prefix self yr dr subj pop loc sup (rows : Z -> list pyval) w0
    (good rest : list Z) :
  Qle_bool 0 (GrantFetcher.delay self) = true ->
  (forall p, In p good ->
     exists env o,
       fst (GrantFetcher.get_grants_transactions self p yr dr subj pop loc sup w0) = Ok env /\
       page_rows env = Ok o /\ rows_of o = rows p) ->
  forall acc w, remote w = remote w0 ->
  exists evs,
    GrantFetcher.fetch_loop self (good ++ rest) yr dr subj pop loc sup (acc, w) =
    GrantFetcher.fetch_loop self rest yr dr subj pop loc sup
      ((acc ++ concat (map rows good))%list, add_events evs w) /\
    requested_pages evs = good /\ fetch_failures evs = [].
Proof.
  intros Hdelay. induction good as [|p good IH]; intros Hgood acc w Hw.
  - exists []. simpl. now rewrite app_nil_r, add_events_nil.
  - destruct (Hgood p (or_introl eq_refl)) as (env & o & Henv & Ho & Hrows).
    destruct (get_grants_transactions_run self p yr dr subj pop loc sup w0)
      as (r & evs & Hrun & Hff & _ & Hreq).
    rewrite (Hrun w0 eq_refl) in Henv. simpl in Henv. subst r.
    pose proof (fetch_page_returns self p yr dr subj pop loc sup acc w env o _
                  (Hrun w Hw) Ho Hdelay) as Hpage.
    rewrite add_events_app in Hpage.
    destruct (IH (fun q Hq => Hgood q (or_intror Hq)) (acc ++ rows_of o)%list
                (add_events (evs ++ page_events p o (GrantFetcher.delay self)) w) Hw)
      as (evs' & Hloop & Hreq' & Hff').
    exists ((evs ++ page_events p o (GrantFetcher.delay self)) ++ evs')%list.
    split; [|split].
    + change ((p :: good) ++ rest)%list with (p :: (good ++ rest))%list.
      cbn [GrantFetcher.fetch_loop]. cbv [mbind ME_mbind try_except].
      rewrite Hpage, Hloop, add_events_app. simpl. now rewrite Hrows, <- app_assoc.
    + rewrite !requested_pages_app, Hreq, Hreq'. now destruct o.
    + rewrite !fetch_failures_app, Hff, Hff'. now destruct o.
Qed.

(** The page the fetcher fails on ends the loop: the failure is logged and
    no page after it is asked for. *)
Lemma fetch_loop_failure self yr dr subj pop loc sup w0 (p : Z) (rest : list Z) (e : exn) :
  fst (GrantFetcher.get_grants_transactions self p yr dr subj pop loc sup w0) = Raise e ->
  forall acc w, remote w = remote w0 ->
  exists evs,
    GrantFetcher.fetch_loop self (p :: rest) yr dr subj pop loc sup (acc, w) =
    (Ok tt, (acc, add_events evs w)) /\
    (requested_pages evs = [] \/ requested_pages evs = [p]) /\
    fetch_failures evs = [(p, e)].
Proof.
  intros He acc w Hw.
  destruct (get_grants_transactions_run self p yr dr subj pop loc sup w0)
    as (r & evs & Hrun & Hff & _ & Hreq).
  rewrite (Hrun w0 eq_refl) in He. simpl in He. subst r.
  exists (evs ++ [Log ERROR (FetchFailed p e)])%list. split; [|split].
  - cbn [GrantFetcher.fetch_loop]. cbv [mbind ME_mbind try_except].
    rewrite (fetch_page_get_raises _ _ _ _ _ _ _ _ _ _ _ _ (Hrun w Hw)).
    cbv [in_world]. now rewrite emit_run, add_events_app.
  - rewrite requested_pages_app. simpl. rewrite app_nil_r. exact Hreq.
  - rewrite fetch_failures_app, Hff. reflexivity.
Qed.

Lemma int_range_split (a m b : Z) :
  a <= m <= b -> int_range a b = (int_range a m ++ int_range m b)%list.
Proof.
  intros [Ham Hmb]. remember (Z.to_nat (m - a)) as n eqn:Hn. revert a Ham Hn.
  induction n as [|n IH]; intros a Ham Hn.
  - assert (a = m) by lia. subst a. now rewrite (int_range_nil m m) by lia.
  - rewrite (int_range_cons a b), (int_range_cons a m) by lia.
    rewrite (IH (a + 1)) by lia. reflexivity.
Qed.

Lemma with_local_run {L A} (l0 : L) (m : ME (L * world) A) w r l w' :
  m (l0, w) = (r, (l, w')) -> with_local l0 m w = (r, w').
Proof. intros H. unfold with_local. now rewrite H. Qed.

(** The loop returns whatever happens in it, and so does [fetch_grants]:
    no exception leaves it. *)
Lemma fetch_loop_returns self yr dr subj pop loc sup (pages : list Z) :
  forall acc w, exists acc' w',
    GrantFetcher.fetch_loop self pages yr dr subj pop loc sup (acc, w) = (Ok tt, (acc', w')).
Proof.
  induction pages as [|p pages IH]; intros acc w.
  - now exists acc, w.
  - cbn [GrantFetcher.fetch_loop]. cbv [mbind ME_mbind try_except].
    destruct (GrantFetcher.fetch_page self p yr dr subj pop loc sup (acc, w))
      as [[u|e] [acc1 w1]].
    + apply IH.
    + cbv [in_world]. rewrite emit_run. now exists acc1, (add_events [Log ERROR (FetchFailed p e)] w1).
Qed.

Lemma fetch_grants_never_raises self yr dr subj pop loc sup (num_pages : Z) w :
  exists grants w',
    GrantFetcher.fetch_grants self num_pages yr dr subj pop loc sup w = (Ok grants, w').
Proof.
  destruct (fetch_loop_returns self yr dr subj pop loc sup (int_range 1 (num_pages + 1)) [] w)
    as (acc & w' & H).
  exists acc, w'. unfold GrantFetcher.fetch_grants. eapply with_local_run.
  cbv [mbind ME_mbind]. rewrite H. reflexivity.
Qed.

(** ** The claims about the pagination loop *)

(** C3.  When the page fetcher fails on page [k] of the pages asked for,
    the pages before it having come back, [fetch_grants] logs the failure
    once, asks for no page after [k], and returns, without raising, exactly
    the rows of the pages [1] to [k - 1].  The pause between pages is taken
    to be a valid one, not negative; what the fetcher does with a page is
    read off the world at the start, the service answering a request the
    same way throughout ([get_grants_transactions_run]). *)
Theorem fetch_grants_stops_at_first_failure self yr dr subj pop loc sup
    (num_pages k : Z) (rows : Z -> list pyval) (e : exn) w :
  1 <= k <= num_pages ->
  (0 <= GrantFetcher.delay self)%Q ->
  (forall p, 1 <= p < k ->
     exists env o,
       fst (GrantFetcher.get_grants_transactions self p yr dr subj pop loc sup w) = Ok env /\
       page_rows env = Ok o /\ rows_of o = rows p) ->
  fst (GrantFetcher.get_grants_transactions self k yr dr subj pop loc sup w) = Raise e ->
  exists evs,
    GrantFetcher.fetch_grants self num_pages yr dr subj pop loc sup w =
      (Ok (concat (map rows (int_range 1 k))), add_events evs w) /\
    fetch_failures evs = [(k, e)] /\
    (requested_pages evs = int_range 1 k \/ requested_pages evs = int_range 1 (k + 1)).
Proof.
  intros Hk Hdelay Hgood Hfail. apply Qle_bool_iff in Hdelay.
  destruct (fetch_loop_prefix self yr dr subj pop loc sup rows w (int_range 1 k)
              (int_range k (num_pages + 1)) Hdelay) with (acc := @nil pyval) (w := w)
    as (evs1 & Hloop1 & Hreq1 & Hff1); [|reflexivity|].
  { intros p Hp. apply Hgood. apply int_range_In in Hp. lia. }
  rewrite <- int_range_split in Hloop1 by lia.
  rewrite (int_range_cons k) in Hloop1 by lia.
  destruct (fetch_loop_failure self yr dr subj pop loc sup w k
              (int_range (k + 1) (num_pages + 1)) e Hfail
              ([] ++ concat (map rows (int_range 1 k)))%list (add_events evs1 w) eq_refl)
    as (evs2 & Hloop2 & Hreq2 & Hff2).
  rewrite Hloop2, add_events_app in Hloop1.
  exists (evs1 ++ evs2)%list. split; [|split].
  - unfold GrantFetcher.fetch_grants. eapply with_local_run.
    cbv [mbind ME_mbind]. rewrite Hloop1. reflexivity.
  - now rewrite fetch_failures_app, Hff1, Hff2.
  - rewrite requested_pages_app, Hreq1. destruct Hreq2 as [-> | ->].
    + left. apply app_nil_r.
    + right. now rewrite int_range_snoc by lia.
Qed.

Lemma fetch_grants_stops_at_first_failure_witness :
  1 <= 2 <= 3 /\
  exists evs,
    GrantFetcher.fetch_grants the_fetcher 3 (int_pair None None) (int_pair None None)
      (str_list []) (str_list []) (str_list []) (str_list [])
      (fresh_world failing_on_page_2) =
      (Ok [PyStr "A"; PyStr "B"], add_events evs (fresh_world failing_on_page_2)) /\
    fetch_failures evs = [(2, HTTPError 500)] /\
    (requested_pages evs = [1] \/ requested_pages evs = [1; 2]).
Proof.
  assert (H1 : 1 <= 2 <= 3) by lia.
  assert (H2 : (0 <= GrantFetcher.delay the_fetcher)%Q) by (vm_compute; discriminate).
  assert (H3 : forall p, 1 <= p < 2 ->
     exists env o,
       fst (GrantFetcher.get_grants_transactions the_fetcher p (int_pair None None)
              (int_pair None None) (str_list []) (str_list []) (str_list []) (str_list [])
              (fresh_world failing_on_page_2)) = Ok env /\
       page_rows env = Ok o /\ rows_of o = (fun _ : Z => [PyStr "A"; PyStr "B"]) p).
  { intros p Hp. assert (p = 1) as -> by lia.
    exists (envelope (Some [PyStr "A"; PyStr "B"]) 6 3), (Some [PyStr "A"; PyStr "B"]).
    repeat split. }
  assert (H4 : fst (GrantFetcher.get_grants_transactions the_fetcher 2 (int_pair None None)
              (int_pair None None) (str_list []) (str_list []) (str_list []) (str_list [])
              (fresh_world failing_on_page_2)) = Raise (HTTPError 500)) by reflexivity.
  split; [exact H1|].
  exact (fetch_grants_stops_at_first_failure the_fetcher _ _ _ _ _ _ 3 2
           (fun _ => [PyStr "A"; PyStr "B"]) (HTTPError 500) _ H1 H2 H3 H4).
Defined.

(** A run over three pages of which page 2 has no [rows] entry: page 2 adds
    nothing and is noted, page 3 is fetched all the same. *)
Example fetch_grants_goes_on_after_page_without_rows :
  let run := GrantFetcher.fetch_grants the_fetcher 3 (int_pair None None)
               (int_pair None None) (str_list []) (str_list []) (str_list []) (str_list [])
               (fresh_world no_rows_on_page_2) in
  fst run = Ok [PyStr "A"; PyStr "A"] /\
  requested_pages (trace (snd run)) = [1; 2; 3] /\
  no_rows_notes (trace (snd run)) = [2] /\
  fetch_failures (trace (snd run)) = [].
Proof. vm_compute. repeat split. Qed.

(** The scenario of the specification: one page holding [A] and [B]. *)
Example fetch_grants_single_page :
  fst (GrantFetcher.fetch_grants the_fetcher 1 (int_pair None None) (int_pair None None)
         (str_list []) (str_list []) (str_list []) (str_list [])
         (fresh_world (paged_remote (fun _ =>
            Response 200 (Some (envelope (Some [PyStr "A"; PyStr "B"]) 2 1))))))
  = Ok [PyStr "A"; PyStr "B"].
Proof. reflexivity. Qed.

(** ** Where a fetch starts *)

(** [fetch_grants] has no start page: when the pages come back, the pages
    it asks for are [1] to [num_pages], whatever was fetched before. *)
Lemma fetch_grants_requests_from_page_1 self yr dr subj pop loc sup
    (num_pages : Z) (rows : Z -> list pyval) w :
  (0 <= GrantFetcher.delay self)%Q ->
  (forall p, 1 <= p <= num_pages ->
     exists env o,
       fst (GrantFetcher.get_grants_transactions self p yr dr subj pop loc sup w) = Ok env /\
       page_rows env = Ok o /\ rows_of o = rows p) ->
  exists evs,
    GrantFetcher.fetch_grants self num_pages yr dr subj pop loc sup w =
      (Ok (concat (map rows (int_range 1 (num_pages + 1)))), add_events evs w) /\
    requested_pages evs = int_range 1 (num_pages + 1) /\
    fetch_failures evs = [].
Proof.
  intros Hdelay Hgood. apply Qle_bool_iff in Hdelay.
  destruct (fetch_loop_prefix self yr dr subj pop loc sup rows w
              (int_range 1 (num_pages + 1)) [] Hdelay) with (acc := @nil pyval) (w := w)
    as (evs & Hloop & Hreq & Hff); [|reflexivity|].
  { intros p Hp. apply Hgood. apply int_range_In in Hp. lia. }
  rewrite app_nil_r in Hloop.
  exists evs. split; [|split; assumption].
  unfold GrantFetcher.fetch_grants. eapply with_local_run.
  cbv [mbind ME_mbind]. rewrite Hloop. reflexivity.
Qed.

(** C1, on the code.  After a first batch of two pages, asking for one more
    page fetches page 1 again, not page 3: the pages asked for are 1, 2, 1,
    the rows of page 1 come twice, and they are written to the file that
    line 306 names after page 3. *)
Theorem main_fetch_asks_for_page_1_again :
  let run := main_fetch the_fetcher (int_pair None None) (int_pair None None)
               (str_list []) (str_list []) (str_list []) (str_list [])
               "foo" 10 2 "Y" 1 (fresh_world numbered_pages) in
  fst run = Ok [PyInt 1; PyInt 2; PyInt 1] /\
  requested_pages (trace (snd run)) = [1; 2; 1] /\
  requested_pages (trace (snd run)) <> [1; 2; 3] /\
  files (snd run) !! "foo_pages_3-3.json" =
    Some (json.dumps (PyDict [("grants", PyList [PyInt 1; PyInt 2; PyInt 1])]) 2).
Proof. vm_compute. repeat split. discriminate. Qed.

(** ** Files *)

Lemma write_file_run path text w :
  can_open_write w path = true ->
  write_file path text w =
  (Ok tt, World (<[path := text]> (files w)) (dirs w) (remote w) (trace w)).
Proof. intros H. unfold write_file. now rewrite H. Qed.

(** The text written for two grants. *)
Example save_grants_to_file_text :
  json.dumps (PyDict [("grants",
     PyList [PyDict [("id", PyInt 7); ("tags", PyList [PyStr "a"])]; PyDict []])]) 2 =
  String.concat json.newline
    [ "{";
      "  " +:+ json.quote +:+ "grants" +:+ json.quote +:+ ": [";
      "    {";
      "      " +:+ json.quote +:+ "id" +:+ json.quote +:+ ": 7,";
      "      " +:+ json.quote +:+ "tags" +:+ json.quote +:+ ": [";
      "        " +:+ json.quote +:+ "a" +:+ json.quote;
      "      ]";
      "    },";
      "    {}";
      "  ]";
      "}" ].
Proof. vm_compute. reflexivity. Qed.

(** Read back, the text is the object that was written. *)
Example save_grants_to_file_text_read_back :
  json.loads (json.dumps (PyDict [("grants",
     PyList [PyDict [("id", PyInt 7); ("tags", PyList [PyStr "a"])]; PyDict []])]) 2) =
  Some (PyDict [("grants",
     PyList [PyDict [("id", PyInt 7); ("tags", PyList [PyStr "a"])]; PyDict []])]).
Proof. vm_compute. reflexivity. Qed.

(** ** Saved searches *)

(** C6, on the code.  The configuration that [main] holds at start, saved
    as [myname] and loaded again, does not compare equal to what was saved:
    the two ranges were tuples and come back as lists.  The difference
    shows at line 87: the range that was [(None, None)] now fails the test
    against [(None, None)], and the builder, which returned a mapping for
    the original, raises [TypeError] for the loaded one. *)
Theorem saved_search_comes_back_with_lists :
  let config := search_config (int_pair None None) (int_pair None None)
                  (str_list []) (str_list []) (str_list []) (str_list []) "" in
  let loaded :=
    PyDict
      [ ("year_range", PyList [PyNone; PyNone]);
        ("dollar_range", PyList [PyNone; PyNone]);
        ("subjects", PyList []); ("populations", PyList []); ("locations", PyList []);
        ("support_strategies", PyList []); ("output_prefix", PyStr "") ] in
  fst ((save_search_config config "myname";; load_search_config "myname")
         (fresh_world numbered_pages)) = Ok loaded /\
  py_eqb loaded config = false /\
  py_getitem config "year_range" = Ok (PyTuple [PyNone; PyNone]) /\
  py_getitem loaded "year_range" = Ok (PyList [PyNone; PyNone]) /\
  py_eqb (PyList [PyNone; PyNone]) (PyTuple [PyNone; PyNone]) = false /\
  GrantFetcher._build_query_params 1 (PyTuple [PyNone; PyNone]) (PyTuple [PyNone; PyNone])
    (PyList []) (PyList []) (PyList []) (PyList []) = Ok (base_params 1) /\
  GrantFetcher._build_query_params 1 (PyList [PyNone; PyNone]) (PyList [PyNone; PyNone])
    (PyList []) (PyList []) (PyList []) (PyList []) = Raise TypeError.
Proof. vm_compute. repeat split. Qed.

(** With bounds set the ranges come back as lists of the same numbers, and
    the other fields as they were. *)
Example saved_search_with_bounds :
  let config := search_config (int_pair (Some 2020) (Some 2022)) (int_pair (Some 25000) None)
                  (str_list ["SJ02"; "SJ05"]) (str_list []) (str_list ["4671654"])
                  (str_list ["UA"]) "run1" in
  fst ((save_search_config config "myname";; load_search_config "myname")
         (fresh_world numbered_pages)) =
  Ok (search_config (PyList [PyInt 2020; PyInt 2022]) (PyList [PyInt 25000; PyNone])
        (str_list ["SJ02"; "SJ05"]) (str_list []) (str_list ["4671654"])
        (str_list ["UA"]) "run1").
Proof. vm_compute. reflexivity. Qed.

(** * Further properties *)

(** ** More on the builder *)

Lemma py_truthy_str_list (l : list string) :
  py_truthy (str_list l) = match l with [] => false | _ :: _ => true end.
Proof. now destruct l. Qed.

(** What a joined step leaves under its own key. *)
Lemma joined_step_sets (l : list string) (key : string) (p p' : list (string * pyval)) :
  (if py_truthy (str_list l)
   then res_bind (py_join "," (str_list l)) (fun j => Ok (dict_set key (PyStr j) p))
   else Ok p) = Ok p' ->
  dict_get key p' =
  match l with
  | [] => dict_get key p
  | _ :: _ => Some (PyStr (String.concat "," l))
  end.
Proof.
  rewrite joined_step_str_list, py_truthy_str_list. intros H. injection H as <-.
  destruct l; [reflexivity | apply dict_get_set_eq].
Qed.

Lemma year_step_keeps (c : bool) (ey sy : pyval) (p p' : list (string * pyval))
    (k : string) :
  (if c then
     res_bind (py_add_int ey 1) (fun stop =>
     res_bind (py_range sy stop) (fun years =>
       Ok (dict_set "year" (PyStr (String.concat "," (map py_str years))) p)))
   else Ok p) = Ok p' ->
  String.eqb k "year" = false ->
  dict_get k p' = dict_get k p.
Proof.
  intros H K. destruct c.
  - apply res_bind_Ok in H as (stop & _ & H).
    apply res_bind_Ok in H as (years & _ & H). injection H as <-.
    now rewrite dict_get_set_ne.
  - now injection H as <-.
Qed.

(** X1.  With a non-empty list of locations a mapping returned by the
    builder holds the comma-joined list under [location] together with
    [geo_id_type = "geonameid"] and [location_type = "area_served"]; with
    an empty list it holds none of the three keys. *)
Theorem build_query_params_locations page yr dr subj pop (loc : list string) sup params :
  GrantFetcher._build_query_params page yr dr subj pop (str_list loc) sup = Ok params ->
  match loc with
  | [] =>
      dict_get "location" params = None /\ dict_get "geo_id_type" params = None /\
      dict_get "location_type" params = None
  | _ :: _ =>
      dict_get "location" params = Some (PyStr (String.concat "," loc)) /\
      dict_get "geo_id_type" params = Some (PyStr "geonameid") /\
      dict_get "location_type" params = Some (PyStr "area_served")
  end.
Proof.
  intros H. apply build_inv in H
    as (sy & ey & mn & mx & p1 & p2 & p3 & p4 & p5 & _ & _ & H1 & H2 & H3 & H4 & H5 & ->).
  assert (K : forall k,
             existsb (String.eqb k) ["year"; "subject"; "population"; "support";
                                     "min_amt"; "max_amt"] = false ->
             dict_get k (let q := if is_not_None mn then dict_set "min_amt" mn p5 else p5 in
                         if is_not_None mx then dict_set "max_amt" mx q else q)
             = dict_get k p1).
  { intros k K. simpl in K. repeat (apply orb_false_elim in K as [? K]).
    rewrite amounts_keep by assumption.
    rewrite (joined_step_keeps _ _ _ _ _ _ H5) by assumption.
    rewrite (joined_step_keeps _ _ _ _ _ _ H4) by assumption.
    rewrite (joined_step_keeps _ _ _ _ _ _ H3) by assumption.
    now apply (year_step_keeps _ _ _ _ _ _ H2). }
  rewrite !K by reflexivity.
  rewrite location_step_str_list, py_truthy_str_list in H1. injection H1 as <-.
  destruct loc; [now repeat split|].
  repeat split; rewrite ?dict_get_set_ne by reflexivity; apply dict_get_set_eq.
Qed.

Lemma build_query_params_locations_witness :
  exists params,
    GrantFetcher._build_query_params 1 (int_pair None None) (int_pair None None)
      (str_list []) (str_list []) (str_list ["4671654"; "4736286"]) (str_list [])
      = Ok params /\
    dict_get "location" params = Some (PyStr "4671654,4736286") /\
    dict_get "geo_id_type" params = Some (PyStr "geonameid") /\
    dict_get "location_type" params = Some (PyStr "area_served").
Proof.
  eexists. split; [reflexivity|].
  exact (build_query_params_locations 1 (int_pair None None) (int_pair None None)
           (str_list []) (str_list []) ["4671654"; "4736286"] (str_list []) _ eq_refl).
Defined.

(** X2.  Each of the three code lists is emitted exactly when it is not
    empty, comma-joined, under [subject], [population] and [support]. *)
Theorem build_query_params_code_lists page yr dr (subj pop : list string) loc
    (sup : list string) params :
  GrantFetcher._build_query_params page yr dr (str_list subj) (str_list pop) loc
    (str_list sup) = Ok params ->
  dict_get "subject" params =
    match subj with [] => None | _ :: _ => Some (PyStr (String.concat "," subj)) end /\
  dict_get "population" params =
    match pop with [] => None | _ :: _ => Some (PyStr (String.concat "," pop)) end /\
  dict_get "support" params =
    match sup with [] => None | _ :: _ => Some (PyStr (String.concat "," sup)) end.
Proof.
  intros H. apply build_inv in H
    as (sy & ey & mn & mx & p1 & p2 & p3 & p4 & p5 & _ & _ & H1 & H2 & H3 & H4 & H5 & ->).
  assert (B : forall k,
             existsb (String.eqb k) ["location"; "geo_id_type"; "location_type"; "year"]
               = false -> dict_get k p2 = dict_get k (base_params page)).
  { intros k K. simpl in K. repeat (apply orb_false_elim in K as [? K]).
    rewrite (year_step_keeps _ _ _ _ _ _ H2) by assumption.
    now apply (location_step_keeps _ _ _ _ _ H1). }
  rewrite !amounts_keep by reflexivity.
  pose proof (joined_step_sets _ _ _ _ H3) as S3.
  pose proof (joined_step_sets _ _ _ _ H4) as S4.
  pose proof (joined_step_sets _ _ _ _ H5) as S5.
  split; [|split].
  - rewrite (joined_step_keeps _ _ _ _ _ _ H5) by reflexivity.
    rewrite (joined_step_keeps _ _ _ _ _ _ H4) by reflexivity.
    rewrite S3. destruct subj; [now rewrite B|reflexivity].
  - rewrite (joined_step_keeps _ _ _ _ _ _ H5) by reflexivity.
    rewrite S4. destruct pop; [|reflexivity].
    rewrite (joined_step_keeps _ _ _ _ _ _ H3) by reflexivity. now rewrite B.
  - rewrite S5. destruct sup; [|reflexivity].
    rewrite (joined_step_keeps _ _ _ _ _ _ H4) by reflexivity.
    rewrite (joined_step_keeps _ _ _ _ _ _ H3) by reflexivity. now rewrite B.
Qed.

Lemma build_query_params_code_lists_witness :
  exists params,
    GrantFetcher._build_query_params 1 (int_pair None None) (int_pair None None)
      (str_list ["SJ02"; "SJ05"]) (str_list []) (str_list []) (str_list ["UA"])
      = Ok params /\
    dict_get "subject" params = Some (PyStr "SJ02,SJ05") /\
    dict_get "population" params = None /\
    dict_get "support" params = Some (PyStr "UA").
Proof.
  eexists. split; [reflexivity|].
  exact (build_query_params_code_lists 1 (int_pair None None) (int_pair None None)
           ["SJ02"; "SJ05"] [] (str_list []) ["UA"] _ eq_refl).
Defined.

(** X3.  The two dollar bounds are emitted one by one, each exactly when it
    is not [None]: a minimum of [0] is emitted too, and a maximum is emitted
    with or without a minimum. *)
Theorem build_query_params_amounts page yr (mn mx : option Z) subj pop loc sup params :
  GrantFetcher._build_query_params page yr (int_pair mn mx) subj pop loc sup = Ok params ->
  dict_get "min_amt" params = PyInt <$> mn /\
  dict_get "max_amt" params = PyInt <$> mx.
Proof.
  intros H. apply build_amounts in H as (a & b & Hdr & Hmin & Hmax).
  rewrite py_unpack2_int_pair in Hdr. injection Hdr as <- <-.
  rewrite Hmin, Hmax. now destruct mn, mx.
Qed.

Lemma build_query_params_amounts_witness :
  exists params,
    GrantFetcher._build_query_params 1 (int_pair None None) (int_pair (Some 0) (Some 500))
      (str_list []) (str_list []) (str_list []) (str_list []) = Ok params /\
    dict_get "min_amt" params = Some (PyInt 0) /\
    dict_get "max_amt" params = Some (PyInt 500).
Proof.
  eexists. split; [reflexivity|].
  exact (build_query_params_amounts 1 (int_pair None None) (Some 0) (Some 500)
           (str_list []) (str_list []) (str_list []) (str_list []) _ eq_refl).
Defined.

(** X4.  A year range whose end lies before its start is not refused: the
    builder returns a mapping whose [year] is the empty string. *)
Theorem build_query_params_reversed_years page (s e : Z) mn mx subj pop loc sup :
  e < s ->
  exists params,
    GrantFetcher._build_query_params page (int_pair (Some s) (Some e)) (int_pair mn mx)
      (str_list subj) (str_list pop) (str_list loc) (str_list sup) = Ok params /\
    dict_get "year" params = Some (PyStr "").
Proof.
  intros Hes.
  destruct (build_typed_returns page (Some s) (Some e) mn mx subj pop loc sup eq_refl)
    as [params H].
  exists params. split; [assumption|].
  apply build_year in H as (sy & ey & Hyr & Hy).
  rewrite py_unpack2_int_pair in Hyr. injection Hyr as <- <-.
  rewrite year_test_int_pair in Hy. simpl in Hy.
  destruct Hy as (stop & years & Hstop & Hyears & Hy).
  injection Hstop as <-. injection Hyears as <-.
  now rewrite int_range_nil in Hy by lia.
Qed.

Lemma build_query_params_reversed_years_witness :
  2022 < 2023 /\
  exists params,
    GrantFetcher._build_query_params 1 (int_pair (Some 2023) (Some 2022))
      (int_pair None None) (str_list []) (str_list []) (str_list []) (str_list [])
      = Ok params /\
    dict_get "year" params = Some (PyStr "").
Proof.
  assert (H : 2022 < 2023) by lia.
  split; [exact H|].
  exact (build_query_params_reversed_years 1 2023 2022 None None [] [] [] [] H).
Defined.

(** Assigning to a key keeps the keys of a dictionary distinct. *)
Lemma dict_set_keys_NoDup {V} (k : string) (v : V) (d : list (string * V)) :
  List.NoDup (dict_keys d) -> List.NoDup (dict_keys (dict_set k v d)).
Proof.
  unfold dict_keys.
  assert (Hin : forall k0 d0, In k0 (map fst (dict_set k v d0)) ->
                              k0 = k \/ In k0 (map fst (d0 : list (string * V)))).
  { intros k0 d0. induction d0 as [|[k1 v1] d0 IH]; simpl.
    - intros [<-|[]]. now left.
    - destruct (String.eqb k k1); simpl; intros [<-|Hin]; auto.
      destruct (IH Hin); auto. }
  induction d as [|[k1 v1] d IH]; simpl; intros Hnd.
  - constructor; [intros [] | constructor].
  - inversion Hnd as [|? ? Hnot Hnd']; subst.
    destruct (String.eqb k k1) eqn:E; simpl.
    + now constructor.
    + constructor; [|now apply IH].
      intros Hin'. destruct (Hin _ _ Hin') as [->|Hin'']; [|contradiction].
      now rewrite String.eqb_refl in E.
Qed.

(** X5.  The keys of a mapping returned by the builder are distinct: no
    parameter would be sent twice. *)
Theorem build_query_params_keys_distinct page yr dr subj pop loc sup params :
  GrantFetcher._build_query_params page yr dr subj pop loc sup = Ok params ->
  List.NoDup (dict_keys params).
Proof.
  intros H. apply build_inv in H
    as (sy & ey & mn & mx & p1 & p2 & p3 & p4 & p5 & _ & _ & H1 & H2 & H3 & H4 & H5 & ->).
  assert (N0 : List.NoDup (dict_keys (base_params page))).
  { unfold dict_keys, base_params. simpl.
    repeat (constructor; [simpl; intros Hin; repeat (destruct Hin as [Hin|Hin];
              [discriminate Hin|]); exact Hin|]). constructor. }
  assert (N1 : List.NoDup (dict_keys p1)).
  { destruct (py_truthy loc).
    - apply res_bind_Ok in H1 as (j & _ & H1).
      assert (E : p1 = dict_set "location_type" (PyStr "area_served")
                         (dict_set "geo_id_type" (PyStr "geonameid")
                            (dict_set "location" (PyStr j) (base_params page))))
        by (injection H1 as <-; reflexivity).
      rewrite E. repeat apply dict_set_keys_NoDup. exact N0.
    - injection H1 as <-. exact N0. }
  assert (N2 : List.NoDup (dict_keys p2)).
  { destruct (negb _).
    - apply res_bind_Ok in H2 as (stop & _ & H2).
      apply res_bind_Ok in H2 as (years & _ & H2). injection H2 as <-.
      now apply dict_set_keys_NoDup.
    - now injection H2 as <-. }
  assert (Step : forall (c : bool) (r : res string) key p p',
             (if c then res_bind r (fun j => Ok (dict_set key (PyStr j) p)) else Ok p)
               = Ok p' -> List.NoDup (dict_keys p) -> List.NoDup (dict_keys p')).
  { intros c r key p p' Hs Hn. destruct c.
    - apply res_bind_Ok in Hs as (j & _ & Hs). injection Hs as <-.
      now apply dict_set_keys_NoDup.
    - now injection Hs as <-. }
  pose proof (Step _ _ _ _ _ H3 N2) as N3.
  pose proof (Step _ _ _ _ _ H4 N3) as N4.
  pose proof (Step _ _ _ _ _ H5 N4) as N5.
  cbv zeta. destruct (is_not_None mn), (is_not_None mx);
    repeat apply dict_set_keys_NoDup; assumption.
Qed.

Lemma build_query_params_keys_distinct_witness :
  exists params,
    GrantFetcher._build_query_params 1 (int_pair (Some 2020) (Some 2022))
      (int_pair (Some 1) (Some 2)) (str_list ["a"]) (str_list ["b"]) (str_list ["c"])
      (str_list ["d"]) = Ok params /\
    List.NoDup (dict_keys params).
Proof.
  eexists. split; [reflexivity|].
  exact (build_query_params_keys_distinct 1 (int_pair (Some 2020) (Some 2022))
           (int_pair (Some 1) (Some 2)) (str_list ["a"]) (str_list ["b"]) (str_list ["c"])
           (str_list ["d"]) _ eq_refl).
Defined.

(** ** More on the page fetcher *)



(** X7.  A filter that the builder refuses never reaches the service: the
    exception of the builder is raised as it is, no request is sent, nothing
    is logged, and the world is as it was. *)
Theorem get_grants_transactions_refused_filter self p yr dr subj pop loc sup e w :
  GrantFetcher._build_query_params p yr dr subj pop loc sup = Raise e ->
  GrantFetcher.get_grants_transactions self p yr dr subj pop loc sup w = (Raise e, w).
Proof.
  intros Hb. unfold GrantFetcher.get_grants_transactions. rewrite Hb. reflexivity.
Qed.

Lemma get_grants_transactions_refused_filter_witness :
  GrantFetcher.get_grants_transactions the_fetcher 1 (int_pair (Some 2020) None)
    (int_pair None None) (str_list []) (str_list []) (str_list []) (str_list [])
    (fresh_world numbered_pages) = (Raise TypeError, fresh_world numbered_pages).
Proof.
  apply get_grants_transactions_refused_filter. reflexivity.
Defined.

(** ** More on the loop *)

(** A turn of the loop for a page that comes back but does not decode: the
    exception leaves the body before anything is appended or logged. *)
Lemma fetch_page_decode_raises self p yr dr subj pop loc sup acc w env e w1 :
  GrantFetcher.get_grants_transactions self p yr dr subj pop loc sup w = (Ok env, w1) ->
  page_rows env = Raise e ->
  GrantFetcher.fetch_page self p yr dr subj pop loc sup (acc, w) = (Raise e, (acc, w1)).
Proof.
  intros Hget Hrows. run_page. rewrite Hget.
  unfold page_rows, mbind, res_mbind in Hrows.
  destruct (py_getitem env "data") as [data|e1] eqn:Hdata; simpl in Hrows;
    [|now injection Hrows as <-].
  destruct (py_contains "rows" data) as [[|]|e2] eqn:Hhas; simpl in Hrows;
    [| discriminate Hrows | now injection Hrows as <-].
  destruct (py_getitem data "rows") as [rows|e3] eqn:Hr; simpl in Hrows;
    [|now injection Hrows as <-].
  destruct (py_iter rows) as [items|e4] eqn:Hi; simpl in Hrows;
    [discriminate Hrows | now injection Hrows as <-].
Qed.





(** X9.  Asked for no page, or for a negative number of pages,
    [fetch_grants] returns the empty list at once: no request, no pause, no
    log record. *)
Theorem fetch_grants_no_pages self yr dr subj pop loc sup (num_pages : Z) w :
  num_pages <= 0 ->
  GrantFetcher.fetch_grants self num_pages yr dr subj pop loc sup w = (Ok [], w).
Proof.
  intros Hn. unfold GrantFetcher.fetch_grants. now rewrite int_range_nil by lia.
Qed.

Lemma fetch_grants_no_pages_witness :
  0 <= 0 /\
  GrantFetcher.fetch_grants the_fetcher 0 (int_pair None None) (int_pair None None)
    (str_list []) (str_list []) (str_list []) (str_list []) (fresh_world numbered_pages)
  = (Ok [], fresh_world numbered_pages).
Proof.
  assert (H : 0 <= 0) by lia. split; [exact H|].
  exact (fetch_grants_no_pages the_fetcher _ _ _ _ _ _ 0 _ H).
Defined.

Lemma pauses_app evs evs' : pauses (evs ++ evs') = (pauses evs ++ pauses evs')%list.
Proof. apply flat_map_app. Qed.

(** A page that comes back was asked for in one request, with nothing else
    added to the trace, wherever in the run it is asked for. *)
Lemma get_grants_transactions_run_ok self p yr dr subj pop loc sup w env :
  fst (GrantFetcher.get_grants_transactions self p yr dr subj pop loc sup w) = Ok env ->
  exists rq,
    requested_pages [HttpGet rq] = [p] /\
    forall w', remote w' = remote w ->
      GrantFetcher.get_grants_transactions self p yr dr subj pop loc sup w'
      = (Ok env, add_events [HttpGet rq] w').
Proof.
  intros Hfst.
  destruct (get_grants_transactions_run self p yr dr subj pop loc sup w)
    as (r & evs & Hrun & _ & _ & Hreq).
  pose proof (Hrun w eq_refl) as Hw. rewrite Hw in Hfst. simpl in Hfst. subst r.
  unfold GrantFetcher.get_grants_transactions in Hw.
  destruct (GrantFetcher._build_query_params p yr dr subj pop loc sup) as [params|e] eqn:Hb;
    [|discriminate Hw].
  revert Hw. run_get.
  set (rq := Request (GrantFetcher.base_url self) params
               [("accept", "application/json");
                ("Subscription-Key", GrantFetcher.api_key self)]).
  destruct (remote w rq) as [|status body]; run_get; [discriminate|].
  destruct ((400 <=? status) && (status <? 600))%Z; run_get; [discriminate|].
  destruct body as [v|]; run_get; [|discriminate].
  intros Hw. injection Hw as -> Htr.
  apply app_inv_head in Htr. subst evs.
  exists rq. split; [exact Hreq | exact Hrun].
Qed.

(** The loop over pages that all come back and decode, with its pauses. *)
Lemma fetch_loop_all self yr dr subj pop loc sup (rows : Z -> list pyval) w0
    (good rest : list Z) :
  Qle_bool 0 (GrantFetcher.delay self) = true ->
  (forall p, In p good ->
     exists env o,
       fst (GrantFetcher.get_grants_transactions self p yr dr subj pop loc sup w0) = Ok env /\
       page_rows env = Ok o /\ rows_of o = rows p) ->
  forall acc w, remote w = remote w0 ->
  exists evs,
    GrantFetcher.fetch_loop self (good ++ rest) yr dr subj pop loc sup (acc, w) =
    GrantFetcher.fetch_loop self rest yr dr subj pop loc sup
      ((acc ++ concat (map rows good))%list, add_events evs w) /\
    requested_pages evs = good /\ fetch_failures evs = [] /\
    pauses evs = map (fun _ => GrantFetcher.delay self) good.
Proof.
  intros Hdelay. induction good as [|p good IH]; intros Hgood acc w Hw.
  - exists []. simpl. now rewrite app_nil_r, add_events_nil.
  - destruct (Hgood p (or_introl eq_refl)) as (env & o & Henv & Ho & Hrows).
    destruct (get_grants_transactions_run_ok self p yr dr subj pop loc sup w0 env Henv)
      as (rq & Hreq & Hrun).
    pose proof (fetch_page_returns self p yr dr subj pop loc sup acc w env o _
                  (Hrun w Hw) Ho Hdelay) as Hpage.
    rewrite add_events_app in Hpage.
    destruct (IH (fun q Hq => Hgood q (or_intror Hq)) (acc ++ rows_of o)%list
                (add_events ([HttpGet rq] ++ page_events p o (GrantFetcher.delay self)) w) Hw)
      as (evs' & Hloop & Hreq' & Hff' & Hp').
    exists (([HttpGet rq] ++ page_events p o (GrantFetcher.delay self)) ++ evs')%list.
    split; [|split; [|split]].
    + change ((p :: good) ++ rest)%list with (p :: (good ++ rest))%list.
      cbn [GrantFetcher.fetch_loop]. cbv [mbind ME_mbind try_except].
      rewrite Hpage, Hloop, add_events_app. simpl. now rewrite Hrows, <- app_assoc.
    + rewrite !requested_pages_app, Hreq, Hreq'. now destruct o.
    + rewrite !fetch_failures_app, Hff'. now destruct o.
    + rewrite !pauses_app, Hp'. now destruct o.
Qed.



(** The page that comes back but does not decode ends the loop like a page
    the fetcher fails on. *)
Lemma fetch_loop_decode_failure self yr dr subj pop loc sup w0 (p : Z) (rest : list Z)
    (env : pyval) (e : exn) :
  fst (GrantFetcher.get_grants_transactions self p yr dr subj pop loc sup w0) = Ok env ->
  page_rows env = Raise e ->
  forall acc w, remote w = remote w0 ->
  exists evs,
    GrantFetcher.fetch_loop self (p :: rest) yr dr subj pop loc sup (acc, w) =
    (Ok tt, (acc, add_events evs w)) /\
    requested_pages evs = [p] /\ fetch_failures evs = [(p, e)] /\ pauses evs = [].
Proof.
  intros Henv He acc w Hw.
  destruct (get_grants_transactions_run_ok self p yr dr subj pop loc sup w0 env Henv)
    as (rq & Hreq & Hrun).
  exists ([HttpGet rq] ++ [Log ERROR (FetchFailed p e)])%list. split; [|split; [|split]].
  - cbn [GrantFetcher.fetch_loop]. cbv [mbind ME_mbind try_except].
    rewrite (fetch_page_decode_raises _ _ _ _ _ _ _ _ _ _ _ _ _ (Hrun w Hw) He).
    cbv [in_world]. now rewrite emit_run, add_events_app.
  - rewrite requested_pages_app, Hreq. reflexivity.
  - reflexivity.
  - reflexivity.
Qed.

(** X11.  A page that comes back but cannot be used, its body having no
    [data] entry or a [rows] entry that is no sequence, is handled like a
    failure of the fetcher: the exception is logged for that page, the loop
    stops without a pause and without asking for a later page, and the rows
    of the pages before it are returned. *)
Theorem fetch_grants_stops_at_unusable_page self yr dr subj pop loc sup
    (num_pages k : Z) (rows : Z -> list pyval) (env : pyval) (e : exn) w :
  1 <= k <= num_pages ->
  (0 <= GrantFetcher.delay self)%Q ->
  (forall p, 1 <= p < k ->
     exists env' o,
       fst (GrantFetcher.get_grants_transactions self p yr dr subj pop loc sup w) = Ok env' /\
       page_rows env' = Ok o /\ rows_of o = rows p) ->
  fst (GrantFetcher.get_grants_transactions self k yr dr subj pop loc sup w) = Ok env ->
  page_rows env = Raise e ->
  exists evs,
    GrantFetcher.fetch_grants self num_pages yr dr subj pop loc sup w =
      (Ok (concat (map rows (int_range 1 k))), add_events evs w) /\
    fetch_failures evs = [(k, e)] /\
    requested_pages evs = int_range 1 (k + 1) /\
    pauses evs = repeat (GrantFetcher.delay self) (Z.to_nat (k - 1)).
Proof.
  intros Hk Hdelay Hgood Henv He. apply Qle_bool_iff in Hdelay.
  destruct (fetch_loop_all self yr dr subj pop loc sup rows w (int_range 1 k)
              (int_range k (num_pages + 1)) Hdelay) with (acc := @nil pyval) (w := w)
    as (evs1 & Hloop1 & Hreq1 & Hff1 & Hp1); [|reflexivity|].
  { intros p Hp. apply Hgood. apply int_range_In in Hp. lia. }
  rewrite <- int_range_split in Hloop1 by lia.
  rewrite (int_range_cons k) in Hloop1 by lia.
  destruct (fetch_loop_decode_failure self yr dr subj pop loc sup w k
              (int_range (k + 1) (num_pages + 1)) env e Henv He
              ([] ++ concat (map rows (int_range 1 k)))%list (add_events evs1 w) eq_refl)
    as (evs2 & Hloop2 & Hreq2 & Hff2 & Hp2).
  rewrite Hloop2, add_events_app in Hloop1.
  exists (evs1 ++ evs2)%list. split; [|split; [|split]].
  - unfold GrantFetcher.fetch_grants. eapply with_local_run.
    cbv [mbind ME_mbind]. rewrite Hloop1. reflexivity.
  - now rewrite fetch_failures_app, Hff1, Hff2.
  - rewrite requested_pages_app, Hreq1, Hreq2. now rewrite int_range_snoc by lia.
  - rewrite pauses_app, Hp1, Hp2, app_nil_r. unfold int_range. rewrite map_map.
    generalize (Z.to_nat (k - 1)) as n. generalize O as a.
    intros a n. revert a. induction n as [|n IH]; intros a; simpl; [reflexivity|].
    now rewrite IH.
Qed.

Lemma fetch_grants_stops_at_unusable_page_witness :
  let srv := paged_remote (fun n =>
               if (n =? 2)%Z then Response 200 (Some (PyDict [("error", PyStr "quota")]))
               else Response 200 (Some (envelope (Some [PyInt n]) 10 10))) in
  exists evs,
    GrantFetcher.fetch_grants the_fetcher 3 (int_pair None None) (int_pair None None)
      (str_list []) (str_list []) (str_list []) (str_list []) (fresh_world srv) =
      (Ok [PyInt 1], add_events evs (fresh_world srv)) /\
    fetch_failures evs = [(2, KeyError)] /\
    requested_pages evs = [1; 2] /\
    pauses evs = [GrantFetcher.default_delay].
Proof.
  intros srv.
  assert (H0 : 1 <= 2 <= 3) by lia.
  assert (H1 : (0 <= GrantFetcher.delay the_fetcher)%Q) by (vm_compute; discriminate).
  assert (H2 : forall p, 1 <= p < 2 ->
     exists env o,
       fst (GrantFetcher.get_grants_transactions the_fetcher p (int_pair None None)
              (int_pair None None) (str_list []) (str_list []) (str_list []) (str_list [])
              (fresh_world srv)) = Ok env /\
       page_rows env = Ok o /\ rows_of o = (fun n : Z => [PyInt n]) p).
  { intros p Hp. assert (p = 1) as -> by lia.
    exists (envelope (Some [PyInt 1]) 10 10), (Some [PyInt 1]). repeat split. }
  exact (fetch_grants_stops_at_unusable_page the_fetcher _ _ _ _ _ _ 3 2
           (fun n => [PyInt n]) (PyDict [("error", PyStr "quota")]) KeyError
           (fresh_world srv) H0 H1 H2 eq_refl eq_refl).
Defined.



(** ** Reading back what [json.dumps] wrote *)

Lemma str_app_cons (x : ascii) (a b : string) : String x a +:+ b = String x (a +:+ b).
Proof. reflexivity. Qed.

Lemma str_app_nil_l (a : string) : "" +:+ a = a.
Proof. reflexivity. Qed.

Lemma str_app_assoc (a b c : string) : (a +:+ b) +:+ c = a +:+ (b +:+ c).
Proof.
  induction a as [|x a IH]; [reflexivity|].
  rewrite !str_app_cons. f_equal. exact IH.
Qed.

Lemma str_app_nil_r (a : string) : a +:+ "" = a.
Proof.
  induction a as [|x a IH]; [reflexivity|]. rewrite str_app_cons. f_equal. exact IH.
Qed.

Lemma str_length_app (a b : string) :
  String.length (a +:+ b) = (String.length a + String.length b)%nat.
Proof.
  induction a as [|x a IH]; [reflexivity|]. rewrite str_app_cons. simpl. f_equal. exact IH.
Qed.

Lemma substring_all (s : string) : String.substring 0 (String.length s) s = s.
Proof. induction s as [|c s IH]; [reflexivity | simpl; f_equal; exact IH]. Qed.

(** *** String literals *)

Lemma scan_string_escape_char (c : ascii) (tail : string) :
  json.scan_string (json.escape_char c +:+ tail) =
  match json.scan_string tail with
  | Some (t, r) => Some (String c t, r)
  | None => None
  end.
Proof.
  destruct c as [[] [] [] [] [] [] [] []]; reflexivity.
Qed.

Lemma scan_string_escape (s rest : string) :
  json.scan_string (json.escape s +:+ json.quote +:+ rest) = Some (s, rest).
Proof.
  induction s as [|c s IH]; simpl; [reflexivity|].
  now rewrite str_app_assoc, scan_string_escape_char, IH.
Qed.

(** *** Integers *)

Lemma digit_value_pretty_N_char (x : N) :
  (x < 10)%N -> json.digit_value (pretty_N_char x) = Some (Z.of_N x).
Proof.
  intros Hx.
  assert (x = 0 \/ x = 1 \/ x = 2 \/ x = 3 \/ x = 4 \/ x = 5 \/ x = 6 \/ x = 7
          \/ x = 8 \/ x = 9)%N as H by lia.
  repeat (destruct H as [->|H]; [reflexivity|]). now subst.
Qed.

(** The decimal digits of a positive number: they start with a digit that
    is not [0], and reading them in base ten gives the number back. *)
Lemma pretty_N_go_digits (x : N) :
  (0 < x)%N ->
  exists (c : ascii) (d : Z) (ds : string) (m : Z),
    json.digit_value c = Some d /\ d <> 0 /\
    (forall s, pretty_N_go x s = String c (ds +:+ s)) /\
    (forall acc tail,
       json.scan_digits acc (String c (ds +:+ tail)) =
       json.scan_digits (acc * m + Z.of_N x) tail).
Proof.
  induction (N.lt_wf_0 x) as [x _ IH]. intros Hx.
  destruct (N.lt_ge_cases x 10) as [Hlt|Hge].
  - exists (pretty_N_char x), (Z.of_N x), "", 10.
    split; [now apply digit_value_pretty_N_char|]. split; [lia|]. split.
    + intros s. rewrite pretty_N_go_step by assumption.
      rewrite N.div_small, N.mod_small by assumption. reflexivity.
    + intros acc tail. simpl. rewrite digit_value_pretty_N_char by assumption.
      f_equal. lia.
  - assert (Hq : (0 < x / 10)%N) by (apply N.div_str_pos; lia).
    assert (Hlt : (x / 10 < x)%N) by (apply N.div_lt; lia).
    destruct (IH _ Hlt Hq) as (c & d & ds & m & Hc & Hd & Hgo & Hscan).
    exists c, d, (ds +:+ String (pretty_N_char (x mod 10)) ""), (10 * m).
    split; [assumption|]. split; [assumption|]. split.
    + intros s. rewrite pretty_N_go_step by assumption.
      rewrite Hgo, str_app_assoc. reflexivity.
    + intros acc tail. rewrite str_app_assoc. simpl "+:+".
      rewrite Hscan. simpl.
      rewrite digit_value_pretty_N_char by (apply N.mod_lt; lia).
      f_equal. pose proof (N.div_mod x 10). lia.
Qed.

Lemma scan_digits_stop (acc : Z) (rest : string) :
  after_value rest -> json.scan_digits acc rest = (acc, rest).
Proof. destruct rest as [|c r]; [reflexivity|]. intros [-> | ->]; reflexivity. Qed.

Lemma scan_int_digits (c : ascii) (d : Z) (s2 : string) (n : Z) (rest : string) :
  json.digit_value c = Some d ->
  (if (d =? 0)%Z then (0, s2) else json.scan_digits d s2) = (n, rest) ->
  after_value rest ->
  json.scan_int (String c s2) = Some (n, rest) /\
  json.scan_int (String "-" (String c s2)) = Some (- n, rest).
Proof.
  intros Hc Hd Hrest. pose proof Hc as Hc'. unfold json.scan_int.
  destruct c as [[] [] [] [] [] [] [] []];
    try (vm_compute in Hc'; discriminate Hc'); clear Hc';
    cbv beta iota; rewrite Hc; cbv beta iota; rewrite Hd;
    (destruct rest as [|r0 rest']; [|destruct Hrest as [-> | ->]]); split; reflexivity.
Qed.

Lemma scan_int_positive (x : N) (rest : string) :
  (0 < x)%N -> after_value rest ->
  exists c ds,
    pretty_N_go x "" = String c ds /\
    json.digit_value c <> None /\
    json.scan_int (String c ds +:+ rest) = Some (Z.of_N x, rest) /\
    json.scan_int (String "-" (String c ds) +:+ rest) = Some (- Z.of_N x, rest).
Proof.
  intros Hx Hrest.
  destruct (pretty_N_go_digits x Hx) as (c & d & ds & m & Hc & Hd & Hgo & Hscan).
  exists c, ds. split; [now rewrite Hgo, str_app_nil_r|].
  split; [now rewrite Hc|].
  assert (Hs : json.scan_digits d (ds +:+ rest) = (Z.of_N x, rest)).
  { pose proof (Hscan 0 rest) as H0. cbn [json.scan_digits] in H0. rewrite Hc in H0.
    replace (10 * 0 + d) with d in H0 by lia.
    replace (0 * m + Z.of_N x) with (Z.of_N x) in H0 by lia.
    rewrite H0. now apply scan_digits_stop. }
  rewrite !str_app_cons. apply (scan_int_digits c d); [assumption | | assumption].
  apply Z.eqb_neq in Hd. now rewrite Hd.
Qed.

Lemma pretty_Z_cases (n : Z) :
  (n = 0 /\ py_str n = "0") \/
  (exists x, (0 < x)%N /\ n = Z.of_N x /\ py_str n = pretty_N_go x "") \/
  (exists x, (0 < x)%N /\ n = - Z.of_N x /\ py_str n = String "-" (pretty_N_go x "")).
Proof.
  destruct n as [|p|p].
  - now left.
  - right. left. exists (Npos p). repeat split; try lia.
  - right. right. exists (Npos p). repeat split; try lia.
Qed.

(** [int]: the decimal text of a number is read back as the number. *)
Lemma scan_int_py_str (n : Z) (rest : string) :
  after_value rest -> json.scan_int (py_str n +:+ rest) = Some (n, rest).
Proof.
  intros Hrest.
  destruct (pretty_Z_cases n) as [[-> ->]|[(x & Hx & -> & ->)|(x & Hx & -> & ->)]].
  - simpl. destruct rest as [|r0 rest']; [reflexivity|].
    destruct Hrest as [-> | ->]; reflexivity.
  - destruct (scan_int_positive x rest Hx Hrest) as (c & ds & -> & _ & H & _).
    exact H.
  - destruct (scan_int_positive x rest Hx Hrest) as (c & ds & -> & _ & _ & H).
    exact H.
Qed.

(** The text of a number starts with a digit or a minus sign. *)
Lemma py_str_head (n : Z) :
  exists c s, py_str n = String c s /\
              (json.digit_value c <> None \/ c = "-"%char).
Proof.
  destruct (pretty_Z_cases n) as [[-> ->]|[(x & Hx & -> & ->)|(x & Hx & -> & ->)]].
  - exists "0"%char, "". split; [reflexivity | left; discriminate].
  - destruct (scan_int_positive x "" Hx I) as (c & ds & -> & Hc & _).
    exists c, ds. auto.
  - eexists _, _. split; [reflexivity | now right].
Qed.

(** *** White space and the first character of a value *)

Lemma skip_ws_cons_ws (c : ascii) (s : string) :
  json.is_ws c = true -> json.skip_ws (String c s) = json.skip_ws s.
Proof. intros H. cbn [json.skip_ws]. now rewrite H. Qed.

Lemma skip_ws_spaces (n : nat) (s : string) :
  json.skip_ws (json.spaces n +:+ s) = json.skip_ws s.
Proof.
  induction n as [|n IH]; [reflexivity|]. cbn [json.spaces]. rewrite str_app_cons.
  rewrite skip_ws_cons_ws by reflexivity. exact IH.
Qed.

Lemma newline_indent_cons (indent level : nat) (s : string) :
  json.newline_indent indent level +:+ s
  = String (ascii_of_N 10) (json.spaces (indent * level) +:+ s).
Proof. unfold json.newline_indent, json.newline. now rewrite str_app_assoc. Qed.

Lemma skip_ws_newline_indent (indent level : nat) (s : string) :
  json.skip_ws (json.newline_indent indent level +:+ s) = json.skip_ws s.
Proof.
  rewrite newline_indent_cons, skip_ws_cons_ws by reflexivity. apply skip_ws_spaces.
Qed.

Lemma after_value_newline_indent (indent level : nat) (s : string) :
  after_value (json.newline_indent indent level +:+ s).
Proof. rewrite newline_indent_cons. now right. Qed.

Lemma value_head_not_ws (c : ascii) : value_head c = true -> json.is_ws c = false.
Proof.
  intros H. destruct c as [[] [] [] [] [] [] [] []];
    try reflexivity; vm_compute in H; discriminate H.
Qed.

Lemma skip_ws_value_head (c : ascii) (tl : string) :
  value_head c = true -> json.skip_ws (String c tl) = String c tl.
Proof. intros H. cbn [json.skip_ws]. now rewrite value_head_not_ws. Qed.

Lemma encode_head (indent level : nat) (v : pyval) :
  exists c tl, json.encode indent level v = String c tl /\ value_head c = true.
Proof.
  destruct v as [| [|] | n | s | [|x l] | [|x l] | [|kv d]];
    try (eexists _, _; split; reflexivity).
  destruct (py_str_head n) as (c & tl & E & H). exists c, tl. split; [exact E|].
  unfold value_head. destruct H as [H| ->]; [|reflexivity].
  now destruct (json.digit_value c).
Qed.

Lemma skip_ws_encode (indent level : nat) (v : pyval) (s : string) :
  json.skip_ws (json.encode indent level v +:+ s) = json.encode indent level v +:+ s.
Proof.
  destruct (encode_head indent level v) as (c & tl & -> & H).
  rewrite str_app_cons. now apply skip_ws_value_head.
Qed.

(** *** The words [null], [true] and [false] *)

Lemma prefix_app (pre rest : string) : String.prefix pre (pre +:+ rest) = true.
Proof.
  induction pre as [|c pre IH]; [now destruct rest|].
  rewrite str_app_cons. cbn [String.prefix].
  destruct (ascii_dec c c); [exact IH | contradiction].
Qed.

Lemma substring_skip (pre rest : string) :
  String.substring (String.length pre)
    (String.length (pre +:+ rest) - String.length pre) (pre +:+ rest) = rest.
Proof.
  induction pre as [|c pre IH].
  - rewrite str_app_nil_l. cbn [String.length]. rewrite Nat.sub_0_r. apply substring_all.
  - rewrite str_app_cons. cbn [String.length String.substring]. exact IH.
Qed.

Lemma starts_with_app (pre rest : string) : json.starts_with pre (pre +:+ rest) = Some rest.
Proof. unfold json.starts_with. now rewrite prefix_app, substring_skip. Qed.

(** *** One step of [scan_value], by the first character *)

Lemma scan_value_null (fuel : nat) (rest : string) :
  json.scan_value (S fuel) ("null" +:+ rest) = Some (PyNone, rest).
Proof.
  transitivity (match json.starts_with "null" ("null" +:+ rest) with
                | Some r => Some (PyNone, r)
                | None => None
                end); [|now rewrite starts_with_app].
  destruct (json.starts_with "null" ("null" +:+ rest)) eqn:E;
    [|now rewrite starts_with_app in E].
  change (json.scan_value (S fuel) ("null" +:+ rest)) with
    (match json.starts_with "null" ("null" +:+ rest),
           json.starts_with "true" ("null" +:+ rest),
           json.starts_with "false" ("null" +:+ rest) with
     | Some r, _, _ => Some (PyNone, r)
     | _, Some r, _ => Some (PyBool true, r)
     | _, _, Some r => Some (PyBool false, r)
     | _, _, _ =>
         match json.scan_int ("null" +:+ rest) with
         | Some (n, r) => Some (PyInt n, r)
         | None => None
         end
     end).
  now rewrite E.
Qed.

Lemma scan_value_true (fuel : nat) (rest : string) :
  json.scan_value (S fuel) ("true" +:+ rest) = Some (PyBool true, rest).
Proof.
  change (json.scan_value (S fuel) ("true" +:+ rest)) with
    (match json.starts_with "true" ("true" +:+ rest) with
     | Some r => Some (PyBool true, r)
     | None =>
         match json.starts_with "false" ("true" +:+ rest) with
         | Some r => Some (PyBool false, r)
         | None =>
             match json.scan_int ("true" +:+ rest) with
             | Some (n, r) => Some (PyInt n, r)
             | None => None
             end
         end
     end).
  now rewrite starts_with_app.
Qed.

Lemma scan_value_false (fuel : nat) (rest : string) :
  json.scan_value (S fuel) ("false" +:+ rest) = Some (PyBool false, rest).
Proof.
  change (json.scan_value (S fuel) ("false" +:+ rest)) with
    (match json.starts_with "false" ("false" +:+ rest) with
     | Some r => Some (PyBool false, r)
     | None =>
         match json.scan_int ("false" +:+ rest) with
         | Some (n, r) => Some (PyInt n, r)
         | None => None
         end
     end).
  now rewrite starts_with_app.
Qed.

Lemma scan_value_number (fuel : nat) (c : ascii) (s' : string) :
  json.digit_value c <> None \/ c = "-"%char ->
  json.scan_value (S fuel) (String c s') =
  match json.scan_int (String c s') with
  | Some (n, r) => Some (PyInt n, r)
  | None => None
  end.
Proof.
  intros H. destruct c as [[] [] [] [] [] [] [] []];
    try (exfalso; destruct H as [H|H]; [apply H; reflexivity | discriminate H]);
    reflexivity.
Qed.

Lemma scan_value_int (fuel : nat) (n : Z) (rest : string) :
  after_value rest ->
  json.scan_value (S fuel) (py_str n +:+ rest) = Some (PyInt n, rest).
Proof.
  intros Hrest. pose proof (scan_int_py_str n rest Hrest) as E.
  destruct (py_str_head n) as (c & tl & Hn & Hc). rewrite Hn in *.
  rewrite str_app_cons in *. rewrite scan_value_number by assumption. now rewrite E.
Qed.

Lemma scan_value_str (fuel : nat) (s rest : string) :
  json.scan_value (S fuel) (json.encode_str s +:+ rest) = Some (PyStr s, rest).
Proof.
  unfold json.encode_str. rewrite !str_app_assoc.
  change (json.scan_value (S fuel) (json.quote +:+ json.escape s +:+ json.quote +:+ rest))
    with (match json.scan_string (json.escape s +:+ json.quote +:+ rest) with
          | Some (t, r) => Some (PyStr t, r)
          | None => None
          end).
  now rewrite scan_string_escape.
Qed.

Lemma scan_value_list (fuel : nat) (s' : string) (c : ascii) (tl : string) :
  json.skip_ws s' = String c tl -> value_head c = true ->
  json.scan_value (S fuel) (String "[" s') =
  match json.scan_items (json.scan_value fuel) fuel [] (String c tl) with
  | Some (l, r) => Some (PyList l, r)
  | None => None
  end.
Proof.
  intros Hs Hc.
  change (json.scan_value (S fuel) (String "[" s')) with
    (match json.skip_ws s' with
     | String "]" r => Some (PyList [], r)
     | s1 =>
         match json.scan_items (json.scan_value fuel) fuel [] s1 with
         | Some (l, r) => Some (PyList l, r)
         | None => None
         end
     end).
  rewrite Hs. destruct c as [[] [] [] [] [] [] [] []];
    try (vm_compute in Hc; discriminate Hc); reflexivity.
Qed.

Lemma scan_value_dict (fuel : nat) (s' tl : string) :
  json.skip_ws s' = String (ascii_of_N 34) tl ->
  json.scan_value (S fuel) (String "{" s') =
  match json.scan_members (json.scan_value fuel) fuel [] (String (ascii_of_N 34) tl) with
  | Some (d, r) => Some (PyDict d, r)
  | None => None
  end.
Proof.
  intros Hs.
  change (json.scan_value (S fuel) (String "{" s')) with
    (match json.skip_ws s' with
     | String "}" r => Some (PyDict [], r)
     | s1 =>
         match json.scan_members (json.scan_value fuel) fuel [] s1 with
         | Some (d, r) => Some (PyDict d, r)
         | None => None
         end
     end).
  now rewrite Hs.
Qed.

(** *** One element of an array, one member of an object *)

Lemma scan_items_more value (fuel : nat) (acc : list pyval) (s : string) v (s2 : string) :
  value s = Some (v, String "," s2) ->
  json.scan_items value (S fuel) acc s
  = json.scan_items value fuel (acc ++ [v])%list (json.skip_ws s2).
Proof. intros H. cbn [json.scan_items]. now rewrite H. Qed.

Lemma scan_items_last value (fuel : nat) (acc : list pyval) (s : string) v (s1 r : string) :
  value s = Some (v, s1) -> json.skip_ws s1 = String "]" r ->
  json.scan_items value (S fuel) acc s = Some ((acc ++ [v])%list, r).
Proof. intros H H1. cbn [json.scan_items]. now rewrite H, H1. Qed.

Lemma scan_members_key value (fuel : nat) acc (k tail : string) :
  json.scan_members value (S fuel) acc (json.encode_str k +:+ ": " +:+ tail) =
  match value (json.skip_ws tail) with
  | Some (v, s3) =>
      match json.skip_ws s3 with
      | String "," s4 =>
          json.scan_members value fuel (dict_set k v acc) (json.skip_ws s4)
      | String "}" s4 => Some (dict_set k v acc, s4)
      | _ => None
      end
  | None => None
  end.
Proof.
  unfold json.encode_str. rewrite !str_app_assoc.
  change (json.scan_members value (S fuel) acc
            (json.quote +:+ json.escape k +:+ json.quote +:+ ": " +:+ tail))
    with (match json.scan_string (json.escape k +:+ json.quote +:+ ": " +:+ tail) with
          | Some (k, s1) =>
              match json.skip_ws s1 with
              | String ":" s2 =>
                  match value (json.skip_ws s2) with
                  | Some (v, s3) =>
                      match json.skip_ws s3 with
                      | String "," s4 =>
                          json.scan_members value fuel (dict_set k v acc) (json.skip_ws s4)
                      | String "}" s4 => Some (dict_set k v acc, s4)
                      | _ => None
                      end
                  | None => None
                  end
              | _ => None
              end
          | None => None
          end).
  rewrite scan_string_escape.
  change (json.skip_ws (": " +:+ tail)) with (String ":" (String " " tail)).
  cbv beta iota. rewrite (skip_ws_cons_ws " ") by reflexivity. reflexivity.
Qed.

(** *** Values, by induction on their structure *)

Lemma pyval_nested_ind (P : pyval -> Prop) :
  P PyNone -> (forall b, P (PyBool b)) -> (forall n, P (PyInt n)) ->
  (forall s, P (PyStr s)) ->
  (forall l, Forall P l -> P (PyList l)) ->
  (forall l, Forall P l -> P (PyTuple l)) ->
  (forall d, Forall (fun kv => P (snd kv)) d -> P (PyDict d)) ->
  forall v, P v.
Proof.
  intros HN HB HI HS HL HT HD. fix IH 1. intros [| b | n | s | l | l | d];
    [apply HN | apply HB | apply HI | apply HS | | | ].
  - apply HL. induction l as [|x l IHl]; constructor; [apply IH | exact IHl].
  - apply HT. induction l as [|x l IHl]; constructor; [apply IH | exact IHl].
  - apply HD. induction d as [|[k x] d IHd]; constructor; [apply IH | exact IHd].
Qed.

Lemma dict_get_app {V} (k : string) (d d' : list (string * V)) :
  dict_get k (d ++ d') = match dict_get k d with Some v => Some v | None => dict_get k d' end.
Proof.
  induction d as [|[k' v'] d IH]; [reflexivity|]. cbn [app dict_get].
  now destruct (String.eqb k k').
Qed.

Lemma dict_set_fresh {V} (k : string) (v : V) (d : list (string * V)) :
  dict_get k d = None -> dict_set k v d = (d ++ [(k, v)])%list.
Proof.
  induction d as [|[k' v'] d IH]; [reflexivity|]. cbn [app dict_get dict_set].
  destruct (String.eqb k k'); [discriminate|]. intros H. now rewrite IH.
Qed.

Lemma dict_has_false_In {V} (k : string) (d : list (string * V)) (kv : string * V) :
  dict_has k d = false -> In kv d -> fst kv <> k.
Proof.
  unfold dict_has. induction d as [|[k' v'] d IH]; [contradiction|].
  cbn [dict_get]. destruct (String.eqb_spec k k') as [->|Hne]; [discriminate|].
  intros H [<- | Hin]; [now intros <- | now apply IH].
Qed.

Section ReadBack.
Variable indent : nat.

Lemma concat_cons (sep x y : string) (l : list string) :
  String.concat sep (x :: y :: l) = x +:+ sep +:+ String.concat sep (y :: l).
Proof. reflexivity. Qed.

Lemma separator_cons (level : nat) (s : string) :
  separator indent level +:+ s = String "," (json.newline_indent indent level +:+ s).
Proof. unfold separator. now rewrite str_app_assoc. Qed.

Lemma items_head (level : nat) (x : pyval) (l : list pyval) (tail : string) :
  exists c tl,
    String.concat (separator indent level) (map (json.encode indent level) (x :: l)) +:+ tail
    = String c tl /\ value_head c = true.
Proof.
  destruct (encode_head indent level x) as (c & tl & E & H).
  destruct l as [|y l]; cbn [map]; [|rewrite concat_cons]; cbn [String.concat];
    rewrite E, str_app_cons; eauto.
Qed.

Lemma scan_items_encode (level fuelv : nat) (rest : string) (l : list pyval) :
  Forall (reads_back indent) l ->
  forall (x : pyval) (acc : list pyval) (fuel : nat),
    reads_back indent x ->
    forallb well_keyed (x :: l) = true ->
    Forall (fun v => (scan_fuel v <= fuelv)%nat) (x :: l) ->
    (length (x :: l) <= fuel)%nat ->
    json.scan_items (json.scan_value fuelv) fuel acc
      (String.concat (separator indent (S level)) (map (json.encode indent (S level)) (x :: l))
       +:+ json.newline_indent indent level +:+ "]" +:+ rest)
    = Some ((acc ++ map listify (x :: l))%list, rest).
Proof.
  induction 1 as [|y l Hy Hl IH]; intros x acc fuel Hx Hwk Hfv Hfuel.
  - destruct fuel as [|fuel]; [cbn in Hfuel; lia|].
    cbn [forallb] in Hwk. apply andb_true_iff in Hwk as [Hwx _].
    apply Forall_inv in Hfv.
    cbn [map String.concat].
    apply scan_items_last with (s1 := json.newline_indent indent level +:+ "]" +:+ rest).
    + apply Hx; [assumption | assumption | apply after_value_newline_indent].
    + now rewrite skip_ws_newline_indent.
  - destruct fuel as [|fuel]; [cbn in Hfuel; lia|].
    cbn [forallb] in Hwk. apply andb_true_iff in Hwk as [Hwx Hwk].
    pose proof (Forall_inv Hfv) as Hfx. apply Forall_inv_tail in Hfv.
    cbn [map]. rewrite concat_cons, !str_app_assoc, separator_cons.
    rewrite (scan_items_more _ _ _ _ (listify x)
               (json.newline_indent indent (S level) +:+
                String.concat (separator indent (S level))
                  (json.encode indent (S level) y :: map (json.encode indent (S level)) l)
                +:+ json.newline_indent indent level +:+ "]" +:+ rest)).
    2:{ apply Hx; [assumption | assumption | now left]. }
    rewrite skip_ws_newline_indent.
    destruct (items_head (S level) y l
                (json.newline_indent indent level +:+ "]" +:+ rest)) as (c & tl & E & Hc).
    cbn [map] in E. rewrite E, skip_ws_value_head, <- E by assumption.
    change (json.encode indent (S level) y :: map (json.encode indent (S level)) l)
      with (map (json.encode indent (S level)) (y :: l)).
    rewrite IH; [| assumption | assumption | assumption | cbn in Hfuel |- *; lia].
    cbn [map]. now rewrite <- app_assoc.
Qed.

Lemma members_head (level : nat) (kv : string * pyval) (d : list (string * pyval))
    (tail : string) :
  exists tl,
    String.concat (separator indent level) (map (member_text indent level) (kv :: d)) +:+ tail
    = String (ascii_of_N 34) tl.
Proof.
  destruct d as [|kv' d]; cbn [map]; [|rewrite concat_cons]; cbn [String.concat];
    unfold member_text at 1, json.encode_str, json.quote;
    rewrite !str_app_assoc, str_app_cons; eauto.
Qed.

Lemma scan_members_encode (level fuelv : nat) (rest : string) (d : list (string * pyval)) :
  Forall (fun kv => reads_back indent (snd kv)) d ->
  forall (kv : string * pyval) (acc : list (string * pyval)) (fuel : nat),
    reads_back indent (snd kv) ->
    keys_distinct (kv :: d) = true ->
    forallb (fun kv => well_keyed (snd kv)) (kv :: d) = true ->
    Forall (fun kv' => dict_get (fst kv') acc = None) (kv :: d) ->
    Forall (fun kv => (scan_fuel (snd kv) <= fuelv)%nat) (kv :: d) ->
    (length (kv :: d) <= fuel)%nat ->
    json.scan_members (json.scan_value fuelv) fuel acc
      (String.concat (separator indent (S level)) (map (member_text indent (S level)) (kv :: d))
       +:+ json.newline_indent indent level +:+ "}" +:+ rest)
    = Some ((acc ++ map (fun kv => (fst kv, listify (snd kv))) (kv :: d))%list, rest).
Proof.
  induction 1 as [|kv' d Hy Hl IH]; intros [k x] acc fuel Hx Hkd Hwk Hacc Hfv Hfuel.
  - destruct fuel as [|fuel]; [cbn in Hfuel; lia|].
    cbn [forallb snd] in Hwk. apply andb_true_iff in Hwk as [Hwx _].
    apply Forall_inv in Hfv. apply Forall_inv in Hacc. cbn [fst snd] in *.
    cbn [map String.concat]. unfold member_text at 1. cbn [fst snd].
    rewrite !str_app_assoc, scan_members_key, skip_ws_encode.
    rewrite Hx by (try assumption; apply after_value_newline_indent).
    rewrite skip_ws_newline_indent.
    change (json.skip_ws ("}" +:+ rest)) with (String "}" rest). cbv beta iota.
    now rewrite dict_set_fresh.
  - destruct fuel as [|fuel]; [cbn in Hfuel; lia|].
    cbn [forallb snd] in Hwk. apply andb_true_iff in Hwk as [Hwx Hwk].
    pose proof (Forall_inv Hfv) as Hfx. apply Forall_inv_tail in Hfv.
    pose proof (Forall_inv Hacc) as Hax. apply Forall_inv_tail in Hacc.
    cbn [keys_distinct fst] in Hkd. apply andb_true_iff in Hkd as [Hfresh Hkd].
    apply negb_true_iff in Hfresh. cbn [fst snd] in *.
    cbn [map]. rewrite concat_cons. unfold member_text at 1. cbn [fst snd].
    rewrite !str_app_assoc, scan_members_key, skip_ws_encode, separator_cons.
    rewrite Hx by (try assumption; now left).
    change (json.skip_ws (String "," ?s)) with (String "," s). cbv beta iota.
    rewrite skip_ws_newline_indent.
    destruct (members_head (S level) kv' d
                (json.newline_indent indent level +:+ "}" +:+ rest)) as (tl & E).
    cbn [map] in E. rewrite E.
    change (json.skip_ws (String (ascii_of_N 34) tl)) with (String (ascii_of_N 34) tl).
    rewrite <- E.
    change (member_text indent (S level) kv' :: map (member_text indent (S level)) d)
      with (map (member_text indent (S level)) (kv' :: d)).
    rewrite dict_set_fresh by assumption.
    rewrite IH; [| assumption | assumption | assumption | | assumption
                 | cbn in Hfuel |- *; lia].
    + cbn [map fst snd]. now rewrite <- app_assoc.
    + apply Forall_forall. intros kv'' Hin. rewrite dict_get_app.
      rewrite Forall_forall in Hacc. rewrite (Hacc kv'' Hin). cbn [dict_get].
      destruct (String.eqb_spec (fst kv'') k) as [Heq|]; [|reflexivity].
      exfalso. apply list_elem_of_In in Hin.
      now apply (dict_has_false_In k (kv' :: d) kv'' Hfresh).
Qed.

Lemma encode_array (level : nat) (x : pyval) (l : list pyval) :
  json.encode indent level (PyList (x :: l))
  = "[" +:+ json.newline_indent indent (S level)
    +:+ String.concat (separator indent (S level)) (map (json.encode indent (S level)) (x :: l))
    +:+ json.newline_indent indent level +:+ "]".
Proof. reflexivity. Qed.

Lemma encode_object (level : nat) (kv : string * pyval) (d : list (string * pyval)) :
  json.encode indent level (PyDict (kv :: d))
  = "{" +:+ json.newline_indent indent (S level)
    +:+ String.concat (separator indent (S level)) (map (member_text indent (S level)) (kv :: d))
    +:+ json.newline_indent indent level +:+ "}".
Proof. reflexivity. Qed.

Lemma scan_fuel_items (l : list pyval) (fuel : nat) :
  (S (Nat.max (length l) (list_max (map scan_fuel l))) <= S fuel)%nat ->
  (length l <= fuel)%nat /\ Forall (fun v => (scan_fuel v <= fuel)%nat) l.
Proof.
  intros H. split; [lia|]. rewrite <- Forall_map with (f := scan_fuel) (P := fun n => (n <= fuel)%nat).
  apply list_max_le. lia.
Qed.

Lemma reads_back_array (l : list pyval) :
  Forall (reads_back indent) l ->
  forall (level fuel : nat) (rest : string),
    forallb well_keyed l = true ->
    (S (Nat.max (length l) (list_max (map scan_fuel l))) <= fuel)%nat ->
    json.scan_value fuel (json.encode indent level (PyList l) +:+ rest)
    = Some (PyList (map listify l), rest).
Proof.
  intros Hl level fuel rest Hwk Hfuel.
  destruct fuel as [|fuel]; [lia|].
  destruct l as [|x l]; [reflexivity|].
  apply scan_fuel_items in Hfuel as [Hlen Hfv].
  rewrite encode_array, !str_app_assoc, str_app_cons, str_app_nil_l.
  destruct (items_head (S level) x l
              (json.newline_indent indent level +:+ "]" +:+ rest)) as (c & tl & E & Hc).
  rewrite (scan_value_list fuel _ c tl);
    [| now rewrite skip_ws_newline_indent, E, skip_ws_value_head | assumption].
  rewrite <- E, (scan_items_encode level fuel rest l);
    [reflexivity | now apply Forall_inv_tail in Hl | now apply Forall_inv in Hl
     | assumption | assumption | assumption].
Qed.

(** Every value with well-formed dictionaries reads back. *)
Lemma scan_value_encode (v : pyval) : reads_back indent v.
Proof.
  induction v as [| b | n | s | l IH | l IH | d IH] using pyval_nested_ind;
    intros Hwk level fuel rest Hfuel Hrest.
  - destruct fuel as [|fuel]; [cbn in Hfuel; lia|]. apply scan_value_null.
  - destruct fuel as [|fuel]; [cbn in Hfuel; lia|].
    destruct b; [apply scan_value_true | apply scan_value_false].
  - destruct fuel as [|fuel]; [cbn in Hfuel; lia|]. now apply scan_value_int.
  - destruct fuel as [|fuel]; [cbn in Hfuel; lia|]. apply scan_value_str.
  - now apply reads_back_array.
  - change (json.encode indent level (PyTuple l))
      with (json.encode indent level (PyList l)).
    now apply reads_back_array.
  - cbn [well_keyed] in Hwk. apply andb_true_iff in Hwk as [Hkd Hwk].
    cbn [scan_fuel] in Hfuel. destruct fuel as [|fuel]; [lia|].
    destruct d as [|kv d]; [reflexivity|].
    assert (Hlen : (length (kv :: d) <= fuel)%nat) by lia.
    assert (Hfv : Forall (fun kv => (scan_fuel (snd kv) <= fuel)%nat) (kv :: d)).
    { rewrite <- Forall_map with (f := fun kv => scan_fuel (snd kv))
                                 (P := fun n => (n <= fuel)%nat).
      apply list_max_le. lia. }
    rewrite encode_object, !str_app_assoc, str_app_cons, str_app_nil_l.
    destruct (members_head (S level) kv d
                (json.newline_indent indent level +:+ "}" +:+ rest)) as (tl & E).
    rewrite (scan_value_dict fuel _ tl).
    2:{ rewrite skip_ws_newline_indent, E. reflexivity. }
    rewrite <- E, (scan_members_encode level fuel rest d);
      [reflexivity | now apply Forall_inv_tail in IH | now apply Forall_inv in IH
       | assumption | assumption | | assumption | assumption].
    apply Forall_forall. reflexivity.
Qed.

(** The text of a value is at least as long as the fuel the value needs. *)
Lemma concat_length (level : nat) (f : nat -> pyval -> string) (g : pyval -> nat)
    (l : list pyval) :
  Forall (fun v => (1 <= g v <= String.length (f level v))%nat) l ->
  (length l <= String.length (String.concat (separator indent level) (map (f level) l)))%nat /\
  (list_max (map g l) <= String.length (String.concat (separator indent level) (map (f level) l)))%nat.
Proof.
  induction 1 as [|x l Hx Hl IH]; [cbn; lia|].
  destruct l as [|y l].
  - cbn [map String.concat list_max length fold_right]. lia.
  - cbn [map] in *. rewrite concat_cons, !str_length_app.
    cbn [list_max length fold_right] in *. lia.
Qed.

Lemma scan_fuel_positive (v : pyval) : (1 <= scan_fuel v)%nat.
Proof. destruct v; cbn [scan_fuel]; lia. Qed.

Lemma newline_indent_length (level : nat) :
  (1 <= String.length (json.newline_indent indent level))%nat.
Proof.
  rewrite <- (str_app_nil_r (json.newline_indent indent level)), newline_indent_cons.
  cbn [String.length]. lia.
Qed.

Lemma array_fuel_length (level : nat) (l : list pyval) :
  Forall (fun v => forall level, (scan_fuel v <= String.length (json.encode indent level v))%nat) l ->
  (S (Nat.max (length l) (list_max (map scan_fuel l)))
   <= String.length (json.encode indent level (PyList l)))%nat.
Proof.
  intros Hl. destruct l as [|x l]; [cbn; lia|].
  rewrite encode_array, !str_length_app.
  destruct (concat_length (S level) (json.encode indent) scan_fuel (x :: l)) as [H1 H2].
  { eapply Forall_impl; [exact Hl|]. intros v Hv. cbn beta in Hv.
    split; [apply scan_fuel_positive | apply Hv]. }
  pose proof (newline_indent_length (S level)).
  pose proof (newline_indent_length level).
  cbn [String.length] in *. lia.
Qed.

Lemma scan_fuel_length (v : pyval) :
  forall level, (scan_fuel v <= String.length (json.encode indent level v))%nat.
Proof.
  induction v as [| b | n | s | l IH | l IH | d IH] using pyval_nested_ind; intros level.
  - cbn. lia.
  - destruct b; cbn; lia.
  - destruct (py_str_head n) as (c & tl & E & _). cbn [json.encode scan_fuel].
    rewrite E. cbn [String.length]. lia.
  - cbn [json.encode scan_fuel]. unfold json.encode_str, json.quote.
    rewrite str_app_cons. cbn [String.length]. lia.
  - now apply array_fuel_length.
  - change (json.encode indent level (PyTuple l))
      with (json.encode indent level (PyList l)).
    now apply array_fuel_length.
  - destruct d as [|kv d]; [cbn; lia|].
    rewrite encode_object, !str_length_app. cbn [scan_fuel].
    assert (H : (length (kv :: d)
                 <= String.length (String.concat (separator indent (S level))
                                     (map (member_text indent (S level)) (kv :: d))) /\
                 list_max (map (fun kv => scan_fuel (snd kv)) (kv :: d))
                 <= String.length (String.concat (separator indent (S level))
                                     (map (member_text indent (S level)) (kv :: d))))%nat).
    { clear -IH. generalize (kv :: d) IH. clear. intros d IH.
      induction IH as [|x l Hx Hl IHl]; [cbn; lia|].
      specialize (Hx (S level)). pose proof (scan_fuel_positive (snd x)).
      assert (Hm : (String.length (json.encode indent (S level) (snd x))
                    <= String.length (member_text indent (S level) x))%nat).
      { unfold member_text. rewrite !str_length_app. lia. }
      destruct l as [|y l].
      - cbn [map String.concat list_max length fold_right]. lia.
      - cbn [map] in *. rewrite concat_cons, !str_length_app.
        cbn [list_max length fold_right] in *. lia. }
    pose proof (newline_indent_length (S level)).
    pose proof (newline_indent_length level).
    cbn [String.length] in *. lia.
Qed.

(** [json.loads(json.dumps(v, indent=indent))]. *)
Lemma loads_dumps (v : pyval) :
  well_keyed v = true -> json.loads (json.dumps v indent) = Some (listify v).
Proof.
  intros Hwk. unfold json.loads, json.dumps.
  rewrite <- (str_app_nil_r (json.encode indent 0 v)) at 2.
  rewrite skip_ws_encode, str_app_nil_r.
  rewrite <- (str_app_nil_r (json.encode indent 0 v)) at 2.
  rewrite scan_value_encode; [reflexivity | assumption | | exact I].
  pose proof (scan_fuel_length v 0). lia.
Qed.

End ReadBack.

Lemma listify_no_tuple (v : pyval) : no_tuple v = true -> listify v = v.
Proof.
  induction v as [| b | n | s | l IH | l IH | d IH] using pyval_nested_ind;
    cbn [no_tuple listify]; intros H; try reflexivity; try discriminate H.
  - f_equal. induction IH as [|x l Hx Hl IHl]; [reflexivity|].
    cbn [forallb] in H. apply andb_true_iff in H as [H1 H2].
    cbn [map]. now rewrite Hx, IHl.
  - f_equal. induction IH as [|[k x] d Hx Hd IHd]; [reflexivity|].
    cbn [forallb snd] in H. apply andb_true_iff in H as [H1 H2].
    cbn [map fst snd] in *. now rewrite Hx, IHd.
Qed.

Lemma listify_str_list (l : list string) : listify (str_list l) = str_list l.
Proof.
  unfold str_list. cbn [listify]. f_equal. rewrite map_map. now apply map_ext.
Qed.

(** ** Saved searches, in general *)

Lemma str_app_inv_l (a b c : string) : a +:+ b = a +:+ c -> b = c.
Proof.
  induction a as [|x a IH]; [now rewrite !str_app_nil_l|].
  rewrite !str_app_cons. intros H. injection H as H. now apply IH.
Qed.

Lemma str_app_inv_r (a b c : string) : a +:+ c = b +:+ c -> a = b.
Proof.
  revert b. induction a as [|x a IH]; intros [|y b] H.
  - reflexivity.
  - apply (f_equal String.length) in H. rewrite !str_length_app in H.
    cbn [String.length] in H. lia.
  - apply (f_equal String.length) in H. rewrite !str_length_app in H.
    cbn [String.length] in H. lia.
  - rewrite !str_app_cons in H. injection H as -> H. f_equal. now apply IH.
Qed.

(** Where a search of a given name is kept: under [saved_searches], unless
    the name starts with a slash. *)
Lemma config_file_cases (search_name : string) :
  let b := search_name +:+ ".json" in
  (exists tl, search_name = String "/" tl /\ os_path_join SAVED_SEARCHES_DIR b = b) \/
  ((forall tl, search_name <> String "/" tl) /\
   os_path_join SAVED_SEARCHES_DIR b = "saved_searches/" +:+ b).
Proof.
  intros b. subst b. destruct search_name as [|c tl].
  - right. split; [discriminate | reflexivity].
  - destruct (ascii_dec c "/") as [->|Hne].
    + left. exists tl. split; reflexivity.
    + right. split; [intros tl' H; injection H as H _; contradiction|].
      rewrite str_app_cons.
      destruct c as [[] [] [] [] [] [] [] []]; try reflexivity.
      contradiction Hne; reflexivity.
Qed.

Lemma config_file_inj (n1 n2 : string) :
  os_path_join SAVED_SEARCHES_DIR (n1 +:+ ".json")
  = os_path_join SAVED_SEARCHES_DIR (n2 +:+ ".json") ->
  n1 = n2.
Proof.
  destruct (config_file_cases n1) as [(t1 & E1 & ->) | (N1 & ->)],
           (config_file_cases n2) as [(t2 & E2 & ->) | (N2 & ->)]; intros H.
  - now apply str_app_inv_r in H.
  - subst n1. rewrite !str_app_cons in H. discriminate H.
  - subst n2. rewrite !str_app_cons in H. discriminate H.
  - apply str_app_inv_l in H. now apply str_app_inv_r in H.
Qed.

Lemma save_search_config_run (config : pyval) (search_name : string) w w1 :
  save_search_config config search_name w = (Ok tt, w1) ->
  let config_file := os_path_join SAVED_SEARCHES_DIR (search_name +:+ ".json") in
  w1 = World (<[config_file := json.dumps config 2]> (files w))
         ({[SAVED_SEARCHES_DIR]} ∪ dirs w) (remote w)
         (trace w ++ [ConsolePrint ("[bold green]Search configuration saved to "
                                    +:+ config_file +:+ "[/bold green]")]).
Proof.
  unfold save_search_config.
  cbv [mbind ME_mbind os_makedirs write_file console_print emit].
  destruct (files w !! SAVED_SEARCHES_DIR); [discriminate|].
  destruct (can_open_write _ _); [|discriminate].
  cbn [files dirs remote trace]. intros H. now injection H as <-.
Qed.

Lemma load_search_config_run (search_name text : string) (v : pyval) w :
  let config_file := os_path_join SAVED_SEARCHES_DIR (search_name +:+ ".json") in
  files w !! config_file = Some text -> json.loads text = Some v ->
  load_search_config search_name w =
  (Ok v, add_events [ConsolePrint ("[bold green]Search configuration loaded from "
                                   +:+ config_file +:+ "[/bold green]")] w).
Proof.
  intros config_file Hfile Hloads. unfold load_search_config. fold config_file.
  cbv [mbind ME_mbind read_file console_print emit mret ME_mret].
  now rewrite Hfile, Hloads.
Qed.

(** X13.  A search that was saved under a name is loaded under that name
    as the configuration that was saved, with a list wherever it had a
    tuple and nothing else changed: keys and their order, strings, numbers,
    [None] and the nesting are as they were.  A configuration without tuples
    comes back equal.  This holds for every configuration whose dictionaries
    have distinct keys and every name under which the save succeeds. *)
Theorem load_search_config_after_save (config : pyval) (search_name : string) w w1 :
  well_keyed config = true ->
  save_search_config config search_name w = (Ok tt, w1) ->
  fst (load_search_config search_name w1) = Ok (listify config) /\
  (no_tuple config = true -> fst (load_search_config search_name w1) = Ok config).
Proof.
  intros Hwk Hsave. apply save_search_config_run in Hsave. cbv zeta in Hsave.
  assert (H : fst (load_search_config search_name w1) = Ok (listify config)).
  { rewrite (load_search_config_run search_name (json.dumps config 2) (listify config));
      [reflexivity | subst w1; cbn [files]; apply lookup_insert_eq
       | now apply loads_dumps]. }
  split; [exact H|]. intros Hnt. now rewrite H, listify_no_tuple.
Qed.

Lemma load_search_config_after_save_witness :
  fst (load_search_config "myname"
         (snd (save_search_config
                 (search_config (int_pair (Some 2020) None) (int_pair None None)
                    (str_list ["SJ02"]) (str_list []) (str_list []) (str_list []) "run")
                 "myname" (fresh_world numbered_pages))))
  = Ok (search_config (PyList [PyInt 2020; PyNone]) (PyList [PyNone; PyNone])
          (str_list ["SJ02"]) (str_list []) (str_list []) (str_list []) "run").
Proof.
  exact (proj1 (load_search_config_after_save
                  (search_config (int_pair (Some 2020) None) (int_pair None None)
                     (str_list ["SJ02"]) (str_list []) (str_list []) (str_list []) "run")
                  "myname" (fresh_world numbered_pages) _ eq_refl eq_refl)).
Defined.

(** X14.  Searches saved under different names do not disturb each other:
    after a second search has been saved under another name, the first name
    still loads the first configuration.  The names are names of files of
    the directory of the saved searches, without a slash, and the file
    system keeps two files for two names that differ in a character. *)
Theorem saved_searches_are_kept_apart (c1 c2 : pyval) (n1 n2 : string) w w1 w2 :
  well_keyed c1 = true ->
  has_slash n1 = false -> has_slash n2 = false ->
  n1 <> n2 ->
  save_search_config c1 n1 w = (Ok tt, w1) ->
  save_search_config c2 n2 w1 = (Ok tt, w2) ->
  fst (load_search_config n1 w2) = Ok (listify c1).
Proof.
  intros Hwk _ _ Hne H1 H2.
  apply save_search_config_run in H1. apply save_search_config_run in H2.
  cbv zeta in H1, H2.
  rewrite (load_search_config_run n1 (json.dumps c1 2) (listify c1));
    [reflexivity | | now apply loads_dumps].
  subst w2 w1. cbn [files].
  rewrite lookup_insert_ne by (intros E; apply Hne; symmetry; now apply config_file_inj).
  apply lookup_insert_eq.
Qed.

Lemma saved_searches_are_kept_apart_witness :
  fst (load_search_config "a"
         (snd (save_search_config (PyDict [("output_prefix", PyStr "second")]) "b"
            (snd (save_search_config (PyDict [("output_prefix", PyStr "first")]) "a"
                    (fresh_world numbered_pages))))))
  = Ok (PyDict [("output_prefix", PyStr "first")]).
Proof.
  assert (Hne : "a" <> "b") by discriminate.
  exact (saved_searches_are_kept_apart
           (PyDict [("output_prefix", PyStr "first")])
           (PyDict [("output_prefix", PyStr "second")]) "a" "b"
           (fresh_world numbered_pages) _ _ eq_refl eq_refl eq_refl Hne eq_refl eq_refl).
Defined.

(** X15.  The filter of a reloaded search against the filter that was
    saved: the lists of codes are as they were and the two ranges are lists,
    and the builder makes of them the same query as before, or raises the
    same [TypeError], unless the search had no year range.  In that case the
    list [[None, None]] is not the tuple [(None, None)] of line 87, and the
    builder, which returned a mapping before the search was saved, raises
    [TypeError]. *)
Theorem build_query_params_after_reload page (ys ye mn mx : option Z)
    (subj pop loc sup : list string) :
  GrantFetcher._build_query_params page
    (listify (int_pair ys ye)) (listify (int_pair mn mx))
    (listify (str_list subj)) (listify (str_list pop))
    (listify (str_list loc)) (listify (str_list sup)) =
  match ys, ye with
  | None, None => Raise TypeError
  | _, _ =>
      GrantFetcher._build_query_params page (int_pair ys ye) (int_pair mn mx)
        (str_list subj) (str_list pop) (str_list loc) (str_list sup)
  end.
Proof.
  rewrite !listify_str_list.
  unfold GrantFetcher._build_query_params, mbind, res_mbind.
  replace (py_unpack2 (listify (int_pair ys ye))) with (py_unpack2 (int_pair ys ye))
    by (destruct ys, ye; reflexivity).
  replace (py_unpack2 (listify (int_pair mn mx))) with (py_unpack2 (int_pair mn mx))
    by (destruct mn, mx; reflexivity).
  rewrite !py_unpack2_int_pair; cbn [res_bind].
  rewrite (location_step_str_list loc); cbn [res_bind].
  destruct ys as [s|], ye as [e|]; reflexivity.
Qed.

(** The file of [save_grants_to_file], read. *)
Lemma save_grants_to_file_run (grants : list pyval) (output_prefix : string)
    (page_start page_end : Z) w :
  let output_file :=
    output_prefix +:+ "_pages_" +:+ py_str page_start +:+ "-" +:+ py_str page_end
    +:+ ".json" in
  can_open_write w output_file = true ->
  GrantFetcher.save_grants_to_file grants output_prefix page_start page_end w =
  (Ok tt,
   World (<[output_file := json.dumps (PyDict [("grants", PyList grants)]) 2]> (files w))
     (dirs w) (remote w)
     (trace w ++ [ConsolePrint ("[bold green]Grants data saved to " +:+ output_file
                                +:+ "[/bold green]")])).
Proof.
  intros output_file Hopen. unfold GrantFetcher.save_grants_to_file. fold output_file.
  cbv [mbind ME_mbind]. rewrite (write_file_run _ _ _ Hopen). reflexivity.
Qed.



(** X16.  Whatever the grants are, what [save_grants_to_file] writes is a
    JSON text: read with [json.loads] it gives the object [{"grants":
    grants}] back.  Quotes, backslashes, control characters and characters
    beyond ASCII in the strings are escaped and come back as they were;
    grants that came out of [response.json()], which hold no tuple, come
    back equal. *)
Theorem save_grants_to_file_reads_back (grants : list pyval) (output_prefix : string)
    (page_start page_end : Z) w :
  let output_file :=
    output_prefix +:+ "_pages_" +:+ py_str page_start +:+ "-" +:+ py_str page_end
    +:+ ".json" in
  let w' := snd (GrantFetcher.save_grants_to_file grants output_prefix
                   page_start page_end w) in
  forallb well_keyed grants = true ->
  can_open_write w output_file = true ->
  (files w' !! output_file ≫= json.loads)
  = Some (PyDict [("grants", PyList (map listify grants))]) /\
  (forallb no_tuple grants = true ->
   (files w' !! output_file ≫= json.loads) = Some (PyDict [("grants", PyList grants)])).
Proof.
  intros output_file w' Hwk Hopen. subst w'.
  rewrite (save_grants_to_file_run grants output_prefix page_start page_end w Hopen).
  fold output_file. cbn [snd files]. rewrite lookup_insert_eq. cbn [mbind option_bind].
  assert (H : json.loads (json.dumps (PyDict [("grants", PyList grants)]) 2)
              = Some (PyDict [("grants", PyList (map listify grants))])).
  { rewrite loads_dumps; [reflexivity|]. cbn [well_keyed forallb snd keys_distinct].
    now rewrite Hwk. }
  split; [exact H|]. intros Hnt. rewrite H.
  assert (E : listify (PyList grants) = PyList grants)
    by (apply listify_no_tuple; exact Hnt).
  cbn [listify] in E. injection E as E. now rewrite E.
Qed.

Lemma save_grants_to_file_reads_back_witness :
  let grants := [PyDict [("id", PyInt (-7)); ("name", PyStr ("a" +:+ json.quote +:+ "b\"))];
                 PyList [PyNone; PyBool true]] in
  let w' := snd (GrantFetcher.save_grants_to_file grants "foo" 1 5
                   (fresh_world numbered_pages)) in
  (files w' !! "foo_pages_1-5.json" ≫= json.loads)
  = Some (PyDict [("grants", PyList grants)]).
Proof.
  intros grants w'.
  exact (proj2 (save_grants_to_file_reads_back grants "foo" 1 5
                  (fresh_world numbered_pages) eq_refl eq_refl) eq_refl).
Defined.

(** ** [int], [validate_input] and the prompts of menu choice 1 *)

Lemma py_int_raises (value : string) (e : exn) : py_int value = Raise e -> e = ValueError.
Proof.
  unfold py_int. destruct (split_sign _) as [neg s1].
  destruct s1 as [|c s2]; [now intros [= <-]|].
  destruct (json.digit_value c); [|now intros [= <-]].
  destruct (py_int_digits 0 0 (String c s2)) as [[[n digits] rest]|]; [|now intros [= <-]].
  destruct (_ <? _)%nat; [now intros [= <-]|].
  destruct (lstrip_space rest); [discriminate | now intros [= <-]].
Qed.

Lemma validate_input_returns (value : string) (min_value max_value : option Z) (n : Z) :
  validate_input value min_value max_value = Ok (Some n) ->
  value <> "" /\ py_int value = Ok n /\
  below min_value n = false /\ above max_value n = false.
Proof.
  unfold validate_input. destruct value as [|c value']; [discriminate|].
  cbn [py_truthy String.eqb negb]. unfold mbind, res_mbind.
  destruct (py_int (String c value')) as [k|e]; cbn [res_bind];
    [|destruct e; discriminate].
  destruct (below min_value k) eqn:Hlo; [discriminate|].
  destruct (above max_value k) eqn:Hhi; [discriminate|].
  intros [= <-]. repeat split; try assumption. discriminate.
Qed.

Lemma validate_input_skips (value : string) (min_value max_value : option Z) :
  validate_input value min_value max_value = Ok None <-> value = "".
Proof.
  split; [|now intros ->].
  unfold validate_input. destruct value as [|c value']; [reflexivity|].
  cbn [py_truthy String.eqb negb]. unfold mbind, res_mbind.
  destruct (py_int (String c value')) as [k|e]; cbn [res_bind];
    [|destruct e; discriminate].
  now destruct (below min_value k), (above max_value k).
Qed.

Lemma validate_input_raises (value : string) (min_value max_value : option Z) (e : exn) :
  validate_input value min_value max_value = Raise e -> value <> "" /\ e = ValueError.
Proof.
  unfold validate_input. destruct value as [|c value']; [discriminate|].
  cbn [py_truthy String.eqb negb]. unfold mbind, res_mbind.
  destruct (py_int (String c value')) as [k|e'] eqn:E; cbn [res_bind].
  - destruct (below min_value k), (above max_value k); intros [= <-];
      (split; [discriminate | reflexivity]).
  - apply py_int_raises in E as ->. intros [= <-]. split; [discriminate | reflexivity].
Qed.

Lemma below_false (bound : option Z) (n : Z) :
  below bound n = false <-> forall m, bound = Some m -> m <= n.
Proof.
  destruct bound as [b|]; cbn [below].
  - rewrite Z.ltb_ge. split; [now intros H m [= <-] | now intros H; apply H].
  - split; [discriminate | reflexivity].
Qed.

Lemma above_false (bound : option Z) (n : Z) :
  above bound n = false <-> forall m, bound = Some m -> n <= m.
Proof.
  destruct bound as [b|]; cbn [above].
  - rewrite Z.ltb_ge. split; [now intros H m [= <-] | now intros H; apply H].
  - split; [discriminate | reflexivity].
Qed.

(** X17.  What [validate_input] can do.  It returns [None] for the empty
    string and for nothing else: white space alone is refused, not skipped.
    A number it returns is the one [int] reads in the text, and it respects
    the two bounds, each when given.  Everything else is a [ValueError]: a
    text that [int] refuses and a number outside the bounds alike, and no
    other exception leaves the function. *)
Theorem validate_input_outcome (value : string) (min_value max_value : option Z) :
  match validate_input value min_value max_value with
  | Ok None => value = ""
  | Ok (Some n) =>
      value <> "" /\ py_int value = Ok n /\
      (forall m, min_value = Some m -> m <= n) /\
      (forall m, max_value = Some m -> n <= m)
  | Raise e => value <> "" /\ e = ValueError
  end.
Proof.
  destruct (validate_input value min_value max_value) as [[n|]|e] eqn:E.
  - apply validate_input_returns in E as (H1 & H2 & H3 & H4).
    split; [assumption|]. split; [assumption|].
    split; [now apply below_false | now apply above_false].
  - now apply validate_input_skips in E.
  - now apply validate_input_raises in E.
Qed.

Lemma digit_not_space (c : ascii) (d : Z) :
  json.digit_value c = Some d ->
  py_isspace c = false /\ forall tl, split_sign (String c tl) = (false, String c tl).
Proof.
  intros H. destruct c as [[] [] [] [] [] [] [] []];
    try (vm_compute in H; discriminate H); split; reflexivity.
Qed.

(** The decimal digits of a positive number, as [int] reads them: all of
    them are taken, whatever follows, and a number below [10 ^ len] has at
    most [len] of them. *)
Lemma pretty_N_go_int_digits (x : N) :
  (0 < x)%N ->
  exists (c : ascii) (d : Z) (ds : string) (len : nat),
    json.digit_value c = Some d /\
    (forall s, pretty_N_go x s = String c (ds +:+ s)) /\
    10 ^ Z.of_nat len <= 10 * Z.of_N x /\
    (forall acc k tail,
       py_int_digits acc k (String c (ds +:+ tail)) =
       py_int_digits (acc * 10 ^ Z.of_nat len + Z.of_N x) (k + len) tail).
Proof.
  induction (N.lt_wf_0 x) as [x _ IH]. intros Hx.
  destruct (N.lt_ge_cases x 10) as [Hlt|Hge].
  - exists (pretty_N_char x), (Z.of_N x), "", 1%nat.
    split; [now apply digit_value_pretty_N_char|]. split; [|split].
    + intros s. rewrite pretty_N_go_step by assumption.
      rewrite N.div_small, N.mod_small by assumption. reflexivity.
    + change (10 ^ Z.of_nat 1) with 10. lia.
    + intros acc k tail. rewrite str_app_nil_l. cbn [py_int_digits].
      rewrite digit_value_pretty_N_char by assumption.
      change (10 ^ Z.of_nat 1) with 10. f_equal; lia.
  - assert (Hq : (0 < x / 10)%N) by (apply N.div_str_pos; lia).
    assert (Hlt : (x / 10 < x)%N) by (apply N.div_lt; lia).
    destruct (IH _ Hlt Hq) as (c & d & ds & len & Hc & Hgo & Hlen & Hscan).
    exists c, d, (ds +:+ String (pretty_N_char (x mod 10)) ""), (S len).
    pose proof (N.div_mod x 10 ltac:(lia)) as Hdm.
    pose proof (N.mod_lt x 10 ltac:(lia)) as Hmod.
    assert (Hpow : 10 ^ Z.of_nat (S len) = 10 * 10 ^ Z.of_nat len)
      by (rewrite Nat2Z.inj_succ; apply Z.pow_succ_r; lia).
    assert (Hx10 : Z.of_N x = 10 * Z.of_N (x / 10) + Z.of_N (x mod 10)) by lia.
    assert (Hm0 : 0 <= Z.of_N (x mod 10) < 10).
    { split; [apply N2Z.is_nonneg | exact (proj1 (N2Z.inj_lt _ 10) Hmod)]. }
    rewrite Hpow. clear Hpow. revert Hlen Hscan.
    generalize (10 ^ Z.of_nat len). intros P Hlen Hscan.
    split; [assumption|]. split; [|split].
    + intros s. rewrite pretty_N_go_step by assumption.
      rewrite Hgo, str_app_assoc. reflexivity.
    + lia.
    + intros acc k tail. rewrite str_app_assoc, str_app_cons, str_app_nil_l.
      rewrite Hscan. cbn [py_int_digits].
      rewrite digit_value_pretty_N_char by assumption.
      f_equal; lia.
Qed.

Lemma py_int_numeral (x : N) (neg : bool) :
  (0 < x)%N -> Z.of_N x < 10 ^ Z.of_nat int_max_str_digits ->
  py_int ((if neg then "-" else "") +:+ pretty_N_go x "")
  = Ok (if neg then - Z.of_N x else Z.of_N x).
Proof.
  intros Hx Hbound.
  destruct (pretty_N_go_int_digits x Hx) as (c & d & ds & len & Hc & Hgo & Hlen & Hscan).
  destruct (digit_not_space c d Hc) as [Hsp Hsign].
  assert (Hdigits : (int_max_str_digits <? len)%nat = false).
  { apply Nat.ltb_ge. apply Nat2Z.inj_le.
    assert (Z.of_nat len < Z.of_nat (S int_max_str_digits)); [|lia].
    apply (Z.pow_lt_mono_r_iff 10); [lia | lia |].
    rewrite (Nat2Z.inj_succ int_max_str_digits), Z.pow_succ_r by lia. lia. }
  assert (Hbody : forall neg',
    match String c (ds +:+ "") with
    | String c0 _ =>
        match json.digit_value c0 with
        | Some _ =>
            match py_int_digits 0 0 (String c (ds +:+ "")) with
            | Some (n, digits, rest) =>
                if (int_max_str_digits <? digits)%nat then Raise ValueError
                else
                  match lstrip_space rest with
                  | EmptyString => Ok (if neg' : bool then - n else n)
                  | String _ _ => Raise ValueError
                  end
            | None => Raise ValueError
            end
        | None => Raise ValueError
        end
    | EmptyString => Raise ValueError
    end = Ok (if neg' then - Z.of_N x else Z.of_N x)).
  { intros neg'. rewrite Hc, Hscan. cbn [py_int_digits Nat.add]. rewrite Hdigits.
    cbn [lstrip_space]. now replace (0 * 10 ^ Z.of_nat len + Z.of_N x) with (Z.of_N x) by lia. }
  unfold py_int. rewrite Hgo. destruct neg.
  - change ("-" +:+ String c (ds +:+ "")) with (String "-" (String c (ds +:+ ""))).
    change (split_sign (lstrip_space (String "-" (String c (ds +:+ "")))))
      with (true, String c (ds +:+ "")).
    exact (Hbody true).
  - rewrite str_app_nil_l. cbn [lstrip_space]. rewrite Hsp, Hsign. exact (Hbody false).
Qed.

(** [int(str(n))] is [n], for a number whose numeral [int] accepts. *)
Lemma py_int_py_str (n : Z) :
  Z.abs n < 10 ^ Z.of_nat int_max_str_digits -> py_int (py_str n) = Ok n.
Proof.
  intros Hn. destruct n as [|p|p].
  - reflexivity.
  - apply (py_int_numeral (Npos p) false); [reflexivity | exact Hn].
  - apply (py_int_numeral (Npos p) true); [reflexivity | exact Hn].
Qed.

Lemma py_str_not_empty (n : Z) : py_str n <> "".
Proof. destruct (py_str_head n) as (c & tl & -> & _). discriminate. Qed.

(** [validate_input] on a text that [int] reads. *)
Lemma validate_input_run (value : string) (min_value max_value : option Z) (n : Z) :
  value <> "" -> py_int value = Ok n ->
  validate_input value min_value max_value =
  if below min_value n || above max_value n then Raise ValueError else Ok (Some n).
Proof.
  intros Hne Hint. unfold validate_input.
  assert (Ht : negb (py_truthy (PyStr value)) = false).
  { cbn [py_truthy]. rewrite negb_involutive. now apply String.eqb_neq. }
  rewrite Ht, Hint. unfold mbind, res_mbind. cbn [res_bind].
  now destruct (below min_value n), (above max_value n).
Qed.

(** X18.  The text that [str] makes of a number is read back by
    [validate_input] as that number when the number respects the bounds, and
    is refused with [ValueError] when it does not: [int(str(n))] is [n]. *)
Theorem validate_input_of_str (n : Z) (min_value max_value : option Z) :
  Z.abs n < 10 ^ Z.of_nat int_max_str_digits ->
  validate_input (py_str n) min_value max_value =
  if below min_value n || above max_value n then Raise ValueError else Ok (Some n).
Proof.
  intros Hn. apply validate_input_run; [apply py_str_not_empty | now apply py_int_py_str].
Qed.

Lemma validate_input_of_str_witness :
  validate_input "2020" (Some 1900) (Some 2100) = Ok (Some 2020) /\
  validate_input "-5" (Some 0) None = Raise ValueError.
Proof.
  assert (H1 : Z.abs 2020 < 10 ^ Z.of_nat int_max_str_digits) by (vm_compute; reflexivity).
  assert (H2 : Z.abs (-5) < 10 ^ Z.of_nat int_max_str_digits) by (vm_compute; reflexivity).
  split.
  - exact (validate_input_of_str 2020 (Some 1900) (Some 2100) H1).
  - exact (validate_input_of_str (-5) (Some 0) None H2).
Defined.

Lemma small_numeral (n : Z) :
  Z.abs n <= 10000 -> Z.abs n < 10 ^ Z.of_nat int_max_str_digits.
Proof.
  assert (10000 < 10 ^ Z.of_nat int_max_str_digits) by (vm_compute; reflexivity). lia.
Qed.

Lemma py_truthy_opt_int (o : option Z) :
  py_truthy (opt_int o) = match o with Some n => negb (n =? 0)%Z | None => false end.
Proof. now destruct o. Qed.

(** X19.  The year range that menu choice 1 leaves, whatever is typed at
    the two prompts: no year at all, when nothing was typed for the start;
    or a start from 1900 to 2100 with an end from the start to 2100, never
    an end before the start and never an end alone; or a start without an
    end, when nothing was typed for the end. *)
Theorem enter_year_range_outcome (start_answer end_answer : string) (year_range : pyval) :
  enter_year_range start_answer end_answer = Ok year_range ->
  exists start_year end_year,
    year_range = int_pair start_year end_year /\
    match start_year, end_year with
    | None, None => start_answer = ""
    | Some s, None => 1900 <= s <= 2100 /\ end_answer = ""
    | Some s, Some e => 1900 <= s /\ s <= e /\ e <= 2100
    | None, Some _ => False
    end.
Proof.
  unfold enter_year_range, mbind, res_mbind. intros H.
  apply res_bind_Ok in H as (start_year & Hs & H).
  apply res_bind_Ok in H as (end_year & He & H). injection H as <-.
  exists start_year, end_year. split; [reflexivity|].
  destruct start_year as [s|].
  - apply validate_input_returns in Hs as (_ & _ & Hlo & Hhi).
    cbn [below above] in Hlo, Hhi. apply Z.ltb_ge in Hlo, Hhi.
    rewrite py_truthy_opt_int in He.
    destruct (Z.eqb_spec s 0) as [->|_]; [lia|]. cbn [negb] in He.
    destruct end_year as [e|].
    + apply validate_input_returns in He as (_ & _ & Hlo' & Hhi').
      cbn [below above] in Hlo', Hhi'. apply Z.ltb_ge in Hlo', Hhi'. lia.
    + apply validate_input_skips in He. split; [lia | assumption].
  - apply validate_input_skips in Hs. cbn in He. now injection He as <-.
Qed.

Lemma enter_year_range_outcome_witness :
  exists start_year end_year,
    int_pair (Some 2020) (Some 2022) = int_pair start_year end_year /\
    match start_year, end_year with
    | None, None => "2020" = ""
    | Some s, None => 1900 <= s <= 2100 /\ "2022" = ""
    | Some s, Some e => 1900 <= s /\ s <= e /\ e <= 2100
    | None, Some _ => False
    end.
Proof.
  exact (enter_year_range_outcome "2020" "2022" (int_pair (Some 2020) (Some 2022)) eq_refl).
Defined.

(** X20.  A start year without an end year: the prompts of menu choice 1
    accept it, Enter at the second prompt leaving the end at [None], and the
    builder raises [TypeError] on the range they leave, whatever the rest of
    the filter is.  No page can be fetched until the years are entered
    again. *)
Theorem enter_year_range_without_end (start_answer : string) (s : Z) :
  validate_input start_answer (Some 1900) (Some 2100) = Ok (Some s) ->
  enter_year_range start_answer "" = Ok (int_pair (Some s) None) /\
  forall page mn mx subj pop loc sup,
    GrantFetcher._build_query_params page (int_pair (Some s) None) (int_pair mn mx)
      (str_list subj) (str_list pop) (str_list loc) (str_list sup) = Raise TypeError.
Proof.
  intros Hs. split.
  - unfold enter_year_range, mbind, res_mbind. rewrite Hs. cbn [res_bind].
    rewrite py_truthy_opt_int.
    apply validate_input_returns in Hs as (_ & _ & Hlo & _).
    cbn [below] in Hlo. apply Z.ltb_ge in Hlo.
    destruct (Z.eqb_spec s 0) as [->|_]; [lia|]. reflexivity.
  - intros. now apply build_typed_raises.
Qed.

Lemma enter_year_range_without_end_witness :
  enter_year_range "2020" "" = Ok (int_pair (Some 2020) None) /\
  GrantFetcher._build_query_params 1 (int_pair (Some 2020) None) (int_pair None None)
    (str_list []) (str_list []) (str_list []) (str_list []) = Raise TypeError.
Proof.
  destruct (enter_year_range_without_end "2020" 2020 eq_refl) as [H1 H2].
  split; [exact H1 | exact (H2 1 None None [] [] [] [])].
Defined.

(** X21.  The dollar range that menu choice 1 leaves.  A maximum is set
    only together with a minimum above zero, and is not below it.  With a
    minimum of zero the second prompt is not made, zero being falsy, and the
    maximum is [None] whatever the user meant to type. *)
Theorem enter_dollar_range_outcome (min_answer max_answer : string) (dollar_range : pyval) :
  enter_dollar_range min_answer max_answer = Ok dollar_range ->
  exists min_amt max_amt,
    dollar_range = int_pair min_amt max_amt /\
    match min_amt, max_amt with
    | None, None => min_answer = ""
    | Some m, None => m = 0 \/ (0 < m /\ max_answer = "")
    | Some m, Some M => 0 < m /\ m <= M
    | None, Some _ => False
    end.
Proof.
  unfold enter_dollar_range, mbind, res_mbind. intros H.
  apply res_bind_Ok in H as (min_amt & Hm & H).
  apply res_bind_Ok in H as (max_amt & HM & H). injection H as <-.
  exists min_amt, max_amt. split; [reflexivity|].
  destruct min_amt as [m|].
  - apply validate_input_returns in Hm as (_ & _ & Hlo & _).
    cbn [below] in Hlo. apply Z.ltb_ge in Hlo.
    rewrite py_truthy_opt_int in HM.
    destruct (Z.eqb_spec m 0) as [->|Hne]; cbn [negb] in HM.
    + injection HM as <-. now left.
    + destruct max_amt as [M|].
      * apply validate_input_returns in HM as (_ & _ & Hlo' & _).
        cbn [below] in Hlo'. apply Z.ltb_ge in Hlo'. lia.
      * apply validate_input_skips in HM. right. split; [lia | assumption].
  - apply validate_input_skips in Hm. cbn in HM. now injection HM as <-.
Qed.

Lemma enter_dollar_range_outcome_witness :
  exists min_amt max_amt,
    int_pair (Some 0) None = int_pair min_amt max_amt /\
    match min_amt, max_amt with
    | None, None => "0" = ""
    | Some m, None => m = 0 \/ (0 < m /\ "5000" = "")
    | Some m, Some M => 0 < m /\ m <= M
    | None, Some _ => False
    end.
Proof.
  exact (enter_dollar_range_outcome "0" "5000" (int_pair (Some 0) None) eq_refl).
Defined.

Lemma validate_input_keeps (n : Z) (min_value max_value : option Z) :
  Z.abs n < 10 ^ Z.of_nat int_max_str_digits ->
  below min_value n = false -> above max_value n = false ->
  validate_input (py_str n) min_value max_value = Ok (Some n).
Proof.
  intros Hn Hlo Hhi.
  rewrite (validate_input_run _ _ _ n (py_str_not_empty n) (py_int_py_str n Hn)).
  now rewrite Hlo, Hhi.
Qed.

(** X22.  Enter at both prompts keeps a range.  The default of each prompt
    is [str] of the bound held, and [validate_input] reads it back: a year
    range within 1900 to 2100 and a dollar range with a minimum above zero
    come out of menu choice 1 as they went in. *)
Theorem enter_ranges_keep (s e m M : Z) :
  1900 <= s -> s <= e -> e <= 2100 ->
  0 < m -> m <= M -> M < 10 ^ Z.of_nat int_max_str_digits ->
  enter_year_range (py_str s) (py_str e) = Ok (int_pair (Some s) (Some e)) /\
  enter_dollar_range (py_str m) (py_str M) = Ok (int_pair (Some m) (Some M)).
Proof.
  intros Hs Hse He Hm HmM HM. split.
  - unfold enter_year_range, mbind, res_mbind.
    rewrite (validate_input_keeps s)
      by (try (apply small_numeral; lia); cbn [below above]; apply Z.ltb_ge; lia).
    cbn [res_bind]. rewrite py_truthy_opt_int.
    destruct (Z.eqb_spec s 0); [lia|]. cbn [negb].
    rewrite (validate_input_keeps e)
      by (try (apply small_numeral; lia); cbn [below above]; apply Z.ltb_ge; lia).
    reflexivity.
  - unfold enter_dollar_range, mbind, res_mbind.
    rewrite (validate_input_keeps m)
      by (try lia; try reflexivity; cbn [below above]; apply Z.ltb_ge; lia).
    cbn [res_bind]. rewrite py_truthy_opt_int.
    destruct (Z.eqb_spec m 0); [lia|]. cbn [negb].
    rewrite (validate_input_keeps M)
      by (try lia; try reflexivity; cbn [below above]; apply Z.ltb_ge; lia).
    reflexivity.
Qed.

Lemma enter_ranges_keep_witness :
  enter_year_range "2020" "2022" = Ok (int_pair (Some 2020) (Some 2022)) /\
  enter_dollar_range "25000" "10000000" = Ok (int_pair (Some 25000) (Some 10000000)).
Proof.
  assert (H : 10000000 < 10 ^ Z.of_nat int_max_str_digits) by (vm_compute; reflexivity).
  exact (enter_ranges_keep 2020 2022 25000 10000000
           ltac:(lia) ltac:(lia) ltac:(lia) ltac:(lia) ltac:(lia) H).
Defined.

(** ** The list of the saved searches *)

Lemma substring_prefix (a b : string) : String.substring 0 (String.length a) (a +:+ b) = a.
Proof.
  induction a as [|x a IH]; [now destruct b|].
  rewrite str_app_cons. cbn [String.length String.substring]. now rewrite IH.
Qed.

Lemma substring_suffix (a b : string) :
  String.substring (String.length a) (String.length b) (a +:+ b) = b.
Proof.
  induction a as [|x a IH]; [rewrite str_app_nil_l; apply substring_all|].
  rewrite str_app_cons. cbn [String.length String.substring]. exact IH.
Qed.

Lemma rfind_from_app (c : ascii) (a b : string) (i last : Z) :
  rfind_from c (a +:+ b) i last
  = rfind_from c b (i + Z.of_nat (String.length a)) (rfind_from c a i last).
Proof.
  revert i last. induction a as [|x a IH]; intros i last.
  - rewrite str_app_nil_l. cbn [String.length rfind_from]. f_equal. lia.
  - rewrite str_app_cons. cbn [String.length rfind_from]. rewrite IH. f_equal. lia.
Qed.

Lemma rfind_from_no_slash (s : string) (i last : Z) :
  has_slash s = false -> rfind_from "/" s i last = last.
Proof.
  revert i last. induction s as [|x s IH]; intros i last H; [reflexivity|].
  cbn [has_slash] in H. apply orb_false_elim in H as [Hx Hs].
  cbn [rfind_from]. rewrite Hx. now apply IH.
Qed.

Lemma has_slash_app (a b : string) : has_slash (a +:+ b) = has_slash a || has_slash b.
Proof.
  induction a as [|x a IH]; [reflexivity|].
  rewrite str_app_cons. cbn [has_slash]. now rewrite IH, orb_assoc.
Qed.

(** The name that [get_saved_searches] makes of the file of a search. *)
Lemma splitext_json (search_name : string) :
  has_slash search_name = false ->
  fst (os_path_splitext (search_name +:+ ".json"))
  = if all_dots search_name then search_name +:+ ".json" else search_name.
Proof.
  intros Hs. unfold os_path_splitext, str_rfind.
  rewrite !rfind_from_app. rewrite (rfind_from_no_slash search_name) by assumption.
  change (rfind_from "/" ".json" (0 + Z.of_nat (String.length search_name)) (-1)) with (-1).
  change (rfind_from "." ".json" (0 + Z.of_nat (String.length search_name))
            (rfind_from "." search_name 0 (-1)))
    with (0 + Z.of_nat (String.length search_name)).
  destruct (Z.ltb_spec (-1) (0 + Z.of_nat (String.length search_name))) as [_|H]; [|lia].
  replace (Z.to_nat (-1 + 1)) with 0%nat by reflexivity.
  replace (Z.to_nat (0 + Z.of_nat (String.length search_name)))
    with (String.length search_name) by lia.
  rewrite Nat.sub_0_r, substring_prefix.
  now destruct (all_dots search_name).
Qed.

Lemma endswith_json (search_name : string) :
  str_endswith ".json" (search_name +:+ ".json") = true.
Proof.
  unfold str_endswith. rewrite str_length_app.
  replace (String.length search_name + String.length ".json" - String.length ".json")%nat
    with (String.length search_name) by lia.
  rewrite substring_suffix. apply andb_true_iff. split; [apply Nat.leb_le; lia | reflexivity].
Qed.

Lemma config_file_plain (search_name : string) :
  has_slash search_name = false ->
  os_path_join SAVED_SEARCHES_DIR (search_name +:+ ".json")
  = "saved_searches/" +:+ search_name +:+ ".json".
Proof.
  intros Hs. destruct (config_file_cases search_name) as [(tl & -> & _) | (_ & ->)];
    [discriminate Hs | reflexivity].
Qed.

Lemma all_dots_no_slash (s : string) : all_dots s = true -> has_slash s = false.
Proof.
  induction s as [|c s IH]; [reflexivity|]. cbn [all_dots has_slash].
  intros H. apply andb_true_iff in H as [Hc Hs]. rewrite (IH Hs), orb_false_r.
  apply Ascii.eqb_eq in Hc as ->. reflexivity.
Qed.

(** The file of a search saved under a name without a slash is an entry of
    the directory of the saved searches. *)
Lemma saved_search_listed (config : pyval) (search_name : string) w w1 :
  has_slash search_name = false ->
  save_search_config config search_name w = (Ok tt, w1) ->
  exists entries,
    os_listdir SAVED_SEARCHES_DIR w1 = (Ok entries, w1) /\
    In (search_name +:+ ".json") entries.
Proof.
  intros Hs Hsave. apply save_search_config_run in Hsave. cbv zeta in Hsave.
  rewrite config_file_plain in Hsave by assumption.
  eexists. split.
  - unfold os_listdir. rewrite bool_decide_true; [reflexivity|].
    subst w1. cbn [dirs]. set_solver.
  - apply list_elem_of_In, list_elem_of_omap.
    exists ("saved_searches/" +:+ search_name +:+ ".json"). split.
    + apply elem_of_elements, elem_of_union. left. apply elem_of_dom.
      subst w1. cbn [files]. rewrite lookup_insert_eq. eauto.
    + unfold dir_entry.
      change (SAVED_SEARCHES_DIR +:+ "/") with "saved_searches/".
      rewrite starts_with_app, has_slash_app, Hs.
      destruct search_name; reflexivity.
Qed.

Lemma get_saved_searches_run (entries : list string) w :
  os_listdir SAVED_SEARCHES_DIR w = (Ok entries, w) ->
  get_saved_searches w =
  (Ok (map (fun f => fst (os_path_splitext f))
         (List.filter (str_endswith ".json") entries)), w).
Proof.
  intros H. unfold get_saved_searches. cbv [mbind ME_mbind mret ME_mret]. now rewrite H.
Qed.

(** X23.  A search saved under a name shows in the list of the saved
    searches under that name, when the name has no slash and holds a
    character other than a dot. *)
Theorem saved_search_is_listed (config : pyval) (search_name : string) w w1 :
  has_slash search_name = false -> all_dots search_name = false ->
  save_search_config config search_name w = (Ok tt, w1) ->
  exists names, get_saved_searches w1 = (Ok names, w1) /\ In search_name names.
Proof.
  intros Hs Hd Hsave.
  destruct (saved_search_listed config search_name w w1 Hs Hsave) as (entries & Hl & Hin).
  eexists. split; [exact (get_saved_searches_run entries w1 Hl)|].
  apply in_map_iff. exists (search_name +:+ ".json"). split.
  - now rewrite splitext_json, Hd.
  - apply filter_In. split; [assumption | apply endswith_json].
Qed.

Lemma saved_search_is_listed_witness :
  exists names,
    get_saved_searches
      (snd (save_search_config (PyDict []) "my.search" (fresh_world numbered_pages)))
    = (Ok names,
       snd (save_search_config (PyDict []) "my.search" (fresh_world numbered_pages))) /\
    In "my.search" names.
Proof.
  exact (saved_search_is_listed (PyDict []) "my.search" (fresh_world numbered_pages) _
           eq_refl eq_refl eq_refl).
Defined.

(** X24.  A search saved under the empty name, or under a name made of
    dots, is lost to the menu: its file [<name>.json] is listed under the
    name [<name>.json], [os.path.splitext] taking a leading dot for a part
    of the name, and loading the listed name looks for the file
    [<name>.json.json] and raises [OSError] when there is none. *)
Theorem saved_search_with_dotted_name (config : pyval) (search_name : string) w w1 :
  all_dots search_name = true ->
  save_search_config config search_name w = (Ok tt, w1) ->
  files w !! ("saved_searches/" +:+ search_name +:+ ".json.json") = None ->
  exists names,
    get_saved_searches w1 = (Ok names, w1) /\
    In (search_name +:+ ".json") names /\
    load_search_config (search_name +:+ ".json") w1 = (Raise OSError, w1).
Proof.
  intros Hd Hsave Hnone. pose proof (all_dots_no_slash _ Hd) as Hs.
  destruct (saved_search_listed config search_name w w1 Hs Hsave) as (entries & Hl & Hin).
  eexists. split; [exact (get_saved_searches_run entries w1 Hl)|]. split.
  - apply in_map_iff. exists (search_name +:+ ".json"). split.
    + now rewrite splitext_json, Hd.
    + apply filter_In. split; [assumption | apply endswith_json].
  - apply save_search_config_run in Hsave. cbv zeta in Hsave.
    rewrite config_file_plain in Hsave by assumption.
    unfold load_search_config. rewrite config_file_plain
      by (rewrite has_slash_app, Hs; reflexivity).
    cbv [mbind ME_mbind read_file].
    assert (Hfile : files w1 !! ("saved_searches/" +:+ (search_name +:+ ".json") +:+ ".json")
                    = None).
    { subst w1. cbn [files]. rewrite lookup_insert_ne.
      - rewrite <- Hnone. f_equal. now rewrite !str_app_assoc.
      - intros E. apply str_app_inv_l in E. apply (f_equal String.length) in E.
        rewrite !str_length_app in E. cbn [String.length] in E. lia. }
    now rewrite Hfile.
Qed.

Lemma saved_search_with_dotted_name_witness :
  exists names,
    get_saved_searches (snd (save_search_config (PyDict []) "" (fresh_world numbered_pages)))
    = (Ok names, snd (save_search_config (PyDict []) "" (fresh_world numbered_pages))) /\
    In ".json" names /\
    load_search_config ".json"
      (snd (save_search_config (PyDict []) "" (fresh_world numbered_pages)))
    = (Raise OSError, snd (save_search_config (PyDict []) "" (fresh_world numbered_pages))).
Proof.
  exact (saved_search_with_dotted_name (PyDict []) "" (fresh_world numbered_pages) _
           eq_refl eq_refl eq_refl).
Defined.

(** X25.  Before the first search is saved there is no directory to list:
    [get_saved_searches] raises [OSError] where an empty list would be
    expected.  Once a search has been saved, under any name, it returns a
    list. *)
Theorem get_saved_searches_needs_the_directory (config : pyval) (search_name : string)
    w w1 :
  SAVED_SEARCHES_DIR ∉ dirs w ->
  get_saved_searches w = (Raise OSError, w) /\
  (save_search_config config search_name w = (Ok tt, w1) ->
   exists names, get_saved_searches w1 = (Ok names, w1)).
Proof.
  intros Hno. split.
  - unfold get_saved_searches, os_listdir. cbv [mbind ME_mbind].
    now rewrite bool_decide_false.
  - intros Hsave. apply save_search_config_run in Hsave. cbv zeta in Hsave.
    eexists. apply get_saved_searches_run. unfold os_listdir.
    rewrite bool_decide_true; [reflexivity|]. subst w1. cbn [dirs]. set_solver.
Qed.

Lemma get_saved_searches_needs_the_directory_witness :
  get_saved_searches (fresh_world numbered_pages)
  = (Raise OSError, fresh_world numbered_pages).
Proof.
  assert (H : SAVED_SEARCHES_DIR ∉ dirs (fresh_world numbered_pages)) by set_solver.
  exact (proj1 (get_saved_searches_needs_the_directory (PyDict []) ""
                  (fresh_world numbered_pages) (fresh_world numbered_pages) H)).
Defined.

(** ** The order of the requests *)





(** ** Pages without rows *)










(** ** The defaults of the page prompts *)

(** X27.  The defaults of the two prompts for a number of pages (lines 291
    and 303).  The first prompt offers [10] whatever the service holds:
    with fewer than ten pages, Enter is refused with [ValueError], and the
    fetch does not start.  The second prompt offers the number of pages
    that remain, and Enter is accepted whenever that prompt is made. *)
Theorem default_page_counts (total_pages remaining_pages : Z) :
  0 < remaining_pages < 10 ^ Z.of_nat int_max_str_digits ->
  validate_input "10" (Some 1) (Some total_pages)
  = (if (total_pages <? 10)%Z then Raise ValueError else Ok (Some 10)) /\
  validate_input (py_str remaining_pages) (Some 1) (Some remaining_pages)
  = Ok (Some remaining_pages).
Proof.
  intros Hr. split.
  - now rewrite (validate_input_run "10" _ _ 10) by (discriminate || reflexivity).
  - apply validate_input_keeps; [lia | |]; cbn [below above]; apply Z.ltb_ge; lia.
Qed.

Lemma default_page_counts_witness :
  validate_input "10" (Some 1) (Some 3) = Raise ValueError /\
  validate_input "7" (Some 1) (Some 7) = Ok (Some 7).
Proof.
  assert (H : 0 < 7 < 10 ^ Z.of_nat int_max_str_digits)
    by (split; [reflexivity | vm_compute; reflexivity]).
  exact (default_page_counts 3 7 H).
Defined.
